(** * Kalimera: the daily automation runner ([master_runner_short.py])

    A shallow embedding of the runner's functions and the properties its
    specification states about them.

    The runner shells out to child processes, reads and rewrites a few
    directories, logs, sleeps and sends a report.  All of that is made
    explicit here: a function of the script is a computation in a state and
    exception monad over
    - the file system (a tree of directories and files),
    - the trace of observable events (log records, child processes, sleeps,
      imports, e-mails, and the entry of every function of the module),
    and the parts of the world the script cannot decide (what a child process
    does, what the collaborators return) are fields of a [World] record.

    The two tests of [test_apple_sentiment.py] that use nothing but paths
    and files are embedded in the same way. *)

From stdpp Require Import gmap strings list fin_maps pretty.
From Stdlib Require Import Ascii String ZArith.

#[local] Set Warnings "-register-all".
#[local] Open Scope Z_scope.

(** ** Python values *)

(** Exceptions.  Every constructor stands for an instance of a subclass of
    Python's [Exception]: [subprocess.CalledProcessError], and anything else
    ([OSError] and its subclasses, [ImportError], [TypeError], ...), of which
    only the class name and the message are kept.  [KeyboardInterrupt] and
    [SystemExit] are not [Exception]s; they end the process and are not part
    of the model. *)
Inductive exn :=
| CalledProcessError (returncode : Z) (cmd : list string) (stdout stderr : option string)
| PyException (cls msg : string).

(** [repr] of a list of strings, for arguments free of quotes and escapes. *)
Definition repr_list (l : list string) : string :=
  "[" +:+ String.concat ", " ((λ s, "'" +:+ s +:+ "'") <$> l) +:+ "]".

(** [str(e)] *)
Definition exn_str (e : exn) : string :=
  match e with
  | CalledProcessError rc cmd _ _ =>
      "Command '" +:+ repr_list cmd +:+ "' returned non-zero exit status " +:+ pretty rc +:+ "."
  | PyException _ msg => msg
  end.

(** Truthiness of an optional string ([if e.stdout:]). *)
Definition truthy (s : option string) : bool :=
  match s with
  | Some (String _ _) => true
  | _ => false
  end.

(** A [pandas.DataFrame], as its rows. *)
Definition dataframe := list (list string).

(** [s.count(c)] for a one-character [c], and [s * n]. *)
Fixpoint count_char (c : ascii) (s : string) : Z :=
  match s with
  | EmptyString => 0
  | String d s' => (if Ascii.eqb c d then 1 else 0) + count_char c s'
  end.

Fixpoint str_repeat (s : string) (n : nat) : string :=
  match n with
  | O => ""
  | S n' => s +:+ str_repeat s n'
  end.

(** ** The file system *)

(** Absolute paths, as the list of their components. *)
Definition path := list string.

Definition path_str (p : path) : string :=
  "/" +:+ String.concat "/" p.

(** A file has an identity ([ino]: two files are the same file when they have
    the same one), contents and a modification time; a directory has a
    modification time and entries. *)
Inductive node :=
| File (ino : nat) (data : string) (mtime : Z)
| Dir (mtime : Z) (entries : gmap string node).

Fixpoint fs_lookup (p : path) (n : node) : option node :=
  match p with
  | [] => Some n
  | x :: p' =>
      match n with
      | Dir _ ch => ch !! x ≫= fs_lookup p'
      | File _ _ _ => None
      end
  end.

(** [fs_alter f p n]: the entry at [p] becomes [f] of what it was (created,
    replaced or removed), when the parent of [p] is a directory; nothing
    changes otherwise. *)
Fixpoint fs_alter (f : option node → option node) (p : path) (n : node) : node :=
  match p with
  | [] => n
  | x :: p' =>
      match n with
      | File _ _ _ => n
      | Dir t ch =>
          match p' with
          | [] => Dir t (partial_alter f x ch)
          | _ :: _ => Dir t (alter (fs_alter f p') x ch)
          end
      end
  end.

Definition is_dir (p : path) (root : node) : bool :=
  match fs_lookup p root with
  | Some (Dir _ _) => true
  | _ => false
  end.

Definition is_file (p : path) (root : node) : bool :=
  match fs_lookup p root with
  | Some (File _ _ _) => true
  | _ => false
  end.

(** [fnmatch] for a component, for patterns made of literal characters and
    [*] (the only ones the script uses); case-sensitive. *)
Fixpoint fnmatch (pat : string) (s : string) : bool :=
  match pat with
  | EmptyString => match s with EmptyString => true | _ => false end
  | String c pat' =>
      if Ascii.eqb c "*"%char
      then (fix star (s : string) : bool :=
              fnmatch pat' s ||
              match s with
              | EmptyString => false
              | String _ s' => star s'
              end) s
      else match s with
           | EmptyString => false
           | String d s' => Ascii.eqb c d && fnmatch pat' s'
           end
  end.

(** [Path.glob(pat)] for a one-component pattern: the entries of the
    directory whose name matches, in the directory's order (which depends on
    nothing but the directory's entries); nothing when the path is not a
    directory. *)
Definition glob_names (pat : string) (dir : path) (root : node) : list string :=
  match fs_lookup dir root with
  | Some (Dir _ ch) => filter (λ x, fnmatch pat x = true) (fst <$> map_to_list ch)
  | _ => []
  end.

Definition glob (pat : string) (dir : path) (root : node) : list path :=
  (λ x, dir ++ [x]) <$> glob_names pat dir root.

(** ** State, events and the world *)

Inductive level := INFO | WARNING | ERROR.

(** What [subprocess.run] found: the child ran and exited with a status, or
    could not be started (no such executable, permission denied, ...). *)
Inductive proc_result :=
| Exited (code : Z)
| NotStarted (cls msg : string).

Inductive event :=
| Enter (fn : string)
| Log (lvl : level) (msg : string)
| Spawn (cmd : list string) (cwd : option string) (env : option (gmap string string))
        (result : proc_result)
| Sleep (seconds : Z)
| Import (module : string)
| SendEmail (df : dataframe) (test_mode : bool).

(** The machine: the file-system tree, the next fresh file identity and the
    wall clock (seconds). *)
Record machine := Machine {
  root : node;
  next_ino : nat;
  clock : Z
}.

Record state := State {
  os : machine;
  trace : list event
}.

Definition is_spawn (e : event) : bool :=
  match e with
  | Spawn _ _ _ _ => true
  | _ => false
  end.

(** The child processes started so far. *)
Definition spawned (tr : list event) : list event :=
  List.filter is_spawn tr.

(** What the script does not decide. *)
Record World := {
  (** [os.environ], [os.getcwd()], [Path(__file__).parent], [sys.executable] *)
  os_environ : gmap string string;
  os_getcwd : path;
  script_dir : path;
  sys_executable : string;
  (** the [n]-th child process started by the run ([n] counts from 0): how
      it ends and what it leaves of the machine *)
  child : nat → list string → machine → proc_result * machine;
  (** formatting of a clock reading and of a duration *)
  fmt_datetime : Z → string;
  fmt_duration : Z → string;
  (** [traceback.format_exc()] for the exception being handled *)
  format_exc : exn → string;
  (** the collaborators: importing a module ([None]: it imports),
      [pandas.read_csv] on a file's contents, [SentimentEmailSender()] and
      its [send_email(df, test_mode)] *)
  import_module : string → option exn;
  read_csv : string → exn + dataframe;
  new_sender : option exn;
  send_email : dataframe → bool → exn + bool
}.

(** ** The monad: state and exceptions *)

Inductive result (A : Type) :=
| Ret (a : A)
| Raise (e : exn).
Arguments Ret {A} a.
Arguments Raise {A} e.

Definition M (A : Type) : Type := state → result A * state.

Definition ret {A} (a : A) : M A := λ st, (Ret a, st).

(** Sequencing: an exception skips the rest. *)
Definition bind {A B} (m : M A) (k : A → M B) : M B := λ st,
  match m st with
  | (Ret a, st') => k a st'
  | (Raise e, st') => (Raise e, st')
  end.

Declare Scope M_scope.
Delimit Scope M_scope with M.
Bind Scope M_scope with M.
Notation "x ← y ; z" := (bind y (λ x, z))
  (at level 20, y at level 100, z at level 200, only parsing) : M_scope.
Notation "x ;; z" := (bind x (λ _, z))
  (at level 100, z at level 200, only parsing, right associativity) : M_scope.
#[local] Open Scope M_scope.

Definition raise {A} (e : exn) : M A := λ st, (Raise e, st).

(** [try: m  except <the classes h answers>: h e]; an exception that [h]
    does not answer propagates. *)
Definition try_except {A} (m : M A) (h : exn → option (M A)) : M A := λ st,
  match m st with
  | (Ret a, st') => (Ret a, st')
  | (Raise e, st') =>
      match h e with
      | Some k => k st'
      | None => (Raise e, st')
      end
  end.

(** [except Exception as e:] *)
Definition except_Exception {A} (k : exn → M A) : exn → option (M A) :=
  λ e, Some (k e).

(** [except subprocess.CalledProcessError as e:] *)
Definition except_CalledProcessError {A} (k : exn → M A) : exn → option (M A) :=
  λ e, match e with
       | CalledProcessError _ _ _ _ => Some (k e)
       | PyException _ _ => None
       end.

(** Two [except] clauses: the first that answers. *)
Definition orelse {A} (h1 h2 : exn → option (M A)) : exn → option (M A) :=
  λ e, match h1 e with
       | Some k => Some k
       | None => h2 e
       end.

Definition get_machine : M machine := λ st, (Ret (os st), st).
Definition put_machine (m : machine) : M unit := λ st, (Ret tt, State m (trace st)).
Definition emit (e : event) : M unit := λ st, (Ret tt, State (os st) (trace st ++ [e])).

Definition enter (fn : string) : M unit := emit (Enter fn).
Definition logger_info (msg : string) : M unit := emit (Log INFO msg).
Definition logger_warning (msg : string) : M unit := emit (Log WARNING msg).
Definition logger_error (msg : string) : M unit := emit (Log ERROR msg).

(** [for x in l: body x] *)
Fixpoint for_each {A} (l : list A) (body : A → M unit) : M unit :=
  match l with
  | [] => ret tt
  | x :: l' => body x;; for_each l' body
  end.

(** [range(a, b)] *)
Definition range (a b : Z) : list Z :=
  (λ i : nat, a + Z.of_nat i) <$> seq 0 (Z.to_nat (b - a)).

(** ** The operating system, as the script uses it *)

Definition set_root (r : node) (m : machine) : machine :=
  Machine r (next_ino m) (clock m).

(** The directory a path lies in, and its last component. *)
Definition parent (p : path) : path := removelast p.
Definition basename (p : path) : string := List.last p "".

(** [Path.exists()] *)
Definition path_exists (p : path) : M bool :=
  m ← get_machine;
  ret (match fs_lookup p (root m) with Some _ => true | None => false end).

(** [shutil.rmtree(p)]: the directory goes with everything below it. *)
Definition shutil_rmtree (p : path) : M unit :=
  m ← get_machine;
  match fs_lookup p (root m) with
  | Some (Dir _ _) => put_machine (set_root (fs_alter (λ _, None) p (root m)) m)
  | Some (File _ _ _) => raise (PyException "NotADirectoryError" (path_str p))
  | None => raise (PyException "FileNotFoundError" (path_str p))
  end.

(** [Path.mkdir(exist_ok=True)] *)
Definition mkdir_exist_ok (p : path) : M unit :=
  m ← get_machine;
  match fs_lookup p (root m) with
  | Some (Dir _ _) => ret tt
  | Some (File _ _ _) => raise (PyException "FileExistsError" (path_str p))
  | None =>
      match fs_lookup (parent p) (root m) with
      | Some (Dir _ _) =>
          put_machine (set_root (fs_alter (λ _, Some (Dir (clock m) ∅)) p (root m)) m)
      | Some (File _ _ _) => raise (PyException "NotADirectoryError" (path_str p))
      | None => raise (PyException "FileNotFoundError" (path_str p))
      end
  end.

(** [shutil.copy2(src, dst)]: contents and modification time of [src] go to
    [dst] (into [dst], under the name of [src], when [dst] is a directory).
    An existing file is rewritten in place and stays the same file; a new
    file gets a fresh identity. *)
Definition shutil_copy2 (src dst : path) : M unit :=
  m ← get_machine;
  let dst := if is_dir dst (root m) then dst ++ [basename src] else dst in
  match fs_lookup src (root m) with
  | None => raise (PyException "FileNotFoundError" (path_str src))
  | Some (Dir _ _) => raise (PyException "IsADirectoryError" (path_str src))
  | Some (File i data mtime) =>
      match fs_lookup dst (root m) with
      | Some (Dir _ _) => raise (PyException "IsADirectoryError" (path_str dst))
      | Some (File j _ _) =>
          if Nat.eqb i j
          then raise (PyException "SameFileError" (path_str dst))
          else put_machine (set_root (fs_alter (λ _, Some (File j data mtime)) dst (root m)) m)
      | None =>
          match fs_lookup (parent dst) (root m) with
          | Some (Dir _ _) =>
              put_machine
                (Machine (fs_alter (λ _, Some (File (next_ino m) data mtime)) dst (root m))
                         (S (next_ino m)) (clock m))
          | _ => raise (PyException "FileNotFoundError" (path_str dst))
          end
      end
  end.

(** [Path.unlink()] *)
Definition unlink (p : path) : M unit :=
  m ← get_machine;
  match fs_lookup p (root m) with
  | Some (File _ _ _) => put_machine (set_root (fs_alter (λ _, None) p (root m)) m)
  | Some (Dir _ _) => raise (PyException "IsADirectoryError" (path_str p))
  | None => raise (PyException "FileNotFoundError" (path_str p))
  end.

(** [Path.stat().st_mtime] *)
Definition stat_st_mtime (p : path) : M Z :=
  m ← get_machine;
  match fs_lookup p (root m) with
  | Some (File _ _ t) => ret t
  | Some (Dir t _) => ret t
  | None => raise (PyException "FileNotFoundError" (path_str p))
  end.

(** [time.time()] *)
Definition time_time : M Z :=
  m ← get_machine; ret (clock m).

(** [time.sleep(secs)] *)
Definition time_sleep (secs : Z) : M unit := λ st,
  (Ret tt,
   State (Machine (root (os st)) (next_ino (os st)) (clock (os st) + secs))
         (trace st ++ [Sleep secs])).

Definition e_returncode (e : exn) : Z :=
  match e with CalledProcessError rc _ _ _ => rc | PyException _ _ => 0 end.
Definition e_stdout (e : exn) : option string :=
  match e with CalledProcessError _ _ out _ => out | PyException _ _ => None end.
Definition e_stderr (e : exn) : option string :=
  match e with CalledProcessError _ _ _ err => err | PyException _ _ => None end.

(** What one pass through a loop body decides: [return b], or go on with the
    next iteration. *)
Inductive flow :=
| Return (b : bool)
| Next.

Fixpoint for_attempts (body : Z → M flow) (l : list Z) (otherwise : bool) : M bool :=
  match l with
  | [] => ret otherwise
  | a :: l' =>
      r ← body a;
      match r with
      | Return b => ret b
      | Next => for_attempts body l' otherwise
      end
  end.

Section Runner.

Variable w : World.

(** [subprocess.run(command, check=check, cwd=cwd, env=env)]: the next child
    process of the run.  Its output is not captured, so the
    [CalledProcessError] that [check=True] raises on a non-zero status has
    neither [stdout] nor [stderr]. *)
Definition subprocess_run (command : list string) (check : bool)
    (cwd : option string) (env : option (gmap string string)) : M unit := λ st,
  let '(r, m') := child w (List.length (spawned (trace st))) command (os st) in
  let st' := State m' (trace st ++ [Spawn command cwd env r]) in
  match r with
  | Exited code =>
      if check && negb (code =? 0)
      then (Raise (CalledProcessError code command None None), st')
      else (Ret tt, st')
  | NotStarted cls msg => (Raise (PyException cls msg), st')
  end.

(** *** [run_command_with_logging] (lines 46-95) *)

(** The body of the [for] loop, for one value of [attempt]. *)
Definition attempt_body (command : list string) (description : string) (max_retries : Z)
    (env : gmap string string) (attempt : Z) : M flow :=
  try_except
    (logger_info ("🔄 Attempt " +:+ pretty attempt +:+ "/" +:+ pretty max_retries +:+ ": "
                  +:+ String.concat " " command);;
     try_except
       (subprocess_run command true (Some (path_str (os_getcwd w))) (Some env);;
        ret (Return true))
       (except_CalledProcessError (λ e,
          logger_error ("Command failed with exit code " +:+ pretty (e_returncode e));;
          (if truthy (e_stdout e)
           then logger_error ("Output: " +:+ default "" (e_stdout e))
           else ret tt);;
          (if truthy (e_stderr e)
           then logger_error ("Error: " +:+ default "" (e_stderr e))
           else ret tt);;
          ret (Return false))))
    (orelse
       (except_CalledProcessError (λ e,
          logger_error ("❌ Attempt " +:+ pretty attempt +:+ " failed: " +:+ exn_str e);;
          (if truthy (e_stdout e)
           then logger_error ("📤 STDOUT: " +:+ default "" (e_stdout e))
           else ret tt);;
          (if truthy (e_stderr e)
           then logger_error ("📤 STDERR: " +:+ default "" (e_stderr e))
           else ret tt);;
          if attempt =? max_retries
          then
            logger_error ("🚨 All " +:+ pretty max_retries +:+ " attempts failed for: "
                          +:+ description);;
            ret (Return false)
          else
            logger_info "🔄 Retrying in 5 seconds...";;
            time_sleep 5;;
            ret Next))
       (except_Exception (λ e,
          logger_error ("🚨 Unexpected error in " +:+ description +:+ ": " +:+ exn_str e);;
          ret (Return false)))).

Definition run_command_with_logging (command : list string) (description : string)
    (max_retries : Z) : M bool :=
  enter "run_command_with_logging";;
  let env := <["PYTHONPATH" := path_str (os_getcwd w)]> (os_environ w) in
  for_attempts (attempt_body command description max_retries env)
               (range 1 (max_retries + 1)) false.

(** *** [copy_to_docs] (lines 97-145) *)

(** "Clean docs directory first" and "Ensure docs directory exists"
    (lines 114-120). *)
Definition clean_docs_dir (docs_dir : path) : M unit :=
  docs_exists ← path_exists docs_dir;
  (if docs_exists
   then logger_info "🧹 Cleaning docs directory of historic data...";;
        shutil_rmtree docs_dir
   else ret tt);;
  mkdir_exist_ok docs_dir.

(** "Copy latest sentiment report as both index.html and
    sentiment_report_latest.html" (lines 122-131). *)
Definition copy_report (results_dir docs_dir : path) : M unit :=
  let latest_report := results_dir ++ ["sentiment_report_latest.html"] in
  report_exists ← path_exists latest_report;
  if report_exists
  then shutil_copy2 latest_report (docs_dir ++ ["index.html"]);;
       shutil_copy2 latest_report (docs_dir ++ ["sentiment_report_latest.html"]);;
       logger_info "✅ Copied main dashboard as index.html and sentiment_report_latest.html"
  else logger_warning "⚠️ No sentiment report found to copy".

(** The loop over the per-stock article pages, with its counter
    (lines 133-137). *)
Fixpoint copy_articles (docs_dir : path) (articles : list path) (article_count : Z) : M Z :=
  match articles with
  | [] => ret article_count
  | article_file :: rest =>
      shutil_copy2 article_file (docs_dir ++ [basename article_file]);;
      copy_articles docs_dir rest (article_count + 1)
  end.

Definition copy_to_docs : M bool :=
  enter "copy_to_docs";;
  try_except
    (let current_dir := script_dir w in
     let docs_dir := current_dir ++ ["docs"] in
     let results_dir := current_dir ++ ["results"] in
     clean_docs_dir docs_dir;;
     copy_report results_dir docs_dir;;
     m ← get_machine;
     article_count ← copy_articles docs_dir
                       (glob "articles_*_latest.html" results_dir (root m)) 0;
     logger_info ("✅ Copied " +:+ pretty article_count
                  +:+ " individual stock article pages (LATEST ONLY)");;
     logger_info "📊 Sentiment dashboard will be available at: https://theemeraldnetwork.github.io/Kalimera/";;
     ret true)
    (except_Exception (λ e,
       logger_error ("Error copying files to docs: " +:+ exn_str e);;
       ret false)).

(** *** [push_to_github] (lines 147-169) *)

Definition push_to_github : M bool :=
  enter "push_to_github";;
  try_except
    (m ← get_machine;
     let timestamp := fmt_datetime w (clock m) in
     let commands :=
       [ ["git"; "add"; "results/*"];
         ["git"; "add"; "docs/*"];
         ["git"; "commit"; "-m";
          "Update sentiment analysis and dashboard - " +:+ timestamp];
         ["git"; "push"] ] in
     for_each commands (λ cmd,
       logger_info ("Running: " +:+ String.concat " " cmd);;
       subprocess_run cmd true None None);;
     logger_info "Successfully pushed changes to GitHub";;
     ret true)
    (except_CalledProcessError (λ e,
       logger_error ("Error pushing to GitHub: " +:+ exn_str e);;
       ret false)).

(** *** The collaborators *)

(** [import module] / [from module import ...] *)
Definition py_import (module : string) : M unit :=
  emit (Import module);;
  match import_module w module with
  | Some e => raise e
  | None => ret tt
  end.

(** [pd.read_csv(p)] *)
Definition pd_read_csv (p : path) : M dataframe :=
  m ← get_machine;
  match fs_lookup p (root m) with
  | Some (File _ data _) =>
      match read_csv w data with
      | inl e => raise e
      | inr df => ret df
      end
  | Some (Dir _ _) => raise (PyException "IsADirectoryError" (path_str p))
  | None => raise (PyException "FileNotFoundError" (path_str p))
  end.

(** [SentimentEmailSender()] *)
Definition SentimentEmailSender : M unit :=
  match new_sender w with
  | Some e => raise e
  | None => ret tt
  end.

(** [sender.send_email(df, test_mode=test_mode)] *)
Definition sender_send_email (df : dataframe) (test_mode : bool) : M bool :=
  emit (SendEmail df test_mode);;
  match send_email w df test_mode with
  | inl e => raise e
  | inr success => ret success
  end.

(** *** [send_email_report] (lines 171-206) *)

(** [max(files, key=lambda f: f.stat().st_mtime)], given the best so far: the
    first of the most recent. *)
Fixpoint max_by_mtime (best : path) (best_mtime : Z) (files : list path) : M path :=
  match files with
  | [] => ret best
  | f :: rest =>
      t ← stat_st_mtime f;
      if best_mtime <? t then max_by_mtime f t rest else max_by_mtime best best_mtime rest
  end.

(** [f.name.count('_') == 2 and 'latest' not in f.name] *)
Definition dated_summary (f : path) : bool :=
  (count_char "_" (basename f) =? 2)
  && match String.index 0 "latest" (basename f) with Some _ => false | None => true end.

Definition send_email_report : M bool :=
  enter "send_email_report";;
  try_except
    (logger_info "Sending email report...";;
     py_import "automated_sentiment_daily_analysis.utils.email.report_sender";;
     py_import "pandas";;
     let results_dir := os_getcwd w ++ ["results"] in
     let latest_symlink := results_dir ++ ["sentiment_summary_latest.csv"] in
     latest_exists ← path_exists latest_symlink;
     summary ←
       (if latest_exists
        then df ← pd_read_csv latest_symlink; ret (Some df)
        else
          m ← get_machine;
          let summary_files :=
            List.filter dated_summary (glob "sentiment_summary_*.csv" results_dir (root m)) in
          match summary_files with
          | [] => logger_warning "No sentiment summary files found";; ret None
          | f :: rest =>
              t ← stat_st_mtime f;
              latest_file ← max_by_mtime f t rest;
              df ← pd_read_csv latest_file;
              ret (Some df)
          end);
     match summary with
     | None => ret false
     | Some summary_df =>
         SentimentEmailSender;;
         sender_send_email summary_df false;;
         logger_info "✅ Email report sent successfully";;
         ret true
     end)
    (except_Exception (λ e,
       logger_error ("Error sending email report: " +:+ exn_str e);;
       ret false)).

(** *** [cleanup_old_logs] (lines 357-384) *)

(** The body of the loop over the log files (lines 379-381). *)
Definition cleanup_log_file (thirty_days_ago : Z) (log_file : path) : M unit :=
  t ← stat_st_mtime log_file;
  if t <? thirty_days_ago
  then unlink log_file;;
       logger_info ("🗑️ Deleted old log: " +:+ basename log_file)
  else ret tt.

Definition cleanup_old_logs : M unit :=
  enter "cleanup_old_logs";;
  try_except
    (let current_dir := script_dir w in
     let logs_dir := current_dir ++ ["logs"] in
     logs_exists ← path_exists logs_dir;
     if negb logs_exists then ret tt
     else
       current_time ← time_time;
       let thirty_days_ago := current_time - (30 * 24 * 60 * 60) in
       m ← get_machine;
       for_each (glob "*.log" logs_dir (root m)) (cleanup_log_file thirty_days_ago))
    (except_Exception (λ e,
       logger_warning ("⚠️ Log cleanup warning: " +:+ exn_str e))).

(** *** [main] (lines 208-355) *)

(** [setup_logging()]: the logger is the trace; the log directory and the
    log file that the handlers write belong to that sink. *)
Definition setup_logging : M unit :=
  enter "setup_logging".

(** Step 5 of [main]: the e-mail report (lines 311-337). *)
Definition email_report_step : M unit :=
  logger_info "📧 Sending email report...";;
  try_except
    (py_import "utils.email.report_sender";;
     py_import "pandas";;
     let current_dir := script_dir w in
     let sentiment_file := current_dir ++ ["results"; "sentiment_summary_latest.csv"] in
     file_exists ← path_exists sentiment_file;
     if file_exists
     then
       df ← pd_read_csv sentiment_file;
       logger_info ("📊 Loaded sentiment data for " +:+ pretty (List.length df) +:+ " stocks");;
       SentimentEmailSender;;
       success ← sender_send_email df false;
       if success
       then logger_info "✅ Email report sent successfully"
       else logger_error "🚨 Email report failed to send"
     else logger_error "🚨 No sentiment data file found for email")
    (except_Exception (λ e,
       logger_error ("🚨 Email error: " +:+ exn_str e);;
       logger_error ("🚨 Email traceback: " +:+ format_exc w e))).

Definition main : M bool :=
  enter "main";;
  start_time ← time_time;
  setup_logging;;
  logger_info (str_repeat "=" 60);;
  logger_info "🐅 TIGRO DAILY AUTOMATION STARTED";;
  logger_info ("📅 Date: " +:+ fmt_datetime w start_time);;
  logger_info ("📁 Project Root: " +:+ path_str (os_getcwd w));;
  logger_info ("🐍 Python Executable: " +:+ sys_executable w);;
  logger_info ("🐍 Python Virtual Environment: "
               +:+ default "Not activated" (os_environ w !! "VIRTUAL_ENV"));;
  logger_info (str_repeat "=" 60);;
  (* Check prerequisites *)
  logger_info "🔍 Checking prerequisites...";;
  let venv_python := os_getcwd w ++ ["venv"; "bin"; "python"] in
  venv_exists ← path_exists venv_python;
  let python_path := if venv_exists then path_str venv_python else sys_executable w in
  logger_info ("🐍 Python executable: " +:+ python_path);;
  let sentiment_script := os_getcwd w ++ ["sent_collect_data.py"] in
  let dashboard_script := os_getcwd w ++ ["viz_dashboard_generator.py"] in
  sentiment_exists ← path_exists sentiment_script;
  if negb sentiment_exists
  then logger_error "🚨 Missing sentiment script: sent_collect_data.py";;
       ret false
  else
  dashboard_exists ← path_exists dashboard_script;
  if negb dashboard_exists
  then logger_error "🚨 Missing dashboard script: viz_dashboard_generator.py";;
       ret false
  else
  logger_info "✅ All prerequisites checked successfully";;
  (* Step 1: Sentiment Analysis *)
  logger_info "📊 Starting sentiment analysis...";;
  collected ← run_command_with_logging [python_path; "sent_collect_data.py"]
                "sentiment analysis" 3;
  if negb collected
  then logger_error "🚨 Sentiment analysis failed!";;
       ret false
  else
  logger_info "✅ Sentiment analysis completed successfully";;
  (* Step 2: Dashboard Generation *)
  logger_info "📈 Generating dashboard...";;
  generated ← run_command_with_logging [python_path; "viz_dashboard_generator.py"]
                "dashboard generation" 3;
  if negb generated
  then logger_error "🚨 Dashboard generation failed!";;
       ret false
  else
  logger_info "✅ Dashboard generation completed successfully";;
  (* Step 3: Git operations - Push index.html directly *)
  logger_info "🚀 Syncing dashboard to GitHub Pages...";;
  now ← time_time;
  let timestamp := fmt_datetime w now in
  staged ← run_command_with_logging ["git"; "add"; "index.html"] "git add index.html" 2;
  if negb staged
  then logger_error "🚨 Git add index.html failed!";;
       ret false
  else
  committed ← run_command_with_logging
                ["git"; "commit"; "-m"; "📊 Daily dashboard update - " +:+ timestamp]
                "git commit" 2;
  (if negb committed
   then logger_warning "⚠️ Git commit failed - possibly no changes to dashboard"
   else ret tt);;
  pushed ← run_command_with_logging ["git"; "push"; "origin"; "gh-pages"] "git push" 1;
  (if negb pushed
   then logger_warning "⚠️ Git push failed - dashboard may not be updated on GitHub"
   else logger_info "✅ Successfully synced latest dashboard to GitHub";;
        logger_info "🌐 Dashboard available at: https://theemeraldnetwork.github.io/Kalimera/");;
  (* Step 5: Email Report *)
  email_report_step;;
  (* Step 6: Cleanup *)
  logger_info "🧹 Cleaning up old log files...";;
  cleanup_old_logs;;
  logger_info "✅ Log cleanup completed";;
  (* Final summary *)
  end_time ← time_time;
  let duration := end_time - start_time in
  logger_info (str_repeat "=" 60);;
  logger_info "🎉 DAILY AUTOMATION COMPLETED SUCCESSFULLY";;
  logger_info ("⏱️  Total Duration: " +:+ fmt_duration w duration);;
  logger_info "📊 Dashboard: https://theemeraldnetwork.github.io/Kalimera/";;
  logger_info "📧 Email Report: Disabled as requested";;
  logger_info (str_repeat "=" 60);;
  ret true.

End Runner.

(** * Specification vocabulary *)

(** The terms in which the properties of the program are stated.  They
    describe states, traces and runs; none of them is part of the program. *)

(** ** The command runner *)

Section RunnerTerms.

Variable w : World.

(** How [subprocess.run(..., check=True)] ends for a child's result: the
    exception it raises, if any. *)
Definition raised_by (cmd : list string) (r : proc_result) : option exn :=
  match r with
  | Exited code => if code =? 0 then None else Some (CalledProcessError code cmd None None)
  | NotStarted cls msg => Some (PyException cls msg)
  end.

Definition succeeded (r : proc_result) : bool :=
  match raised_by [] r with
  | None => true
  | Some _ => false
  end.

(** The result of the next child process of the run, were it started now
    with this command, and the machine it would leave. *)
Definition next_child (cmd : list string) (st : state) : proc_result * machine :=
  child w (List.length (spawned (trace st))) cmd (os st).

(** The environment the runner gives its children. *)
Definition child_env : gmap string string :=
  <["PYTHONPATH" := path_str (os_getcwd w)]> (os_environ w).

(** What the runner logs after a child that did not succeed. *)
Definition failure_log (description : string) (r : proc_result) : list event :=
  match r with
  | Exited code =>
      if code =? 0 then []
      else [Log ERROR ("Command failed with exit code " +:+ pretty code)]
  | NotStarted cls msg =>
      [Log ERROR ("🚨 Unexpected error in " +:+ description +:+ ": " +:+ msg)]
  end.

Definition attempt_log (attempt max_retries : Z) (command : list string) : event :=
  Log INFO ("🔄 Attempt " +:+ pretty attempt +:+ "/" +:+ pretty max_retries +:+ ": "
            +:+ String.concat " " command).

Definition runner_spawn (command : list string) (r : proc_result) : event :=
  Spawn command (Some (path_str (os_getcwd w))) (Some child_env) r.

End RunnerTerms.

(** ** Events and exceptions of a computation *)

(** [emits P m]: whatever the state, [m] only appends events to the trace,
    and every event it appends satisfies [P]. *)
Definition emits {A} (P : event → Prop) (m : M A) : Prop :=
  ∀ st, ∃ evs, trace (m st).2 = trace st ++ evs ∧ Forall P evs.

(** [no_raise m]: [m] returns a value, whatever the state. *)
Definition no_raise {A} (m : M A) : Prop :=
  ∀ st, ∃ a, (m st).1 = Ret a.

(** [enters fn m]: whatever the state, the first event [m] adds to the trace
    is the entry of [fn]. *)
Definition enters {A} (fn : string) (m : M A) : Prop :=
  ∀ st, ∃ evs, trace (m st).2 = trace st ++ Enter fn :: evs.

Definition any_event (e : event) : Prop := True.

(** ** The orchestrator *)

Section OrchestratorTerms.

Variable w : World.

Definition exists_in (m : machine) (p : path) : bool :=
  match fs_lookup p (root m) with
  | Some _ => true
  | None => false
  end.

(** The two prerequisites of [main]. *)
Definition has_sentiment_script (st : state) : bool :=
  exists_in (os st) (os_getcwd w ++ ["sent_collect_data.py"]).
Definition has_dashboard_script (st : state) : bool :=
  exists_in (os st) (os_getcwd w ++ ["viz_dashboard_generator.py"]).

Definition python_path (st : state) : string :=
  if exists_in (os st) (os_getcwd w ++ ["venv"; "bin"; "python"])
  then path_str (os_getcwd w ++ ["venv"; "bin"; "python"])
  else sys_executable w.

(** The commands of the five steps that start a child. *)
Definition collect_cmd (st : state) : list string := [python_path st; "sent_collect_data.py"].
Definition generate_cmd (st : state) : list string := [python_path st; "viz_dashboard_generator.py"].
Definition add_cmd : list string := ["git"; "add"; "index.html"].
Definition commit_cmd (timestamp : string) : list string :=
  ["git"; "commit"; "-m"; "📊 Daily dashboard update - " +:+ timestamp].
Definition push_cmd : list string := ["git"; "push"; "origin"; "gh-pages"].

(** What [main] logs before it checks the prerequisites. *)
Definition prelude (st : state) : list event :=
  [ Enter "main"; Enter "setup_logging";
    Log INFO (str_repeat "=" 60);
    Log INFO "🐅 TIGRO DAILY AUTOMATION STARTED";
    Log INFO ("📅 Date: " +:+ fmt_datetime w (clock (os st)));
    Log INFO ("📁 Project Root: " +:+ path_str (os_getcwd w));
    Log INFO ("🐍 Python Executable: " +:+ sys_executable w);
    Log INFO ("🐍 Python Virtual Environment: "
              +:+ default "Not activated" (os_environ w !! "VIRTUAL_ENV"));
    Log INFO (str_repeat "=" 60);
    Log INFO "🔍 Checking prerequisites...";
    Log INFO ("🐍 Python executable: " +:+ python_path st) ].

(** The events of one call of the runner whose child ended with [r]. *)
Definition run_events (command : list string) (description : string) (max_retries : Z)
    (r : proc_result) : list event :=
  [ Enter "run_command_with_logging"; attempt_log 1 max_retries command;
    runner_spawn w command r ] ++ failure_log description r.

Definition collect_events (st : state) (r : proc_result) : list event :=
  [ Log INFO "✅ All prerequisites checked successfully";
    Log INFO "📊 Starting sentiment analysis..." ]
  ++ run_events (collect_cmd st) "sentiment analysis" 3 r.

Definition generate_events (st : state) (r : proc_result) : list event :=
  [ Log INFO "✅ Sentiment analysis completed successfully";
    Log INFO "📈 Generating dashboard..." ]
  ++ run_events (generate_cmd st) "dashboard generation" 3 r.

Definition add_events (r : proc_result) : list event :=
  [ Log INFO "✅ Dashboard generation completed successfully";
    Log INFO "🚀 Syncing dashboard to GitHub Pages..." ]
  ++ run_events add_cmd "git add index.html" 2 r.

Definition commit_events (timestamp : string) (r : proc_result) : list event :=
  run_events (commit_cmd timestamp) "git commit" 2 r
  ++ (if succeeded r then []
      else [Log WARNING "⚠️ Git commit failed - possibly no changes to dashboard"]).

Definition push_events (r : proc_result) : list event :=
  run_events push_cmd "git push" 1 r
  ++ (if succeeded r
      then [ Log INFO "✅ Successfully synced latest dashboard to GitHub";
             Log INFO "🌐 Dashboard available at: https://theemeraldnetwork.github.io/Kalimera/" ]
      else [ Log WARNING "⚠️ Git push failed - dashboard may not be updated on GitHub" ]).

Definition epilogue (duration : string) : list event :=
  [ Log INFO "✅ Log cleanup completed";
    Log INFO (str_repeat "=" 60);
    Log INFO "🎉 DAILY AUTOMATION COMPLETED SUCCESSFULLY";
    Log INFO ("⏱️  Total Duration: " +:+ duration);
    Log INFO "📊 Dashboard: https://theemeraldnetwork.github.io/Kalimera/";
    Log INFO "📧 Email Report: Disabled as requested";
    Log INFO (str_repeat "=" 60) ].

(** Events of the report step and of the cleanup: log records, the imports
    of the report step, an e-mail, the entry of [cleanup_old_logs]. *)
Definition report_event (e : event) : Prop :=
  match e with
  | Log _ _ => True
  | Import module => module = "utils.email.report_sender" ∨ module = "pandas"
  | SendEmail _ test_mode => test_mode = false
  | _ => False
  end.

Definition cleanup_event (e : event) : Prop :=
  match e with
  | Log _ _ => True
  | _ => False
  end.

(** The runs of [main] from a state: the value returned, the machine left,
    the events added.  One constructor per way through the function. *)
Inductive main_run (st : state) : bool → machine → list event → Prop :=
| run_no_sentiment_script :
    has_sentiment_script st = false →
    main_run st false (os st)
      (prelude st ++ [Log ERROR "🚨 Missing sentiment script: sent_collect_data.py"])
| run_no_dashboard_script :
    has_sentiment_script st = true →
    has_dashboard_script st = false →
    main_run st false (os st)
      (prelude st ++ [Log ERROR "🚨 Missing dashboard script: viz_dashboard_generator.py"])
| run_collect_failed r1 m :
    has_sentiment_script st = true →
    has_dashboard_script st = true →
    succeeded r1 = false →
    main_run st false m
      (prelude st ++ collect_events st r1 ++ [Log ERROR "🚨 Sentiment analysis failed!"])
| run_generate_failed r1 r2 m :
    has_sentiment_script st = true →
    has_dashboard_script st = true →
    succeeded r1 = true →
    succeeded r2 = false →
    main_run st false m
      (prelude st ++ collect_events st r1 ++ generate_events st r2
       ++ [Log ERROR "🚨 Dashboard generation failed!"])
| run_add_failed r1 r2 r3 m :
    has_sentiment_script st = true →
    has_dashboard_script st = true →
    succeeded r1 = true →
    succeeded r2 = true →
    succeeded r3 = false →
    main_run st false m
      (prelude st ++ collect_events st r1 ++ generate_events st r2 ++ add_events r3
       ++ [Log ERROR "🚨 Git add index.html failed!"])
| run_completed r1 r2 r3 r4 r5 m timestamp duration report cleanup :
    has_sentiment_script st = true →
    has_dashboard_script st = true →
    succeeded r1 = true →
    succeeded r2 = true →
    succeeded r3 = true →
    Forall report_event report →
    Forall cleanup_event cleanup →
    main_run st true m
      (prelude st ++ collect_events st r1 ++ generate_events st r2 ++ add_events r3
       ++ commit_events timestamp r4 ++ push_events r5
       ++ [Log INFO "📧 Sending email report..."] ++ report
       ++ [Log INFO "🧹 Cleaning up old log files..."; Enter "cleanup_old_logs"] ++ cleanup
       ++ epilogue duration).

Definition main_post (st : state) (x : result bool * state) : Prop :=
  ∃ b m evs, x = (Ret b, State m (trace st ++ evs)) ∧ main_run st b m evs.

Definition is_collect (cmd : list string) : bool :=
  match cmd with
  | [_; script] => String.eqb script "sent_collect_data.py"
  | _ => false
  end.

Definition is_generate (cmd : list string) : bool :=
  match cmd with
  | [_; script] => String.eqb script "viz_dashboard_generator.py"
  | _ => false
  end.

Definition is_git_add (cmd : list string) : bool :=
  match cmd with
  | [git; add; file] =>
      String.eqb git "git" && String.eqb add "add" && String.eqb file "index.html"
  | _ => false
  end.

Definition is_git_commit (cmd : list string) : bool :=
  match cmd with
  | [git; commit; m; _] =>
      String.eqb git "git" && String.eqb commit "commit" && String.eqb m "-m"
  | _ => false
  end.

Definition is_git_push (cmd : list string) : bool :=
  match cmd with
  | [git; push; remote; branch] =>
      String.eqb git "git" && String.eqb push "push" && String.eqb remote "origin"
      && String.eqb branch "gh-pages"
  | _ => false
  end.

(** The event is a child running a command of the given kind, which
    succeeded ([ok = true]) or failed ([ok = false]). *)
Definition child_result (is_cmd : list string → bool) (ok : bool) (e : event) : bool :=
  match e with
  | Spawn cmd _ _ r => is_cmd cmd && Bool.eqb (succeeded r) ok
  | _ => false
  end.

Definition step_succeeded (is_cmd : list string → bool) (evs : list event) : bool :=
  existsb (child_result is_cmd true) evs.

Definition step_failed (is_cmd : list string → bool) (evs : list event) : bool :=
  existsb (child_result is_cmd false) evs.



(** The events [main] can add to the trace: of the functions of the module
    it enters itself, [setup_logging], the runner and the cleanup; its
    children run the two scripts, [git add index.html], [git commit -m ...]
    and [git push origin gh-pages]; it imports the report sender and pandas. *)
Definition main_event (e : event) : Prop :=
  match e with
  | Enter fn =>
      fn ∈ ["main"; "setup_logging"; "run_command_with_logging"; "cleanup_old_logs"]
  | Spawn cmd _ _ _ =>
      is_collect cmd || is_generate cmd || is_git_add cmd || is_git_commit cmd
      || is_git_push cmd = true
  | Import module => module = "utils.email.report_sender" ∨ module = "pandas"
  | _ => True
  end.

End OrchestratorTerms.

(** ** The publisher *)

(** The directories of the project the publisher and housekeeping work on:
    [current_dir / 'docs'], [current_dir / 'results'], [current_dir / 'logs']. *)
Definition docs_dir (w : World) : path := script_dir w ++ ["docs"].
Definition results_dir (w : World) : path := script_dir w ++ ["results"].
Definition logs_dir (w : World) : path := script_dir w ++ ["logs"].

(** The contents of a flat directory: the data of its files, by name. *)
Definition file_data (n : node) : option string :=
  match n with
  | File _ d _ => Some d
  | Dir _ _ => None
  end.

Definition data_of (entries : gmap string node) : gmap string string :=
  omap file_data entries.

(** Every entry is a file, created at or after identity [n0]. *)
Definition files_since (n0 : nat) (entries : gmap string node) : Prop :=
  map_Forall (λ _ n, ∃ i d t, n = File i d t ∧ (n0 ≤ i)%nat) entries.

(** What the loop over the article pages leaves in the publish directory,
    as data: the sources are copied in order, up to the first that is not a
    file. *)
Fixpoint copy_data (src : string → option node) (names : list string)
    (acc : gmap string string) : gmap string string :=
  match names with
  | [] => acc
  | x :: rest =>
      match src x with
      | Some (File _ d _) => copy_data src rest (<[x := d]> acc)
      | _ => acc
      end
  end.

(** The contents of the publish directory after a run that got as far as
    cleaning it, from the report and the article pages found among the
    sources. *)
Definition published_from (src : string → option node) (articles : list string)
    : gmap string string :=
  match src "sentiment_report_latest.html" with
  | Some (File _ d _) =>
      copy_data src articles
        (<["sentiment_report_latest.html" := d]> (<["index.html" := d]> ∅))
  | Some (Dir _ _) => ∅
  | None => copy_data src articles ∅
  end.

Section PublisherTerms.

Variable w : World.

#[local] Abbreviation docs := (docs_dir w).
#[local] Abbreviation results := (results_dir w).

(** [publishing st0 st entries]: [st] is a state of a run of the publisher
    that started in [st0], after the publish directory has been cleaned; the
    directory holds [entries]. *)
Record publishing (st0 st : state) (entries : gmap string node) : Prop := {
  pub_dir : is_dir (script_dir w) (root (os st)) = true;
  pub_docs : ∃ t, fs_lookup docs (root (os st)) = Some (Dir t entries);
  pub_results : ∀ q, fs_lookup (results ++ q) (root (os st))
                     = fs_lookup (results ++ q) (root (os st0));
  pub_files : files_since (next_ino (os st0)) entries;
  pub_next : (next_ino (os st0) ≤ next_ino (os st))%nat;
  pub_trace : ∃ evs, trace st = trace st0 ++ evs
}.

(** What a run of the publisher leaves in the publish directory, as data:
    a function of the results directory of the machine alone. *)
Definition published (m : machine) : gmap string string :=
  published_from (λ x, fs_lookup (results ++ [x]) (root m))
                 (glob_names "articles_*_latest.html" results (root m)).

End PublisherTerms.

(** What is at a path below a node, without identities and times: the
    data of a file, or a directory. *)
Definition content_at (n : option node) (q : path) : option (option string) :=
  match n ≫= fs_lookup q with
  | Some (File _ d _) => Some (Some d)
  | Some (Dir _ _) => Some None
  | None => None
  end.

(** The same names, and the same data under each name. *)
Definition same_contents (n1 n2 : option node) : Prop :=
  ∀ q, content_at n1 q = content_at n2 q.

(** ** Housekeeping *)

Section HousekeepingTerms.

Variable w : World.

#[local] Abbreviation logs := (logs_dir w).




End HousekeepingTerms.

(** ** A concrete project, for the examples *)

Definition demo_dir : path := ["home"; "tigro"].

Definition demo_results : gmap string node :=
  <["sentiment_report_latest.html" := File 10 "<html>report</html>" 100]>
  (<["articles_AAPL_latest.html" := File 11 "<html>AAPL</html>" 101]>
  (<["articles_AAPL_20240101.html" := File 12 "<html>old</html>" 50]>
  (<["sentiment_summary_latest.csv" := File 13 "ticker,average_sentiment AAPL,0.15" 102]> ∅))).

Definition demo_docs : gmap string node :=
  <["index.html" := File 20 "stale dashboard" 1]>
  (<["sentinel.txt" := File 21 "sentinel" 1]> ∅).

(** The clock of the demo machine reads 5000000; thirty days before that
    is 2408000. *)
Definition demo_logs : gmap string node :=
  <["old.log" := File 30 "a" 2407999]>
  (<["edge.log" := File 31 "b" 2408000]>
  (<["new.log" := File 32 "c" 4999999]>
  (<["old.txt" := File 33 "d" 0]> ∅))).

Definition demo_project : gmap string node :=
  <["results" := Dir 0 demo_results]>
  (<["docs" := Dir 0 demo_docs]>
  (<["logs" := Dir 0 demo_logs]>
  (<["sent_collect_data.py" := File 1 "" 0]>
  (<["viz_dashboard_generator.py" := File 2 "" 0]> ∅)))).

Definition demo_root : node :=
  Dir 0 (<["home" := Dir 0 (<["tigro" := Dir 0 demo_project]> ∅)]> ∅).

Definition demo_state : state :=
  State (Machine demo_root 100 5000000) [].

(** A world whose collaborators all work, around a given behaviour of the
    child processes. *)
Definition demo_world (ch : nat → list string → machine → proc_result * machine) : World := {|
  os_environ := <["PATH" := "/usr/bin"]> (<["PYTHONPATH" := "/opt/lib"]> ∅);
  os_getcwd := demo_dir;
  script_dir := demo_dir;
  sys_executable := "/usr/bin/python3";
  child := ch;
  fmt_datetime := pretty;
  fmt_duration := pretty;
  format_exc := exn_str;
  import_module := λ _, None;
  read_csv := λ data, inr [[data]];
  new_sender := None;
  send_email := λ _ _, inr true
|}.

(** Children that all exit with status 0; a child that fails the first time
    it is run and succeeds from then on; the [n]-th child failing. *)
Definition all_succeed : nat → list string → machine → proc_result * machine :=
  λ _ _ m, (Exited 0, m).

Definition fails_once : nat → list string → machine → proc_result * machine :=
  λ n _ m, (if Nat.eqb n 0 then Exited 1 else Exited 0, m).

Definition nth_fails (k : nat) (code : Z) : nat → list string → machine → proc_result * machine :=
  λ n _ m, (if Nat.eqb n k then Exited code else Exited 0, m).

Definition is_sleep (e : event) : bool :=
  match e with
  | Sleep _ => true
  | _ => false
  end.


Definition demo_failed_push : World := demo_world (nth_fails 4 1).

Definition demo_logs_with_old_dir : gmap string node :=
  <["old.log" := Dir 0 ∅]> (<["stale.log" := File 31 "b" 0]> ∅).

Definition demo_state_old_dir : state :=
  State (Machine (fs_alter (λ _, Some (Dir 0 demo_logs_with_old_dir)) (demo_dir ++ ["logs"]) demo_root)
           100 5000000) [].

(** ** Further terms *)

(** The command and the result of a child-process event. *)
Definition spawn_cmd (e : event) : list string :=
  match e with
  | Spawn cmd _ _ _ => cmd
  | _ => []
  end.

(** The four commands of [push_to_github], for a commit timestamp. *)
Definition push_commands (timestamp : string) : list (list string) :=
  [ ["git"; "add"; "results/*"];
    ["git"; "add"; "docs/*"];
    ["git"; "commit"; "-m"; "Update sentiment analysis and dashboard - " +:+ timestamp];
    ["git"; "push"] ].

(** A child started the way [push_to_github] starts it: working directory
    and environment inherited. *)
Definition inherited_spawn (cmd : list string) (r : proc_result) : event :=
  Spawn cmd None None r.

Definition is_send_email (e : event) : bool :=
  match e with
  | SendEmail _ _ => true
  | _ => false
  end.

(** [Path.stat().st_mtime] of a path of the tree, when there is one. *)
Definition mtime_at (p : path) (r : node) : option Z :=
  match fs_lookup p r with
  | Some (File _ _ t) => Some t
  | Some (Dir t _) => Some t
  | None => None
  end.

Section ReportTerms.

Variable w : World.

(** The summary that [send_email_report] looks for first, and the dated
    summaries it falls back on. *)
Definition latest_summary : path :=
  (os_getcwd w ++ ["results"]) ++ ["sentiment_summary_latest.csv"].

Definition dated_summaries (m : machine) : list path :=
  List.filter dated_summary
    (glob "sentiment_summary_*.csv" (os_getcwd w ++ ["results"]) (root m)).

(** [f] is the summary to report on: the latest one when it exists, and
    otherwise a dated one that none of the dated ones is more recent than. *)
Definition summary_source (m : machine) (f : path) : Prop :=
  (exists_in m latest_summary = true ∧ f = latest_summary)
  ∨ (exists_in m latest_summary = false
     ∧ f ∈ dated_summaries m
     ∧ ∃ t, mtime_at f (root m) = Some t
            ∧ ∀ g, g ∈ dated_summaries m → ∃ t', mtime_at g (root m) = Some t' ∧ t' ≤ t).

End ReportTerms.

(** The record that [cleanup_old_logs] logs for a deleted file. *)
Definition deleted_log (x : string) : event :=
  Log INFO ("🗑️ Deleted old log: " +:+ x).

Section PublishTerms.

Variable w : World.

(** The article pages [copy_to_docs] finds in the results directory. *)
Definition article_pages (m : machine) : list string :=
  glob_names "articles_*_latest.html" (results_dir w) (root m).

(** What [copy_to_docs] needs to go through: the project directory is a
    directory, the publish path is not a file, the report is not a directory,
    and every article page is a file. *)
Definition publishable (m : machine) : bool :=
  is_dir (script_dir w) (root m)
  && negb (is_file (docs_dir w) (root m))
  && negb (is_dir (results_dir w ++ ["sentiment_report_latest.html"]) (root m))
  && forallb (λ x, is_file (results_dir w ++ [x]) (root m)) (article_pages m).

End PublishTerms.

(** The contents of the file at a path, when there is a file. *)
Definition data_at (p : path) (r : node) : option string :=
  fs_lookup p r ≫= file_data.

(** No child process changes the machine (its files, its clock). *)
Definition children_keep_machine (w : World) : Prop :=
  ∀ n cmd m, (child w n cmd m).2 = m.

(** * The test modules ([test_apple_sentiment.py])

    The two tests that use nothing but paths and files.  [current_dir] is
    [Path(__file__).parent] of the test module. *)

(** [assert cond] *)
Definition py_assert (cond : bool) : M unit :=
  if cond then ret tt else raise (PyException "AssertionError" "").

(** [open(p, 'w').write(data)], as [DataFrame.to_csv(p)] does it: an
    existing file is truncated and rewritten in place, a new one is created
    in its directory; the modification time is now. *)
Definition write_text (p : path) (data : string) : M unit :=
  m ← get_machine;
  match fs_lookup p (root m) with
  | Some (Dir _ _) => raise (PyException "IsADirectoryError" (path_str p))
  | Some (File i _ _) =>
      put_machine (set_root (fs_alter (λ _, Some (File i data (clock m))) p (root m)) m)
  | None =>
      match fs_lookup (parent p) (root m) with
      | Some (Dir _ _) =>
          put_machine
            (Machine (fs_alter (λ _, Some (File (next_ino m) data (clock m))) p (root m))
                     (S (next_ino m)) (clock m))
      | Some (File _ _ _) => raise (PyException "NotADirectoryError" (path_str p))
      | None => raise (PyException "FileNotFoundError" (path_str p))
      end
  end.

(** *** [test_directory_scope_compliance] (lines 112-128) *)

Definition test_directory_scope_compliance (current_dir : path) : M unit :=
  py_assert (String.eqb (basename current_dir) "automated_sentiment_daily_analysis");;
  let parent_dir := parent current_dir in
  let results_path := current_dir ++ ["results"] in
  py_assert (String.prefix (path_str current_dir) (path_str results_path));;
  let archive_path := current_dir ++ ["archive"] in
  py_assert (String.prefix (path_str current_dir) (path_str archive_path)).

(** *** [TestAppleSentimentAnalysis.test_dashboard_generator_apple_only]
    (lines 83-110); [csv] is the text that [df.to_csv(..., index=False)]
    writes for the test's data frame. *)

Definition test_dashboard_generator_apple_only (current_dir : path) (csv : string) : M unit :=
  let results_dir := current_dir ++ ["results"] in
  mkdir_exist_ok results_dir;;
  let test_file := results_dir ++ ["sentiment_summary_latest.csv"] in
  write_text test_file csv;;
  test_exists ← path_exists test_file;
  py_assert test_exists;;
  py_assert (bool_decide (parent test_file = results_dir));;
  unlink test_file.

(** What the test needs to pass: the results directory is there or can be
    made, and the summary path is not a directory. *)
Definition summary_test_can_run (current_dir : path) (m : machine) : bool :=
  (is_dir (current_dir ++ ["results"]) (root m)
   || (is_dir current_dir (root m)
       && negb (exists_in m (current_dir ++ ["results"]))))
  && negb (is_dir ((current_dir ++ ["results"]) ++ ["sentiment_summary_latest.csv"]) (root m)).

(** ** More of the demo project *)

(** A machine with nothing on it, and the demo project without its results
    directory. *)
Definition bare_state : state :=
  State (Machine (Dir 0 ∅) 0 0) [].

Definition demo_state_no_results : state :=
  State (Machine (fs_alter (λ _, None) (demo_dir ++ ["results"]) demo_root) 100 5000000) [].

(** * Properties *)

(** ** The command runner *)

Section RunnerFacts.

Variable w : World.

Lemma spawned_app tr1 tr2 : spawned (tr1 ++ tr2) = spawned tr1 ++ spawned tr2.
Proof. apply List.filter_app. Qed.

(** One pass through the loop body always ends in a [return]: the child is
    started once, and whatever it does decides the result. *)
Lemma attempt_body_returns command description max_retries attempt st :
  attempt_body w command description max_retries (child_env w) attempt st =
  (Ret (Return (succeeded (next_child w command st).1)),
   State (next_child w command st).2
         (trace st ++ [attempt_log attempt max_retries command;
                       runner_spawn w command (next_child w command st).1]
                   ++ failure_log description (next_child w command st).1)).
Proof.
  unfold attempt_body, next_child, try_except, bind, logger_info, logger_error, emit,
    subprocess_run, ret; cbn [trace os].
  rewrite spawned_app; cbn [spawned List.filter is_spawn]. rewrite app_nil_r.
  destruct (child w _ command (os st)) as [[code|cls msg] m'] eqn:Hchild; cbn.
  - unfold succeeded, raised_by. destruct (code =? 0) eqn:Hcode; cbn.
    + by rewrite <- ?app_assoc.
    + by rewrite <- ?app_assoc.
  - by rewrite <- ?app_assoc.
Qed.

(** The runner, in full: with at least one attempt allowed it starts exactly
    one child; with none it starts nothing and fails. *)
Lemma run_command_with_logging_eq command description max_retries st :
  run_command_with_logging w command description max_retries st =
  if 0 <? max_retries
  then (Ret (succeeded (next_child w command st).1),
        State (next_child w command st).2
              (trace st ++ [Enter "run_command_with_logging";
                            attempt_log 1 max_retries command;
                            runner_spawn w command (next_child w command st).1]
                        ++ failure_log description (next_child w command st).1))
  else (Ret false, State (os st) (trace st ++ [Enter "run_command_with_logging"])).
Proof.
  unfold run_command_with_logging, range, enter, emit.
  unfold bind at 1.
  replace (max_retries + 1 - 1) with max_retries by lia.
  destruct (0 <? max_retries) eqn:Hk.
  - apply Z.ltb_lt in Hk.
    destruct (Z.to_nat max_retries) as [|n] eqn:Hn; [lia|].
    cbn [seq fmap list_fmap for_attempts]. unfold bind at 1.
    fold child_env. rewrite attempt_body_returns.
    unfold next_child; cbn [trace os]. rewrite spawned_app; cbn [spawned List.filter is_spawn].
    rewrite app_nil_r. unfold ret. rewrite <- !app_assoc. reflexivity.
  - apply Z.ltb_ge in Hk.
    replace (Z.to_nat max_retries) with 0%nat by lia. reflexivity.
Qed.

End RunnerFacts.

(** ** The runner on the demo project *)

(** C1 (the runner retries up to [k] times, five time-units apart, and fails
    only after [k] failures): on the code this does not hold.  With three
    attempts allowed and a command that fails once and would succeed on the
    second try, the runner returns [False] after a single child process and
    without sleeping. *)
Theorem run_command_gives_up_after_first_failure :
  let w := demo_world fails_once in
  let cmd := ["git"; "push"; "origin"; "gh-pages"] in
  let '(r, st) := run_command_with_logging w cmd "git push" 3 demo_state in
  r = Ret false
  ∧ spawned (trace st) = [runner_spawn w cmd (Exited 1)]
  ∧ List.filter is_sleep (trace st) = []
  ∧ (child w 1 cmd (os st)).1 = Exited 0.
Proof. vm_compute. repeat split; reflexivity. Qed.

Section RunnerClaims.

Variable w : World.

(** The runner never starts a second child and never sleeps, whatever the
    number of attempts it is allowed. *)
Lemma run_command_single_attempt command description max_retries st :
  ∃ evs, trace (run_command_with_logging w command description max_retries st).2 = trace st ++ evs
    ∧ (List.length (spawned evs) ≤ 1)%nat
    ∧ List.filter is_sleep evs = [].
Proof.
  rewrite run_command_with_logging_eq. destruct (0 <? max_retries); cbn [snd trace].
  - eexists; split; [reflexivity|].
    destruct (next_child w command st).1 as [code|cls msg]; cbn.
    + destruct (code =? 0); cbn; split; [lia|done|lia|done].
    + split; [lia|done].
  - eexists; split; [reflexivity|]. cbn. split; [lia|done].
Qed.



End RunnerClaims.

(** ** What a computation adds to the trace *)

Lemma emits_ret {A} (P : event → Prop) (a : A) : emits P (ret a).
Proof. intros st. exists []. by rewrite app_nil_r. Qed.

Lemma emits_raise {A} (P : event → Prop) (e : exn) : emits P (raise e : M A).
Proof. intros st. exists []. by rewrite app_nil_r. Qed.

Lemma emits_emit (P : event → Prop) (e : event) : P e → emits P (emit e).
Proof. intros He st. exists [e]. split; [done|]. by apply Forall_singleton. Qed.

Lemma emits_get_machine (P : event → Prop) : emits P get_machine.
Proof. intros st. exists []. by rewrite app_nil_r. Qed.

Lemma emits_put_machine (P : event → Prop) m : emits P (put_machine m).
Proof. intros st. exists []. by rewrite app_nil_r. Qed.

Lemma emits_bind {A B} (P : event → Prop) (m : M A) (k : A → M B) :
  emits P m → (∀ a, emits P (k a)) → emits P (bind m k).
Proof.
  intros Hm Hk st. unfold bind.
  destruct (Hm st) as (evs1 & Htr1 & Hevs1).
  destruct (m st) as [[a|e] st1]; cbn [snd] in *.
  - destruct (Hk a st1) as (evs2 & Htr2 & Hevs2).
    exists (evs1 ++ evs2). rewrite Htr2, Htr1, app_assoc. split; [done|].
    by apply Forall_app.
  - by exists evs1.
Qed.

Lemma emits_try_except {A} (P : event → Prop) (m : M A) (h : exn → option (M A)) :
  emits P m → (∀ e k, h e = Some k → emits P k) → emits P (try_except m h).
Proof.
  intros Hm Hh st. unfold try_except.
  destruct (Hm st) as (evs1 & Htr1 & Hevs1).
  destruct (m st) as [[a|e] st1]; cbn [snd] in *.
  - by exists evs1.
  - destruct (h e) as [k|] eqn:Hhe; cbn [snd].
    + destruct (Hh e k Hhe st1) as (evs2 & Htr2 & Hevs2).
      exists (evs1 ++ evs2). rewrite Htr2, Htr1, app_assoc. split; [done|].
      by apply Forall_app.
    + by exists evs1.
Qed.

Lemma emits_for_each {A} (P : event → Prop) (l : list A) (body : A → M unit) :
  (∀ x, emits P (body x)) → emits P (for_each l body).
Proof.
  intros Hbody. induction l as [|x l IH]; cbn [for_each].
  - apply emits_ret.
  - apply emits_bind.
    + apply Hbody.
    + intros _. apply IH.
Qed.

Lemma emits_except_Exception {A} (P : event → Prop) (m : M A) (h : exn → M A) :
  emits P m → (∀ e, emits P (h e)) → emits P (try_except m (except_Exception h)).
Proof.
  intros Hm Hh. apply emits_try_except; [done|].
  intros e k [= <-]. apply Hh.
Qed.

Lemma emits_except_CalledProcessError {A} (P : event → Prop) (m : M A) (h : exn → M A) :
  emits P m → (∀ e, emits P (h e)) → emits P (try_except m (except_CalledProcessError h)).
Proof.
  intros Hm Hh. apply emits_try_except; [done|].
  intros [rc cmd out err|cls msg] k [=]. subst k. apply Hh.
Qed.

(** A [try] whose handler answers every exception and does not raise
    returns a value. *)
Lemma no_raise_except_Exception {A} (m : M A) (h : exn → M A) :
  (∀ e, no_raise (h e)) → no_raise (try_except m (except_Exception h)).
Proof.
  intros Hh st. unfold try_except, except_Exception.
  destruct (m st) as [[a|e] st1]; cbn [fst]; [by exists a|].
  apply Hh.
Qed.

Lemma no_raise_ret {A} (a : A) : no_raise (ret a).
Proof. intros st. by exists a. Qed.

Lemma no_raise_emit (e : event) : no_raise (emit e).
Proof. intros st. by exists tt. Qed.

Lemma no_raise_bind {A B} (m : M A) (k : A → M B) :
  no_raise m → (∀ a, no_raise (k a)) → no_raise (bind m k).
Proof.
  intros Hm Hk st. unfold bind. destruct (Hm st) as [a Ha].
  destruct (m st) as [r st1]; cbn [fst] in Ha; subst r. apply Hk.
Qed.

(** The file-system primitives leave the trace alone. *)
Ltac emits_step :=
  lazymatch goal with
  | |- emits _ (ret _) => apply emits_ret
  | |- emits _ (raise _) => apply emits_raise
  | |- emits _ get_machine => apply emits_get_machine
  | |- emits _ (put_machine _) => apply emits_put_machine
  | |- emits _ (bind _ _) => apply emits_bind; [|intros ?]
  | |- emits _ (for_each _ _) => apply emits_for_each; intros ?
  | |- emits _ (try_except _ (except_Exception _)) =>
      apply emits_except_Exception; [|intros ?]
  | |- emits _ (try_except _ (except_CalledProcessError _)) =>
      apply emits_except_CalledProcessError; [|intros ?]
  | |- emits _ (match ?x with _ => _ end) => destruct x
  | |- emits _ (let _ := _ in _) => cbv zeta
  end.

Section EmitsPrimitives.

Context (P : event → Prop) (w : World).

Lemma emits_path_exists p : emits P (path_exists p).
Proof. unfold path_exists. repeat emits_step. Qed.

Lemma emits_shutil_rmtree p : emits P (shutil_rmtree p).
Proof. unfold shutil_rmtree. repeat emits_step. Qed.

Lemma emits_mkdir_exist_ok p : emits P (mkdir_exist_ok p).
Proof. unfold mkdir_exist_ok. repeat emits_step. Qed.

Lemma emits_shutil_copy2 src dst : emits P (shutil_copy2 src dst).
Proof. unfold shutil_copy2. repeat emits_step. Qed.

Lemma emits_unlink p : emits P (unlink p).
Proof. unfold unlink. repeat emits_step. Qed.

Lemma emits_stat_st_mtime p : emits P (stat_st_mtime p).
Proof. unfold stat_st_mtime. repeat emits_step. Qed.

Lemma emits_time_time : emits P time_time.
Proof. unfold time_time. repeat emits_step. Qed.

Lemma emits_pd_read_csv p : emits P (pd_read_csv w p).
Proof. unfold pd_read_csv. repeat emits_step. Qed.

Lemma emits_SentimentEmailSender : emits P (SentimentEmailSender w).
Proof. unfold SentimentEmailSender. repeat emits_step. Qed.

Lemma emits_py_import module : P (Import module) → emits P (py_import w module).
Proof. intros HP. unfold py_import. apply emits_bind; [by apply emits_emit|intros _]. repeat emits_step. Qed.

Lemma emits_sender_send_email df test_mode :
  P (SendEmail df test_mode) → emits P (sender_send_email w df test_mode).
Proof.
  intros HP. unfold sender_send_email. apply emits_bind; [by apply emits_emit|intros _].
  repeat emits_step.
Qed.

Lemma emits_logger_info msg : P (Log INFO msg) → emits P (logger_info msg).
Proof. apply emits_emit. Qed.

Lemma emits_logger_warning msg : P (Log WARNING msg) → emits P (logger_warning msg).
Proof. apply emits_emit. Qed.

Lemma emits_logger_error msg : P (Log ERROR msg) → emits P (logger_error msg).
Proof. apply emits_emit. Qed.

End EmitsPrimitives.

(** ** The events of each function *)

Section EmitsFunctions.

Context (P : event → Prop) (w : World).
Hypothesis P_log : ∀ lvl msg, P (Log lvl msg).

Lemma emits_run_command_with_logging command description max_retries :
  P (Enter "run_command_with_logging") →
  (∀ cwd env r, P (Spawn command cwd env r)) →
  emits P (run_command_with_logging w command description max_retries).
Proof.
  intros Henter Hspawn st. rewrite run_command_with_logging_eq.
  destruct (0 <? max_retries); cbn [snd trace]; eexists; (split; [reflexivity|]).
  - apply Forall_app; split.
    + repeat first [apply Forall_nil_2 | apply Forall_cons_2]; unfold attempt_log, runner_spawn; auto.
    + destruct (next_child w command st).1 as [code|cls msg]; cbn.
      * destruct (code =? 0); repeat first [apply Forall_nil_2 | apply Forall_cons_2]; auto.
      * repeat first [apply Forall_nil_2 | apply Forall_cons_2]; auto.
  - repeat first [apply Forall_nil_2 | apply Forall_cons_2]; auto.
Qed.

Lemma emits_email_report_step :
  P (Import "utils.email.report_sender") → P (Import "pandas") →
  (∀ df, P (SendEmail df false)) →
  emits P (email_report_step w).
Proof.
  intros Himp1 Himp2 Hsend. unfold email_report_step.
  apply emits_bind; [apply emits_emit, P_log|intros _].
  apply emits_except_Exception.
  - apply emits_bind; [by apply emits_py_import|intros _].
    apply emits_bind; [by apply emits_py_import|intros _].
    cbv zeta. apply emits_bind; [apply emits_path_exists|intros [|]].
    + apply emits_bind; [apply emits_pd_read_csv|intros df].
      apply emits_bind; [apply emits_emit, P_log|intros _].
      apply emits_bind; [apply emits_SentimentEmailSender|intros _].
      apply emits_bind; [by apply emits_sender_send_email|intros [|]];
        apply emits_emit, P_log.
    + apply emits_emit, P_log.
  - intros e. apply emits_bind; [apply emits_emit, P_log|intros _].
    apply emits_emit, P_log.
Qed.

Lemma emits_cleanup_old_logs :
  P (Enter "cleanup_old_logs") → emits P (cleanup_old_logs w).
Proof.
  intros Henter. unfold cleanup_old_logs.
  apply emits_bind; [by apply emits_emit|intros _].
  apply emits_except_Exception.
  - cbv zeta. apply emits_bind; [apply emits_path_exists|intros [|]]; cbn [negb].
    + apply emits_bind; [apply emits_time_time|intros now].
      apply emits_bind; [apply emits_get_machine|intros m].
      apply emits_for_each. intros log_file. unfold cleanup_log_file.
      apply emits_bind; [apply emits_stat_st_mtime|intros t].
      destruct (t <? _); [|apply emits_ret].
      apply emits_bind; [apply emits_unlink|intros _].
      apply emits_emit, P_log.
    + apply emits_ret.
  - intros e. apply emits_emit, P_log.
Qed.

End EmitsFunctions.

Lemma no_raise_email_report_step w : no_raise (email_report_step w).
Proof.
  unfold email_report_step. apply no_raise_bind; [apply no_raise_emit|intros _].
  apply no_raise_except_Exception. intros e.
  apply no_raise_bind; [apply no_raise_emit|intros _]. apply no_raise_emit.
Qed.

Lemma no_raise_cleanup_old_logs w : no_raise (cleanup_old_logs w).
Proof.
  unfold cleanup_old_logs. apply no_raise_bind; [apply no_raise_emit|intros _].
  apply no_raise_except_Exception. intros e. apply no_raise_emit.
Qed.

(** A computation that emits [P]-events and does not raise, as one
    equation. *)
Lemma emits_no_raise_run {A} (P : event → Prop) (m : M A) st :
  emits P m → no_raise m →
  ∃ a mach evs, m st = (Ret a, State mach (trace st ++ evs)) ∧ Forall P evs.
Proof.
  intros Hem Hnr. destruct (Hem st) as (evs & Htr & Hevs). destruct (Hnr st) as [a Ha].
  destruct (m st) as [r [mach tr]]; cbn in *; subst. eauto.
Qed.

(** ** The orchestrator *)

(** *** Running [main] *)

Section MainFacts.
Variable w : World.

Lemma bind_emit {A} (e : event) (k : unit → M A) st :
  bind (emit e) k st = k tt (State (os st) (trace st ++ [e])).
Proof. reflexivity. Qed.

Lemma bind_time_time {A} (k : Z → M A) st :
  bind time_time k st = k (clock (os st)) st.
Proof. reflexivity. Qed.

Lemma bind_path_exists {A} p (k : bool → M A) st :
  bind (path_exists p) k st = k (exists_in (os st) p) st.
Proof. reflexivity. Qed.

Lemma bind_ret {A B} (a : A) (k : A → M B) st : bind (ret a) k st = k a st.
Proof. reflexivity. Qed.

Lemma bind_bind {A B C} (m : M A) (f : A → M B) (k : B → M C) st :
  bind (bind m f) k st = bind m (λ a, bind (f a) k) st.
Proof. unfold bind. by destruct (m st) as [[a|e] st1]. Qed.

Lemma bind_run_command {A} command description max_retries (k : bool → M A) st :
  0 < max_retries →
  bind (run_command_with_logging w command description max_retries) k st =
  k (succeeded (next_child w command st).1)
    (State (next_child w command st).2
           (trace st ++ run_events w command description max_retries (next_child w command st).1)).
Proof.
  intros Hk. unfold bind at 1. rewrite run_command_with_logging_eq.
  apply Z.ltb_lt in Hk. rewrite Hk. reflexivity.
Qed.

(** The report step and the cleanup return, whatever happens in them. *)
Lemma email_report_step_run st :
  ∃ m evs, email_report_step w st
           = (Ret tt, State m (trace st ++ Log INFO "📧 Sending email report..." :: evs))
    ∧ Forall report_event evs.
Proof.
  unfold email_report_step, logger_info at 1. rewrite bind_emit.
  match goal with |- context [try_except ?m ?h ?s] =>
    destruct (emits_no_raise_run report_event (try_except m h) s) as ([] & mach & evs & Heq & Hevs)
  end.
  - apply emits_except_Exception.
    + apply emits_bind; [apply emits_py_import; cbn; auto|intros _].
      apply emits_bind; [apply emits_py_import; cbn; auto|intros _].
      cbv zeta. apply emits_bind; [apply emits_path_exists|intros [|]].
      * apply emits_bind; [apply emits_pd_read_csv|intros df].
        apply emits_bind; [by apply emits_emit|intros _].
        apply emits_bind; [apply emits_SentimentEmailSender|intros _].
        apply emits_bind; [by apply emits_sender_send_email|intros [|]];
          by apply emits_emit.
      * by apply emits_emit.
    + intros e. apply emits_bind; [by apply emits_emit|intros _]. by apply emits_emit.
  - apply no_raise_except_Exception. intros e.
    apply no_raise_bind; [apply no_raise_emit|intros _]. apply no_raise_emit.
  - rewrite Heq. cbn [trace]. rewrite <- app_assoc. eauto.
Qed.

Lemma cleanup_old_logs_run st :
  ∃ m evs, cleanup_old_logs w st
           = (Ret tt, State m (trace st ++ Enter "cleanup_old_logs" :: evs))
    ∧ Forall cleanup_event evs.
Proof.
  unfold cleanup_old_logs, enter. rewrite bind_emit.
  match goal with |- context [try_except ?m ?h ?s] =>
    destruct (emits_no_raise_run cleanup_event (try_except m h) s) as ([] & mach & evs & Heq & Hevs)
  end.
  - apply emits_except_Exception.
    + cbv zeta. apply emits_bind; [apply emits_path_exists|intros [|]]; cbn [negb].
      * apply emits_bind; [apply emits_time_time|intros now].
        apply emits_bind; [apply emits_get_machine|intros m].
        apply emits_for_each. intros log_file. unfold cleanup_log_file.
        apply emits_bind; [apply emits_stat_st_mtime|intros t].
        destruct (t <? _); [|apply emits_ret].
        apply emits_bind; [apply emits_unlink|intros _].
        by apply emits_emit.
      * apply emits_ret.
    + intros e. by apply emits_emit.
  - apply no_raise_except_Exception. intros e. apply no_raise_emit.
  - rewrite Heq. cbn [trace]. rewrite <- app_assoc. eauto.
Qed.

Ltac run_main :=
  repeat (first [ rewrite bind_emit | rewrite bind_time_time | rewrite bind_path_exists
                | rewrite bind_ret | rewrite bind_bind
                | rewrite bind_run_command by lia ];
          cbv beta zeta; cbn [os trace]).

Ltac main_done c :=
  unfold main_post, ret; do 3 eexists; split;
  [ | eapply c; eassumption ];
  unfold prelude, collect_events, generate_events, add_events, commit_events, push_events,
    epilogue, collect_cmd, generate_cmd, add_cmd, commit_cmd, push_cmd, python_path, run_events;
  repeat match goal with
         | H : succeeded ?r = _ |- context [succeeded ?r] => rewrite H
         end;
  rewrite <- ?app_assoc; cbn [app]; reflexivity.

Ltac next_child_result r m H :=
  match goal with
  | |- context [next_child w ?cmd ?s] =>
      destruct (next_child w cmd s) as [r m]; cbn [fst snd];
      destruct (succeeded r) eqn:H; cbn [negb]; run_main
  end.

Lemma main_runs st : main_post w st (main w st).
Proof.
  unfold main, setup_logging, enter, logger_info, logger_error, logger_warning.
  run_main.
  destruct (exists_in (os st) (os_getcwd w ++ ["sent_collect_data.py"])) eqn:Hsent;
    cbn [negb]; run_main; [|main_done run_no_sentiment_script].
  destruct (exists_in (os st) (os_getcwd w ++ ["viz_dashboard_generator.py"])) eqn:Hdash;
    cbn [negb]; run_main; [|main_done run_no_dashboard_script].
  next_child_result r1 m1 Hr1; [|main_done (run_collect_failed w st r1)].
  next_child_result r2 m2 Hr2; [|main_done (run_generate_failed w st r1 r2)].
  next_child_result r3 m3 Hr3; [|main_done (run_add_failed w st r1 r2 r3)].
  next_child_result r4 m4 Hr4; next_child_result r5 m5 Hr5.
  all: unfold bind at 1;
    match goal with |- context [email_report_step w ?s] =>
      destruct (email_report_step_run s) as (m6 & report & -> & Hreport)
    end; run_main;
    unfold bind at 1;
    match goal with |- context [cleanup_old_logs w ?s] =>
      destruct (cleanup_old_logs_run s) as (m7 & cleanup & -> & Hcleanup)
    end; run_main.
  all: main_done (run_completed w st r1 r2 r3 r4 r5).
Qed.

(** *** The steps of a run, read off its events *)

Lemma no_child_in_logs f evs :
  Forall (λ e, is_spawn e = false) evs → existsb (child_result f false) evs = false
                                         ∧ existsb (child_result f true) evs = false.
Proof.
  induction 1 as [|e evs He _ [IH1 IH2]]; [done|].
  cbn [existsb]. rewrite IH1, IH2. by destruct e.
Qed.

Lemma report_event_no_spawn e : report_event e → is_spawn e = false.
Proof. by destruct e. Qed.

Lemma cleanup_event_no_spawn e : cleanup_event e → is_spawn e = false.
Proof. by destruct e. Qed.

Lemma failure_log_no_spawn description r :
  Forall (λ e, is_spawn e = false) (failure_log description r).
Proof.
  destruct r as [code|cls msg]; cbn; [destruct (code =? 0)|];
    repeat first [apply Forall_nil_2 | apply Forall_cons_2]; done.
Qed.

Lemma child_result_run_events f ok command description max_retries r :
  existsb (child_result f ok) (run_events w command description max_retries r)
  = f command && Bool.eqb (succeeded r) ok.
Proof.
  unfold run_events. rewrite existsb_app. cbn [existsb child_result attempt_log runner_spawn].
  destruct (no_child_in_logs f _ (failure_log_no_spawn description r)) as [H1 H2].
  destruct ok; rewrite ?H1, ?H2; by rewrite !orb_false_r.
Qed.

End MainFacts.

Section MainSteps.

Variable w : World.
Variables (f : list string → bool) (ok : bool).

Lemma child_result_prelude st : existsb (child_result f ok) (prelude w st) = false.
Proof. reflexivity. Qed.

Lemma child_result_epilogue duration : existsb (child_result f ok) (epilogue duration) = false.
Proof. reflexivity. Qed.

Lemma child_result_collect_events st r :
  existsb (child_result f ok) (collect_events w st r)
  = f (collect_cmd w st) && Bool.eqb (succeeded r) ok.
Proof. unfold collect_events. rewrite existsb_app. apply child_result_run_events. Qed.

Lemma child_result_generate_events st r :
  existsb (child_result f ok) (generate_events w st r)
  = f (generate_cmd w st) && Bool.eqb (succeeded r) ok.
Proof. unfold generate_events. rewrite existsb_app. apply child_result_run_events. Qed.

Lemma child_result_add_events r :
  existsb (child_result f ok) (add_events w r) = f add_cmd && Bool.eqb (succeeded r) ok.
Proof. unfold add_events. rewrite existsb_app. apply child_result_run_events. Qed.

Lemma child_result_commit_events timestamp r :
  existsb (child_result f ok) (commit_events w timestamp r)
  = f (commit_cmd timestamp) && Bool.eqb (succeeded r) ok.
Proof.
  unfold commit_events. rewrite existsb_app, child_result_run_events.
  destruct (succeeded r); cbn [existsb child_result]; by rewrite ?orb_false_r.
Qed.

Lemma child_result_push_events r :
  existsb (child_result f ok) (push_events w r) = f push_cmd && Bool.eqb (succeeded r) ok.
Proof.
  unfold push_events. rewrite existsb_app, child_result_run_events.
  destruct (succeeded r); cbn [existsb child_result]; by rewrite ?orb_false_r.
Qed.

Lemma child_result_report report :
  Forall report_event report → existsb (child_result f ok) report = false.
Proof.
  intros H. destruct (no_child_in_logs f report) as [H1 H2].
  - eapply Forall_impl; [exact H|apply report_event_no_spawn].
  - by destruct ok.
Qed.

Lemma child_result_cleanup cleanup :
  Forall cleanup_event cleanup → existsb (child_result f ok) cleanup = false.
Proof.
  intros H. destruct (no_child_in_logs f cleanup) as [H1 H2].
  - eapply Forall_impl; [exact H|apply cleanup_event_no_spawn].
  - by destruct ok.
Qed.

End MainSteps.

(** The children of a run, step by step. *)
Ltac step_results :=
  unfold step_failed, step_succeeded;
  rewrite ?existsb_app, ?child_result_prelude, ?child_result_epilogue,
    ?child_result_collect_events, ?child_result_generate_events, ?child_result_add_events,
    ?child_result_commit_events, ?child_result_push_events;
  repeat match goal with
         | H : Forall report_event ?l |- context [existsb (child_result ?f ?ok) ?l] =>
             rewrite (child_result_report f ok l H)
         | H : Forall cleanup_event ?l |- context [existsb (child_result ?f ?ok) ?l] =>
             rewrite (child_result_cleanup f ok l H)
         | H : succeeded ?r = _ |- context [succeeded ?r] => rewrite H
         end;
  cbn.

Section MainClaims.

Variable w : World.





(** C7: when the children of the Collect, Generate and staging steps succeed
    and the child of the push step fails, [main] logs the warning, goes on
    with the report step, the cleanup and the final summary, and returns
    [True]. *)
Theorem main_survives_failed_push st r st' evs :
  main w st = (r, st') →
  trace st' = trace st ++ evs →
  step_succeeded is_collect evs = true →
  step_succeeded is_generate evs = true →
  step_succeeded is_git_add evs = true →
  step_failed is_git_push evs = true →
  r = Ret true
  ∧ ∃ before after,
      evs = before
            ++ Log WARNING "⚠️ Git push failed - dashboard may not be updated on GitHub"
            :: Log INFO "📧 Sending email report..."
            :: after
      ∧ Enter "cleanup_old_logs" ∈ after
      ∧ Log INFO "🎉 DAILY AUTOMATION COMPLETED SUCCESSFULLY" ∈ after.
Proof.
  intros Hmain Htrace _ _ _ Hpush.
  destruct (main_runs w st) as (b & m & evs' & Heq & Hrun).
  rewrite Hmain in Heq. injection Heq as -> ->. cbn [trace] in Htrace.
  apply app_inv_head in Htrace. subst evs'.
  destruct Hrun; try (exfalso; revert Hpush; step_results; discriminate).
  assert (Hr5 : succeeded r5 = false).
  { revert Hpush. step_results. by destruct (succeeded r5). }
  split; [reflexivity|].
  exists (prelude w st ++ collect_events w st r1 ++ generate_events w st r2 ++ add_events w r3
          ++ commit_events w timestamp r4 ++ run_events w push_cmd "git push" 1 r5),
    (report
     ++ [Log INFO "🧹 Cleaning up old log files..."; Enter "cleanup_old_logs"] ++ cleanup
     ++ epilogue duration).
  split; [|split].
  - unfold push_events. rewrite Hr5. rewrite <- ?app_assoc. reflexivity.
  - apply elem_of_app; right. apply elem_of_app; left.
    apply list_elem_of_further, list_elem_of_here.
  - do 3 (apply elem_of_app; right). unfold epilogue.
    do 2 apply list_elem_of_further. apply list_elem_of_here.
Qed.

(** *** What [main] reaches *)

Lemma report_event_main e : report_event e → main_event e.
Proof. by destruct e. Qed.

Lemma cleanup_event_main e : cleanup_event e → main_event e.
Proof. by destruct e. Qed.

Lemma failure_log_main description r : Forall main_event (failure_log description r).
Proof.
  destruct r as [code|cls msg]; cbn; [destruct (code =? 0)|];
    repeat first [apply Forall_nil_2 | apply Forall_cons_2]; done.
Qed.

Lemma run_events_main command description max_retries r :
  is_collect command || is_generate command || is_git_add command || is_git_commit command
  || is_git_push command = true →
  Forall main_event (run_events w command description max_retries r).
Proof.
  intros Hcmd. unfold run_events. apply Forall_app; split; [|apply failure_log_main].
  repeat first [apply Forall_nil_2 | apply Forall_cons_2];
    unfold attempt_log, runner_spawn; cbn; first [done | set_solver].
Qed.

Lemma main_run_events st b m evs : main_run w st b m evs → Forall main_event evs.
Proof.
  destruct 1;
    unfold prelude, collect_events, generate_events, add_events, commit_events, push_events,
      epilogue;
    repeat first
      [ apply Forall_nil_2
      | apply run_events_main; reflexivity
      | apply Forall_app; split
      | apply Forall_cons_2
      | by eapply Forall_impl; [eassumption|apply report_event_main]
      | by eapply Forall_impl; [eassumption|apply cleanup_event_main]
      | match goal with |- Forall _ (if ?c then _ else _) => destruct c end ];
    cbn; first [done | set_solver].
Qed.

Lemma enters_intro {A} fn (body : M A) :
  emits any_event body → enters fn (enter fn;; body).
Proof.
  intros Hbody st. unfold enter. rewrite bind_emit.
  destruct (Hbody (State (os st) (trace st ++ [Enter fn]))) as (evs & -> & _).
  exists evs. cbn [trace]. by rewrite <- app_assoc.
Qed.

Lemma emits_subprocess_run P command check cwd env :
  (∀ r, P (Spawn command cwd env r)) → emits P (subprocess_run w command check cwd env).
Proof.
  intros HP st. unfold subprocess_run.
  destruct (child w _ command (os st)) as [r m'].
  exists [Spawn command cwd env r]. split; [|by apply Forall_singleton].
  destruct r as [code|cls msg]; [destruct (check && negb (code =? 0))|]; reflexivity.
Qed.

Lemma emits_copy_articles P docs_dir articles article_count :
  emits P (copy_articles docs_dir articles article_count).
Proof.
  revert article_count. induction articles as [|f rest IH]; intros n; cbn [copy_articles].
  - apply emits_ret.
  - apply emits_bind; [apply emits_shutil_copy2|intros _; apply IH].
Qed.

Lemma emits_max_by_mtime P best best_mtime files :
  emits P (max_by_mtime best best_mtime files).
Proof.
  revert best best_mtime. induction files as [|f rest IH]; intros best t0; cbn [max_by_mtime].
  - apply emits_ret.
  - apply emits_bind; [apply emits_stat_st_mtime|intros t]. destruct (t0 <? t); apply IH.
Qed.

Ltac emits_any :=
  repeat first
    [ apply emits_emit; exact I
    | apply emits_path_exists | apply emits_shutil_rmtree | apply emits_mkdir_exist_ok
    | apply emits_shutil_copy2 | apply emits_unlink | apply emits_stat_st_mtime
    | apply emits_time_time | apply emits_pd_read_csv | apply emits_SentimentEmailSender
    | apply emits_py_import; exact I | apply emits_sender_send_email; exact I
    | apply emits_subprocess_run; intros; exact I
    | apply emits_copy_articles | apply emits_max_by_mtime
    | emits_step ].

Lemma copy_to_docs_enters : enters "copy_to_docs" (copy_to_docs w).
Proof.
  apply enters_intro.
  unfold clean_docs_dir, copy_report, logger_info, logger_warning, logger_error. emits_any.
Qed.

Lemma push_to_github_enters : enters "push_to_github" (push_to_github w).
Proof.
  apply enters_intro. unfold logger_info, logger_warning, logger_error. emits_any.
Qed.

Lemma send_email_report_enters : enters "send_email_report" (send_email_report w).
Proof.
  apply enters_intro. unfold logger_info, logger_warning, logger_error. emits_any.
Qed.

(** C10: [main] never invokes [copy_to_docs], [push_to_github] or
    [send_email_report].  Each of the three records its entry when it is
    invoked, and no run of [main] records one; every child of a run of [main]
    runs one of the two scripts, [git add index.html], [git commit -m ...] or
    [git push origin gh-pages], so none of the commands of [push_to_github]
    ([git add results/*], [git add docs/*], [git push]) is ever run. *)
Theorem main_never_calls_publisher st :
  (enters "copy_to_docs" (copy_to_docs w)
   ∧ enters "push_to_github" (push_to_github w)
   ∧ enters "send_email_report" (send_email_report w))
  ∧ ∃ evs, trace (main w st).2 = trace st ++ evs
      ∧ (∀ fn, fn ∈ ["copy_to_docs"; "push_to_github"; "send_email_report"] → Enter fn ∉ evs)
      ∧ (∀ cmd cwd env r, Spawn cmd cwd env r ∈ evs →
           is_collect cmd || is_generate cmd || is_git_add cmd || is_git_commit cmd
           || is_git_push cmd = true)
      ∧ (∀ cmd cwd env r, Spawn cmd cwd env r ∈ evs →
           cmd ∉ [["git"; "add"; "results/*"]; ["git"; "add"; "docs/*"]; ["git"; "push"]]).
Proof.
  split; [auto using copy_to_docs_enters, push_to_github_enters, send_email_report_enters|].
  destruct (main_runs w st) as (b & m & evs & Heq & Hrun).
  apply main_run_events in Hrun. rewrite Forall_forall in Hrun.
  exists evs. rewrite Heq. split; [reflexivity|]. split; [|split].
  - intros fn Hfn Hin. apply Hrun in Hin. cbn in Hin.
    repeat (apply elem_of_cons in Hfn as [->|Hfn];
            [ repeat (apply elem_of_cons in Hin as [Hin|Hin]; [discriminate|]);
              by apply elem_of_nil in Hin | ]).
    by apply elem_of_nil in Hfn.
  - intros cmd cwd env r Hin. exact (Hrun _ Hin).
  - intros cmd cwd env r Hin Hcmd. apply Hrun in Hin. cbn in Hin.
    repeat (apply elem_of_cons in Hcmd as [->|Hcmd]; [discriminate|]).
    by apply elem_of_nil in Hcmd.
Qed.

End MainClaims.

(** *** The runs of the examples *)



Lemma main_survives_failed_push_witness :
  (step_succeeded is_collect (trace (main demo_failed_push demo_state).2) = true
   ∧ step_succeeded is_generate (trace (main demo_failed_push demo_state).2) = true
   ∧ step_succeeded is_git_add (trace (main demo_failed_push demo_state).2) = true
   ∧ step_failed is_git_push (trace (main demo_failed_push demo_state).2) = true)
  ∧ (main demo_failed_push demo_state).1 = Ret true
  ∧ ∃ before after,
      trace (main demo_failed_push demo_state).2
      = before
        ++ Log WARNING "⚠️ Git push failed - dashboard may not be updated on GitHub"
        :: Log INFO "📧 Sending email report..."
        :: after
      ∧ Enter "cleanup_old_logs" ∈ after
      ∧ Log INFO "🎉 DAILY AUTOMATION COMPLETED SUCCESSFULLY" ∈ after.
Proof.
  split; [vm_compute; repeat split; reflexivity|].
  apply (main_survives_failed_push demo_failed_push demo_state
           (main demo_failed_push demo_state).1 (main demo_failed_push demo_state).2
           (trace (main demo_failed_push demo_state).2)).
  - apply surjective_pairing.
  - reflexivity.
  - vm_compute; reflexivity.
  - vm_compute; reflexivity.
  - vm_compute; reflexivity.
  - vm_compute; reflexivity.
Defined.

(** ** The file-system tree *)

Lemma fs_lookup_app p q n : fs_lookup (p ++ q) n = fs_lookup p n ≫= fs_lookup q.
Proof.
  revert n. induction p as [|x p IH]; intros n; cbn [app fs_lookup]; [done|].
  destruct n as [i d t|t ch]; [done|].
  destruct (ch !! x) as [c|]; cbn; [apply IH|done].
Qed.

Lemma fs_alter_cons f x p t ch :
  p ≠ [] → fs_alter f (x :: p) (Dir t ch) = Dir t (alter (fs_alter f p) x ch).
Proof. by destruct p. Qed.

(** Altering below a directory that exists alters that directory. *)
Lemma fs_lookup_alter_below f dir p n :
  p ≠ [] →
  fs_lookup dir (fs_alter f (dir ++ p) n) = fs_alter f p <$> fs_lookup dir n.
Proof.
  intros Hp. revert n. induction dir as [|x dir IH]; intros n; [done|].
  destruct n as [i d t|t ch]; [done|].
  cbn [app]. rewrite fs_alter_cons.
  2:{ intros Hnil. by apply app_eq_nil in Hnil as [_ ?]. }
  cbn [fs_lookup]. rewrite lookup_alter_eq.
  destruct (ch !! x) as [c|]; cbn; [apply IH|done].
Qed.

(** The entry [x] of the directory at [dir], after altering it. *)
Lemma fs_lookup_alter_entry f dir x t ch n :
  fs_lookup dir n = Some (Dir t ch) →
  fs_lookup dir (fs_alter f (dir ++ [x]) n) = Some (Dir t (partial_alter f x ch)).
Proof. intros Hdir. by rewrite fs_lookup_alter_below, Hdir. Qed.

Lemma fs_lookup_alter_same f dir x t ch n :
  fs_lookup dir n = Some (Dir t ch) →
  fs_lookup (dir ++ [x]) (fs_alter f (dir ++ [x]) n) = f (ch !! x).
Proof.
  intros Hdir. rewrite fs_lookup_app, (fs_lookup_alter_entry _ _ _ t ch) by done.
  cbn. rewrite lookup_partial_alter_eq. by destruct (f (ch !! x)).
Qed.

(** A sibling of the altered entry, and everything below it, is untouched. *)
Lemma fs_lookup_alter_sibling f dir x y q n :
  x ≠ y →
  fs_lookup (dir ++ y :: q) (fs_alter f (dir ++ [x]) n) = fs_lookup (dir ++ y :: q) n.
Proof.
  intros Hxy. rewrite !fs_lookup_app, fs_lookup_alter_below by done.
  destruct (fs_lookup dir n) as [[i d t|t ch]|]; [done| |done].
  cbn. by rewrite lookup_partial_alter_ne.
Qed.

Lemma fs_lookup_alter_diverge f dir x p y q n :
  x ≠ y →
  fs_lookup (dir ++ y :: q) (fs_alter f (dir ++ x :: p) n) = fs_lookup (dir ++ y :: q) n.
Proof.
  intros Hxy. rewrite !fs_lookup_app, fs_lookup_alter_below by done.
  destruct (fs_lookup dir n) as [[i d t|t ch]|]; [done| |done].
  cbn [fmap option_fmap option_map mbind option_bind].
  destruct p as [|z p]; cbn [fs_alter fs_lookup].
  - by rewrite lookup_partial_alter_ne.
  - by rewrite lookup_alter_ne.
Qed.

Lemma is_dir_alter_below f dir p n :
  p ≠ [] → is_dir dir (fs_alter f (dir ++ p) n) = is_dir dir n.
Proof.
  intros Hp. unfold is_dir. rewrite fs_lookup_alter_below by done.
  destruct p as [|x [|y p]]; [congruence| |];
    by destruct (fs_lookup dir n) as [[i d t|t ch]|].
Qed.

(** A file elsewhere is untouched when a file is altered. *)
Lemma fs_lookup_alter_other_file f a p n i d t :
  is_file a n = true →
  fs_lookup p n = Some (File i d t) →
  p ≠ a →
  fs_lookup p (fs_alter f a n) = Some (File i d t).
Proof.
  unfold is_file. revert p n.
  induction a as [|x a IH]; intros p n Ha Hp Hne; [done|].
  destruct n as [i' d' t'|t' ch]; [done|].
  destruct p as [|y p]; [done|].
  cbn [fs_lookup] in *.
  destruct (decide (x = y)) as [->|Hxy].
  - destruct a as [|z a]; cbn [fs_alter fs_lookup].
    + destruct (ch !! y) as [[i' d' t''|t'' ch']|]; try done.
      destruct p; [congruence|done].
    + rewrite lookup_alter_eq.
      destruct (ch !! y) as [c|]; [|done]. cbn in *.
      apply IH; [done|done|congruence].
  - destruct a as [|z a]; cbn [fs_alter fs_lookup].
    + by rewrite lookup_partial_alter_ne.
    + by rewrite lookup_alter_ne.
Qed.

(** ** The publisher *)

Lemma data_of_insert_file entries x i d t :
  data_of (<[x := File i d t]> entries) = <[x := d]> (data_of entries).
Proof. unfold data_of. by apply omap_insert_Some. Qed.

Lemma files_since_insert n0 entries x i d t :
  (n0 ≤ i)%nat → files_since n0 entries → files_since n0 (<[x := File i d t]> entries).
Proof. intros Hi H. apply map_Forall_insert_2; [eauto|done]. Qed.

Section Publisher.

Variable w : World.

#[local] Abbreviation docs := (docs_dir w).
#[local] Abbreviation results := (results_dir w).

Lemma results_docs_diverge f name q n :
  fs_lookup (results ++ q) (fs_alter f (docs ++ [name]) n) = fs_lookup (results ++ q) n.
Proof.
  unfold results_dir, docs_dir. rewrite <- !app_assoc. cbn [app].
  by apply fs_lookup_alter_diverge.
Qed.

(** One copy into the cleaned publish directory, under a name that is not
    there yet. *)
Lemma copy2_publishing st0 st entries x name :
  publishing w st0 st entries →
  entries !! name = None →
  match fs_lookup (results ++ [x]) (root (os st0)) with
  | Some (File _ d t) =>
      ∃ st' i, shutil_copy2 (results ++ [x]) (docs ++ [name]) st = (Ret tt, st')
               ∧ publishing w st0 st' (<[name := File i d t]> entries)
  | _ => ∃ e, shutil_copy2 (results ++ [x]) (docs ++ [name]) st = (Raise e, st)
  end.
Proof.
  intros [Hdir [td Hdocs] Hres Hfiles Hnext [evs Htr]] Hname.
  pose proof (Hres [x]) as Hsrc.
  unfold shutil_copy2, bind, get_machine.
  assert (Hdst : fs_lookup (docs ++ [name]) (root (os st)) = None).
  { by rewrite fs_lookup_app, Hdocs; cbn; rewrite Hname. }
  assert (Hnodir : is_dir (docs ++ [name]) (root (os st)) = false).
  { unfold is_dir. by rewrite Hdst. }
  cbv zeta. rewrite Hnodir, Hdst, Hsrc.
  destruct (fs_lookup (results ++ [x]) (root (os st0))) as [[i d t|t ch]|];
    [|by eexists|by eexists].
  unfold parent. rewrite removelast_last, Hdocs.
  eexists _, (next_ino (os st)). split; [reflexivity|].
  split; cbn [os root next_ino trace].
  - replace (docs ++ [name]) with (script_dir w ++ ["docs"; name])
      by (unfold docs_dir; by rewrite <- app_assoc).
    by rewrite is_dir_alter_below.
  - exists td. by apply fs_lookup_alter_entry.
  - intros q. by rewrite results_docs_diverge.
  - by apply files_since_insert.
  - lia.
  - by exists evs.
Qed.

Lemma publishing_emit st0 st entries e :
  publishing w st0 st entries →
  publishing w st0 (State (os st) (trace st ++ [e])) entries.
Proof.
  intros [Hdir Hdocs Hres Hfiles Hnext [evs Htr]]. split; cbn [os trace]; try done.
  exists (evs ++ [e]). by rewrite Htr, app_assoc.
Qed.

Lemma copy_data_ext src src' names acc :
  (∀ x, src x = src' x) → copy_data src names acc = copy_data src' names acc.
Proof.
  intros Hext. revert acc. induction names as [|x rest IH]; intros acc; cbn; [done|].
  rewrite <- Hext. destruct (src x) as [[i d t|t ch]|]; [apply IH|done|done].
Qed.

(** The loop over the article pages. *)
Lemma copy_articles_publishing st0 names :
  ∀ st entries k,
    publishing w st0 st entries →
    NoDup names →
    (∀ x, x ∈ names → entries !! x = None) →
    ∃ r st' entries',
      copy_articles docs ((λ x, results ++ [x]) <$> names) k st = (r, st')
      ∧ publishing w st0 st' entries'
      ∧ data_of entries'
        = copy_data (λ x, fs_lookup (results ++ [x]) (root (os st0))) names (data_of entries).
Proof.
  induction names as [|x rest IH]; intros st entries k Hpub Hnodup Hfree.
  - exists (Ret k), st, entries. done.
  - apply NoDup_cons in Hnodup as [Hx Hnodup].
    cbn [fmap list_fmap copy_articles copy_data].
    unfold basename. rewrite last_last. unfold bind at 1.
    pose proof (copy2_publishing st0 st entries x x Hpub) as Hcopy.
    destruct (fs_lookup (results ++ [x]) (root (os st0))) as [[i d t|t ch]|].
    + destruct Hcopy as (st1 & j & -> & Hpub1); [apply Hfree; left|].
      destruct (IH st1 (<[x := File j d t]> entries) (k + 1) Hpub1 Hnodup)
        as (r & st' & entries' & Heq & Hpub' & Hdata).
      { intros y Hy. rewrite lookup_insert_ne; [apply Hfree; by right|].
        intros ->. done. }
      exists r, st', entries'. by rewrite Heq, Hdata, data_of_insert_file.
    + destruct Hcopy as (e & ->); [apply Hfree; left|]. by exists (Raise e), st, entries.
    + destruct Hcopy as (e & ->); [apply Hfree; left|]. by exists (Raise e), st, entries.
Qed.

(** Cleaning the publish directory, when the project directory is there and
    the publish path is not a file: the directory is left empty. *)
Lemma clean_docs_dir_run st :
  is_dir (script_dir w) (root (os st)) = true →
  is_file docs (root (os st)) = false →
  ∃ st1, clean_docs_dir docs st = (Ret tt, st1) ∧ publishing w st st1 ∅.
Proof.
  unfold is_dir, is_file. intros Hdir Hfile.
  destruct (fs_lookup (script_dir w) (root (os st))) as [[?|t ch]|] eqn:Hcd; try done.
  unfold clean_docs_dir. rewrite bind_path_exists. unfold exists_in.
  assert (Hclean : ∀ (m : machine) tr t' ch',
    fs_lookup (script_dir w) (root m) = Some (Dir t' ch') →
    fs_lookup docs (root m) = None →
    (∀ q, fs_lookup (results ++ q) (root m) = fs_lookup (results ++ q) (root (os st))) →
    next_ino m = next_ino (os st) →
    (∃ evs, tr = trace st ++ evs) →
    ∃ st1, mkdir_exist_ok docs (State m tr) = (Ret tt, st1) ∧ publishing w st st1 ∅).
  { intros m tr t' ch' Hcd' Hnone Hres Hino Htr.
    unfold mkdir_exist_ok, bind, get_machine. cbn [os].
    unfold parent, docs_dir in *. rewrite Hnone, removelast_last, Hcd'.
    eexists; split; [reflexivity|]. split; cbn [os root next_ino trace set_root].
    - by rewrite is_dir_alter_below; [unfold is_dir; rewrite Hcd'|].
    - eexists. unfold docs_dir. erewrite fs_lookup_alter_same; [reflexivity|exact Hcd'].
    - intros q. unfold results_dir. rewrite <- !app_assoc. cbn [app].
      rewrite fs_lookup_alter_diverge by done. specialize (Hres q).
      unfold results_dir in Hres. by rewrite <- !app_assoc in Hres.
    - apply map_Forall_empty.
    - lia.
    - done. }
  destruct (fs_lookup docs (root (os st))) as [[?|td dch]|] eqn:Hdocs; try done.
  - unfold logger_info. rewrite bind_bind, bind_emit. unfold bind at 1.
    unfold shutil_rmtree, bind at 1, get_machine. cbn [os]. rewrite Hdocs.
    unfold put_machine. cbn [os trace].
    eapply Hclean.
    + cbn [root set_root]. unfold docs_dir. erewrite fs_lookup_alter_entry; [reflexivity|done].
    + cbn [root set_root]. unfold docs_dir. by erewrite fs_lookup_alter_same.
    + intros q. cbn [root set_root]. unfold results_dir, docs_dir.
      rewrite <- !app_assoc. cbn [app]. by rewrite fs_lookup_alter_diverge.
    + done.
    + by eexists.
  - rewrite bind_ret. destruct st as [m tr]. eapply Hclean; try done.
    exists []. cbn. by rewrite app_nil_r.
Qed.

(** The report, copied under its two names. *)
Lemma copy_report_run st0 st :
  publishing w st0 st ∅ →
  ∃ r st' entries,
    copy_report results docs st = (r, st')
    ∧ publishing w st0 st' entries
    ∧ match fs_lookup (results ++ ["sentiment_report_latest.html"]) (root (os st0)) with
      | Some (File _ d _) =>
          r = Ret tt
          ∧ ∃ i j t, entries = <["sentiment_report_latest.html" := File j d t]>
                                 (<["index.html" := File i d t]> ∅)
      | Some (Dir _ _) => (∃ e, r = Raise e) ∧ entries = ∅
      | None => r = Ret tt ∧ entries = ∅
      end.
Proof.
  intros Hpub. unfold copy_report. cbv zeta. rewrite bind_path_exists. unfold exists_in.
  rewrite (pub_results _ _ _ _ Hpub).
  pose proof (copy2_publishing st0 st ∅ "sentiment_report_latest.html" "index.html" Hpub
                (lookup_empty _)) as Hcopy1.
  destruct (fs_lookup (results ++ ["sentiment_report_latest.html"]) (root (os st0)))
    as [[i0 d t|t ch]|] eqn:Hsrc.
  - destruct Hcopy1 as (st1 & i & Heq1 & Hpub1).
    unfold bind at 1. rewrite Heq1.
    pose proof (copy2_publishing st0 st1 _ "sentiment_report_latest.html"
                  "sentiment_report_latest.html" Hpub1) as Hcopy2.
    rewrite Hsrc in Hcopy2. destruct Hcopy2 as (st2 & j & Heq2 & Hpub2).
    { rewrite lookup_insert_ne by done. apply lookup_empty. }
    unfold bind at 1. rewrite Heq2. unfold logger_info, emit.
    eexists _, _, _. split; [reflexivity|]. split; [by apply publishing_emit|].
    split; [done|]. by exists i, j, t.
  - destruct Hcopy1 as (e & Heq1). unfold bind at 1. rewrite Heq1.
    exists (Raise e), st, ∅. split; [done|]. split; [done|]. split; [by exists e|done].
  - unfold logger_warning, emit.
    eexists _, _, _. split; [reflexivity|]. split; [by apply publishing_emit|]. done.
Qed.

Lemma glob_names_ext pat dir r1 r2 :
  fs_lookup dir r1 = fs_lookup dir r2 → glob_names pat dir r1 = glob_names pat dir r2.
Proof. unfold glob_names. by intros ->. Qed.

Lemma NoDup_glob_names pat dir r : NoDup (glob_names pat dir r).
Proof.
  unfold glob_names. destruct (fs_lookup dir r) as [[i d t|t ch]|]; try apply NoDup_nil_2.
  apply NoDup_filter, NoDup_fst_map_to_list.
Qed.

Lemma glob_names_match pat dir r x : x ∈ glob_names pat dir r → fnmatch pat x = true.
Proof.
  unfold glob_names. destruct (fs_lookup dir r) as [[i d t|t ch]|];
    try (by intros ?%elem_of_nil).
  by intros [? _]%list_elem_of_filter.
Qed.

Lemma publishing_start st evs0 st' entries :
  publishing w (State (os st) (trace st ++ evs0)) st' entries → publishing w st st' entries.
Proof.
  intros [Hdir Hdocs Hres Hfiles Hnext [evs Htr]]. split; try done.
  exists (evs0 ++ evs). cbn [trace] in Htr. by rewrite Htr, app_assoc.
Qed.

(** The articles, and the end of the [try] block. *)
Lemma copy_articles_and_finish st0 st entries :
  publishing w st0 st entries →
  (∀ x, fnmatch "articles_*_latest.html" x = true → entries !! x = None) →
  ∃ r st' entries',
    (m ← get_machine;
     article_count ← copy_articles docs (glob "articles_*_latest.html" results (root m)) 0;
     logger_info ("✅ Copied " +:+ pretty article_count
                  +:+ " individual stock article pages (LATEST ONLY)");;
     logger_info "📊 Sentiment dashboard will be available at: https://theemeraldnetwork.github.io/Kalimera/";;
     ret true) st = (r, st')
    ∧ publishing w st0 st' entries'
    ∧ data_of entries'
      = copy_data (λ x, fs_lookup (results ++ [x]) (root (os st0)))
          (glob_names "articles_*_latest.html" results (root (os st0))) (data_of entries).
Proof.
  intros Hpub Hfree. unfold bind at 1, get_machine, glob.
  rewrite (glob_names_ext _ _ (root (os st)) (root (os st0))).
  2:{ pose proof (pub_results _ _ _ _ Hpub []) as H. by rewrite app_nil_r in H. }
  destruct (copy_articles_publishing st0
              (glob_names "articles_*_latest.html" results (root (os st0))) st entries 0 Hpub)
    as (r & st1 & entries' & Heq & Hpub1 & Hdata).
  { apply NoDup_glob_names. }
  { intros x Hx. apply Hfree. by eapply glob_names_match. }
  unfold bind at 1. rewrite Heq. destruct r as [n|e].
  - unfold logger_info. rewrite !bind_emit. unfold ret.
    eexists _, _, entries'. split; [reflexivity|]. split; [|done].
    by do 2 apply publishing_emit.
  - by exists (Raise e), st1, entries'.
Qed.

(** The publisher, when the project directory is there and the publish path
    is not a file: it returns, and the publish directory then holds exactly
    what [published] says, in files created by this run. *)
Lemma copy_to_docs_run st :
  is_dir (script_dir w) (root (os st)) = true →
  is_file docs (root (os st)) = false →
  ∃ b st' entries,
    copy_to_docs w st = (Ret b, st')
    ∧ publishing w st st' entries
    ∧ data_of entries = published w (os st).
Proof.
  intros Hdir Hfile. unfold copy_to_docs, enter. rewrite bind_emit.
  set (st_a := State (os st) (trace st ++ [Enter "copy_to_docs"])).
  destruct (clean_docs_dir_run st_a Hdir Hfile) as (st1 & Hclean & Hpub1).
  unfold try_except, except_Exception. cbv zeta. fold docs results.
  unfold bind at 1. rewrite Hclean.
  destruct (copy_report_run st_a st1 Hpub1) as (r & st2 & entries & Hrep & Hpub2 & Hcase).
  unfold bind at 1. rewrite Hrep.
  unfold published, published_from. change (root (os st)) with (root (os st_a)).
  destruct (fs_lookup (results ++ ["sentiment_report_latest.html"]) (root (os st_a)))
    as [[i0 d t|t ch]|].
  - destruct Hcase as (-> & i & j & t' & ->).
    destruct (copy_articles_and_finish st_a st2 _ Hpub2) as (r & st3 & entries' & Heq & Hpub3 & Hdata).
    { intros x Hx. rewrite !lookup_insert_ne; [apply lookup_empty| |]; by intros <-. }
    rewrite Heq. rewrite !data_of_insert_file in Hdata.
    unfold data_of in Hdata at 2. rewrite omap_empty in Hdata.
    destruct r as [b|e].
    + exists b, st3, entries'. split; [done|]. split; [by eapply publishing_start|done].
    + unfold logger_error. rewrite bind_emit. unfold ret.
      eexists false, _, entries'. split; [reflexivity|]. split; [|done].
      eapply publishing_start. by apply publishing_emit.
  - destruct Hcase as ((e & ->) & ->).
    unfold logger_error. rewrite bind_emit. unfold ret.
    eexists false, _, ∅. split; [reflexivity|]. split.
    + eapply publishing_start. by apply publishing_emit.
    + apply omap_empty.
  - destruct Hcase as (-> & ->).
    destruct (copy_articles_and_finish st_a st2 _ Hpub2) as (r & st3 & entries' & Heq & Hpub3 & Hdata).
    { intros x Hx. apply lookup_empty. }
    rewrite Heq. unfold data_of in Hdata at 2. rewrite omap_empty in Hdata.
    destruct r as [b|e].
    + exists b, st3, entries'. split; [done|]. split; [by eapply publishing_start|done].
    + unfold logger_error. rewrite bind_emit. unfold ret.
      eexists false, _, entries'. split; [reflexivity|]. split; [|done].
      eapply publishing_start. by apply publishing_emit.
Qed.

End Publisher.

Section PublisherClaims.

Variable w : World.

#[local] Abbreviation docs := (docs_dir w).
#[local] Abbreviation results := (results_dir w).

(** Cleaning fails, and changes nothing, when the project directory is not
    there or the publish path is a file. *)
Lemma clean_docs_dir_raises st :
  is_dir (script_dir w) (root (os st)) = false ∨ is_file docs (root (os st)) = true →
  ∃ e evs, clean_docs_dir docs st = (Raise e, State (os st) (trace st ++ evs)).
Proof.
  unfold is_dir, is_file, clean_docs_dir. intros Hcase.
  rewrite bind_path_exists. unfold exists_in.
  destruct (fs_lookup docs (root (os st))) as [[i d t|t ch]|] eqn:Hdocs.
  - unfold logger_info. rewrite bind_bind, bind_emit.
    unfold shutil_rmtree, get_machine, bind. cbn [os]. rewrite Hdocs.
    by eexists _, [_].
  - exfalso. destruct Hcase as [Hcase|Hcase]; [|done].
    unfold docs_dir in Hdocs. rewrite fs_lookup_app in Hdocs.
    by destruct (fs_lookup (script_dir w) (root (os st))) as [[?|??]|].
  - rewrite bind_ret. unfold mkdir_exist_ok, get_machine, bind. rewrite Hdocs.
    unfold parent, docs_dir. rewrite removelast_last.
    destruct Hcase as [Hcase|Hcase]; [|done].
    destruct (fs_lookup (script_dir w) (root (os st))) as [[?|??]|]; try done;
      eexists _, []; rewrite app_nil_r; by destruct st.
Qed.

Lemma copy_to_docs_noop st :
  is_dir (script_dir w) (root (os st)) = false ∨ is_file docs (root (os st)) = true →
  ∃ evs, copy_to_docs w st = (Ret false, State (os st) (trace st ++ evs)).
Proof.
  intros Hcase. unfold copy_to_docs, enter. rewrite bind_emit.
  destruct (clean_docs_dir_raises (State (os st) (trace st ++ [Enter "copy_to_docs"])) Hcase)
    as (e & evs & Hclean).
  unfold try_except, except_Exception. cbv zeta. fold docs.
  unfold bind at 1. rewrite Hclean. unfold logger_error. rewrite bind_emit.
  unfold ret. cbn [os trace]. eexists. by rewrite <- !app_assoc.
Qed.

(** Either the publisher runs ([copy_to_docs_run]) or it does nothing
    ([copy_to_docs_noop]). *)
Lemma publisher_cases st :
  (is_dir (script_dir w) (root (os st)) = true ∧ is_file docs (root (os st)) = false)
  ∨ (is_dir (script_dir w) (root (os st)) = false ∨ is_file docs (root (os st)) = true).
Proof.
  destruct (is_dir (script_dir w) (root (os st))), (is_file docs (root (os st))); auto.
Qed.

(** What [copy_data] holds comes from its accumulator or from the names it
    was given. *)
Lemma copy_data_lookup src names acc x d :
  copy_data src names acc !! x = Some d → acc !! x = Some d ∨ x ∈ names.
Proof.
  revert acc. induction names as [|y rest IH]; intros acc; cbn [copy_data]; [auto|].
  destruct (src y) as [[i d' t|t ch]|]; [|auto|auto].
  intros [H|H]%IH; [|right; by right].
  destruct (decide (y = x)) as [->|Hne]; [right; left|].
  rewrite lookup_insert_ne in H by done. auto.
Qed.

Lemma published_lookup m x d :
  published w m !! x = Some d →
  x = "index.html" ∨ x = "sentiment_report_latest.html"
  ∨ fnmatch "articles_*_latest.html" x = true.
Proof.
  unfold published, published_from.
  destruct (fs_lookup _ (root m)) as [[i d' t|t ch]|].
  - intros [H|H]%copy_data_lookup.
    + destruct (decide (x = "sentiment_report_latest.html")) as [->|?]; [auto|].
      rewrite lookup_insert_ne in H by done.
      destruct (decide (x = "index.html")) as [->|?]; [auto|].
      rewrite lookup_insert_ne in H by done. by rewrite lookup_empty in H.
    + right; right. by eapply glob_names_match.
  - by rewrite lookup_empty.
  - intros [H|H]%copy_data_lookup; [by rewrite lookup_empty in H|].
    right; right. by eapply glob_names_match.
Qed.

(** Below a flat directory there are only its files. *)
Lemma fs_lookup_flat n0 entries t q i d t' :
  files_since n0 entries →
  fs_lookup q (Dir t entries) = Some (File i d t') →
  ∃ x, q = [x] ∧ entries !! x = Some (File i d t') ∧ (n0 ≤ i)%nat.
Proof.
  intros Hflat. destruct q as [|x q]; [done|]. cbn [fs_lookup].
  destruct (entries !! x) as [c|] eqn:Hx; [|done].
  destruct (Hflat x c Hx) as (j & dj & tj & -> & Hj). cbn.
  destruct q; [|done]. intros [= -> -> ->]. by exists x.
Qed.

(** C4: after a run of the publisher that returns [True], no file that was
    in the publish directory before the run is there any more.  The block
    that cleans the directory leaves it empty whenever it returns; every file
    found in the directory after the run was created by the run, so it is
    none of the files that were there before; and a name that the run does
    not write (a sentinel) is not in the directory afterwards. *)
Theorem copy_to_docs_discards_prior_files st st' :
  (∀ q i d t, fs_lookup (docs ++ q) (root (os st)) = Some (File i d t) →
              (i < next_ino (os st))%nat) →
  copy_to_docs w st = (Ret true, st') →
  (∀ s s1, clean_docs_dir docs s = (Ret tt, s1) →
           ∃ t, fs_lookup docs (root (os s1)) = Some (Dir t ∅))
  ∧ (∀ q i d t q' i' d' t',
       fs_lookup (docs ++ q) (root (os st)) = Some (File i d t) →
       fs_lookup (docs ++ q') (root (os st')) = Some (File i' d' t') →
       i' ≠ i)
  ∧ (∀ x q,
       x ≠ "index.html" → x ≠ "sentiment_report_latest.html" →
       fnmatch "articles_*_latest.html" x = false →
       fs_lookup (docs ++ x :: q) (root (os st')) = None).
Proof.
  intros Hold Hrun. split; [|].
  { intros s s1 Hclean. destruct (publisher_cases s) as [[Hdir Hfile]|Hcase].
    - destruct (clean_docs_dir_run w s Hdir Hfile) as (s1' & Heq & Hpub).
      fold docs in Heq. rewrite Hclean in Heq. injection Heq as <-.
      exact (pub_docs _ _ _ _ Hpub).
    - destruct (clean_docs_dir_raises s Hcase) as (e & evs & Heq). congruence. }
  destruct (publisher_cases st) as [[Hdir Hfile]|Hcase].
  2:{ destruct (copy_to_docs_noop st Hcase) as (evs & Heq). congruence. }
  destruct (copy_to_docs_run w st Hdir Hfile) as (b & st1 & entries & Heq & Hpub & Hdata).
  rewrite Hrun in Heq. injection Heq as <- <-.
  destruct (pub_docs _ _ _ _ Hpub) as [td Hdocs]. fold docs in Hdocs.
  pose proof (pub_files _ _ _ _ Hpub) as Hflat.
  split.
  - intros q i d t q' i' d' t' Hbefore Hafter.
    apply Hold in Hbefore.
    rewrite fs_lookup_app, Hdocs in Hafter. cbn in Hafter.
    apply (fs_lookup_flat _ _ _ _ _ _ _ Hflat) in Hafter as (x & _ & _ & Hi').
    lia.
  - intros x q Hx1 Hx2 Hx3.
    rewrite fs_lookup_app, Hdocs. cbn [mbind option_bind fs_lookup].
    destruct (entries !! x) as [c|] eqn:Hc; [|done]. exfalso.
    destruct (Hflat x c Hc) as (i & d & t & -> & _).
    assert (Hpubx : published w (os st) !! x = Some d).
    { rewrite <- Hdata. unfold data_of. by rewrite lookup_omap, Hc. }
    apply published_lookup in Hpubx as [?|[?|?]]; congruence.
Qed.

Lemma published_from_ext src src' names :
  (∀ x, src x = src' x) → published_from src names = published_from src' names.
Proof.
  intros Hext. unfold published_from. rewrite <- Hext.
  destruct (src _) as [[i d t|t ch]|]; [|done|]; by apply copy_data_ext.
Qed.

Lemma published_ext m1 m2 :
  (∀ q, fs_lookup (results ++ q) (root m1) = fs_lookup (results ++ q) (root m2)) →
  published w m1 = published w m2.
Proof.
  intros Hres. unfold published. fold results.
  rewrite (glob_names_ext _ results (root m1) (root m2)).
  - apply published_from_ext. intros x. apply Hres.
  - specialize (Hres []). by rewrite app_nil_r in Hres.
Qed.

(** Two flat directories with the same data have the same contents. *)
Lemma same_contents_flat n1 n2 t1 t2 entries1 entries2 :
  files_since n1 entries1 → files_since n2 entries2 →
  data_of entries1 = data_of entries2 →
  same_contents (Some (Dir t1 entries1)) (Some (Dir t2 entries2)).
Proof.
  intros Hflat1 Hflat2 Hdata q. unfold content_at. cbn [mbind option_bind].
  destruct q as [|x q]; [done|]. cbn [fs_lookup].
  assert (Hx : data_of entries1 !! x = data_of entries2 !! x) by by rewrite Hdata.
  unfold data_of in Hx. rewrite !lookup_omap in Hx.
  destruct (entries1 !! x) as [c1|] eqn:H1, (entries2 !! x) as [c2|] eqn:H2; cbn in *.
  - destruct (Hflat1 x c1 H1) as (i1 & d1 & t1' & -> & _).
    destruct (Hflat2 x c2 H2) as (i2 & d2 & t2' & -> & _).
    cbn in Hx. injection Hx as ->. by destruct q.
  - destruct (Hflat1 x c1 H1) as (i1 & d1 & t1' & -> & _). done.
  - destruct (Hflat2 x c2 H2) as (i2 & d2 & t2' & -> & _). done.
  - done.
Qed.

(** C8: the publisher is idempotent.  A run leaves the results directory as
    it was, and a second run right after the first leaves a publish
    directory with the same file names and the same data under each name. *)
Theorem copy_to_docs_idempotent st :
  let st1 := (copy_to_docs w st).2 in
  let st2 := (copy_to_docs w st1).2 in
  (∀ q, fs_lookup (results ++ q) (root (os st1)) = fs_lookup (results ++ q) (root (os st)))
  ∧ same_contents (fs_lookup docs (root (os st2))) (fs_lookup docs (root (os st1))).
Proof.
  cbv zeta. destruct (publisher_cases st) as [[Hdir Hfile]|Hcase].
  - destruct (copy_to_docs_run w st Hdir Hfile) as (b1 & st1 & entries1 & -> & Hpub1 & Hdata1).
    cbn [snd]. split; [exact (pub_results _ _ _ _ Hpub1)|].
    destruct (pub_docs _ _ _ _ Hpub1) as [t1 Hdocs1]. fold docs in Hdocs1.
    destruct (copy_to_docs_run w st1) as (b2 & st2 & entries2 & -> & Hpub2 & Hdata2).
    { exact (pub_dir _ _ _ _ Hpub1). }
    { unfold is_file. fold docs. by rewrite Hdocs1. }
    cbn [snd]. destruct (pub_docs _ _ _ _ Hpub2) as [t2 Hdocs2]. fold docs in Hdocs2.
    rewrite Hdocs1, Hdocs2.
    eapply same_contents_flat;
      [exact (pub_files _ _ _ _ Hpub2)|exact (pub_files _ _ _ _ Hpub1)|].
    rewrite Hdata1, Hdata2. apply published_ext. exact (pub_results _ _ _ _ Hpub1).
  - destruct (copy_to_docs_noop st Hcase) as (evs1 & ->). cbn [snd].
    split; [done|].
    destruct (copy_to_docs_noop (State (os st) (trace st ++ evs1)) Hcase) as (evs2 & ->).
    done.
Qed.

End PublisherClaims.

(** ** Housekeeping *)


Lemma fs_lookup_deleted a n :
  a ≠ [] → fs_lookup a (fs_alter (λ _, None) a n) = None.
Proof.
  revert n. induction a as [|x a IH]; intros n Ha; [done|].
  destruct n as [i d t|t ch]; [done|].
  destruct a as [|y a]; cbn [fs_alter fs_lookup].
  - by rewrite lookup_partial_alter_eq.
  - rewrite lookup_alter_eq. destruct (ch !! x) as [c|]; [|done]. cbn. by apply IH.
Qed.

Lemma fnmatch_cons c pat d s :
  Ascii.eqb c "*" = false →
  fnmatch (String c pat) (String d s) = Ascii.eqb c d && fnmatch pat s.
Proof. intros H. cbn [fnmatch]. by rewrite H. Qed.

Lemma fnmatch_dot_log s : fnmatch ".log" s = true ↔ s = ".log".
Proof.
  split; [|by intros ->].
  intros H.
  do 4 (destruct s as [|? s]; [done|]; rewrite fnmatch_cons in H by done;
        apply andb_true_iff in H as [<-%Ascii.eqb_eq H]).
  by destruct s.
Qed.

Lemma fnmatch_star_log_cons c x :
  fnmatch "*.log" (String c x) = fnmatch ".log" (String c x) || fnmatch "*.log" x.
Proof. reflexivity. Qed.

(** [*.log] matches the names that end in [.log]. *)
Lemma fnmatch_log x : fnmatch "*.log" x = true ↔ ∃ stem, x = stem +:+ ".log".
Proof.
  induction x as [|c x IH].
  - split; [done|]. intros [[|??] ?]; done.
  - rewrite fnmatch_star_log_cons, orb_true_iff, fnmatch_dot_log, IH. split.
    + intros [->|[stem ->]]; [by exists ""|by exists (String c stem)].
    + intros [[|c' stem] Hstem]; cbn in Hstem.
      * by left.
      * right. injection Hstem as -> ->. by exists stem.
Qed.

Section Housekeeping.

Variable w : World.

#[local] Abbreviation logs := (logs_dir w).

Lemma for_each_cons {A} (x : A) l body st :
  for_each (x :: l) body st =
  match body x st with
  | (Ret _, st1) => for_each l body st1
  | (Raise e, st1) => (Raise e, st1)
  end.
Proof. reflexivity. Qed.





Lemma bind_get_machine {A} (k : machine → M A) st :
  bind get_machine k st = k (os st) st.
Proof. reflexivity. Qed.

Lemma elem_of_glob_names pat dir r x :
  x ∈ glob_names pat dir r
  ↔ fnmatch pat x = true ∧ is_dir dir r = true ∧ is_Some (fs_lookup (dir ++ [x]) r).
Proof.
  unfold glob_names, is_dir. rewrite fs_lookup_app.
  destruct (fs_lookup dir r) as [[i d t|t ch]|]; cbn.
  - split; [by intros ?%elem_of_nil|]. by intros (_ & ? & _).
  - rewrite list_elem_of_filter, list_elem_of_fmap. split.
    + intros (Hx & [y n] & -> & Hy%elem_of_map_to_list). cbn. rewrite Hy. by eauto.
    + intros (Hx & _ & Hsome). split; [done|].
      destruct (ch !! x) as [n|] eqn:Hn; [|by destruct Hsome].
      exists (x, n). split; [done|]. by apply elem_of_map_to_list.
  - split; [by intros ?%elem_of_nil|]. by intros (_ & ? & _).
Qed.


End Housekeeping.

(** ** The demo project, run *)


(** The two files of the demo publish directory were created before the
    demo machine's next identity. *)
Lemma demo_docs_allocated q i d t :
  fs_lookup ((script_dir (demo_world all_succeed) ++ ["docs"]) ++ q) (root (os demo_state))
  = Some (File i d t) →
  (i < next_ino (os demo_state))%nat.
Proof.
  rewrite fs_lookup_app.
  change (fs_lookup (script_dir (demo_world all_succeed) ++ ["docs"]) (root (os demo_state)))
    with (Some (Dir 0 demo_docs)).
  cbn [mbind option_bind]. destruct q as [|x q]; [done|]. cbn [fs_lookup].
  unfold demo_docs. rewrite lookup_insert. case_decide.
  { cbn. destruct q; [|done]. intros [= <- _ _]. cbn. lia. }
  rewrite lookup_insert. case_decide.
  { cbn. destruct q; [|done]. intros [= <- _ _]. cbn. lia. }
  by rewrite lookup_empty.
Qed.

Lemma copy_to_docs_discards_prior_files_witness :
  copy_to_docs (demo_world all_succeed) demo_state
  = (Ret true, (copy_to_docs (demo_world all_succeed) demo_state).2)
  ∧ (∀ i' d' t',
       fs_lookup (demo_dir ++ ["docs"; "index.html"])
         (root (os (copy_to_docs (demo_world all_succeed) demo_state).2))
       = Some (File i' d' t') →
       i' ≠ 20%nat)
  ∧ fs_lookup (demo_dir ++ ["docs"; "sentinel.txt"])
      (root (os (copy_to_docs (demo_world all_succeed) demo_state).2)) = None.
Proof.
  assert (Hrun : copy_to_docs (demo_world all_succeed) demo_state
                 = (Ret true, (copy_to_docs (demo_world all_succeed) demo_state).2)).
  { apply injective_projections; [vm_compute; reflexivity|reflexivity]. }
  split; [exact Hrun|].
  destruct (copy_to_docs_discards_prior_files (demo_world all_succeed) demo_state _
              demo_docs_allocated Hrun) as (_ & Hfresh & Hsentinel).
  split.
  - intros i' d' t' Hafter.
    apply (Hfresh ["index.html"] 20%nat "stale dashboard" 1 ["index.html"] i' d' t').
    + vm_compute. reflexivity.
    + exact Hafter.
  - apply (Hsentinel "sentinel.txt" []); [done|done|vm_compute; reflexivity].
Defined.


(** * Further properties of the code *)

(** ** The command runner, for every attempt count *)

Section RunnerBounds.

Variable w : World.

(** X4: With no attempt allowed the loop body never runs: no child is
    started, nothing is logged, the machine is as it was, and the result is
    [False]. *)
Theorem run_command_without_attempts command description max_retries st :
  max_retries ≤ 0 →
  run_command_with_logging w command description max_retries st
  = (Ret false, State (os st) (trace st ++ [Enter "run_command_with_logging"])).
Proof.
  intros Hk. rewrite run_command_with_logging_eq.
  by replace (0 <? max_retries) with false by (symmetry; apply Z.ltb_ge; lia).
Qed.

(** X5: The attempt count has no effect beyond the text of one log record:
    whatever it is, as long as it is positive, the runner does what it does
    with a count of one. One child is started, the result is whether it
    exited with status 0, and the run never sleeps. *)
Theorem run_command_ignores_max_retries command description max_retries st :
  0 < max_retries →
  let once := run_command_with_logging w command description 1 st in
  let many := run_command_with_logging w command description max_retries st in
  many.1 = once.1
  ∧ os many.2 = os once.2
  ∧ spawned (trace many.2) = spawned (trace once.2)
  ∧ List.length (spawned (trace many.2)) = S (List.length (spawned (trace st)))
  ∧ List.filter is_sleep (trace many.2) = List.filter is_sleep (trace st).
Proof.
  intros Hk. cbv zeta. rewrite !run_command_with_logging_eq.
  replace (0 <? max_retries) with true by (symmetry; apply Z.ltb_lt; lia).
  cbn [Z.ltb Z.compare fst snd os trace].
  assert (Hlog : ∀ r, spawned (failure_log description r) = []
                      ∧ List.filter is_sleep (failure_log description r) = []).
  { intros [code|cls msg]; cbn; [destruct (code =? 0)|]; done. }
  destruct (Hlog (next_child w command st).1) as [Hsp Hsl].
  rewrite !spawned_app, !List.filter_app, Hsp, Hsl.
  cbn [spawned List.filter is_spawn is_sleep attempt_log runner_spawn].
  rewrite !app_nil_r, length_app. cbn [List.length].
  repeat split; try done. lia.
Qed.

End RunnerBounds.

(** ** [push_to_github] *)

Section PushToGithub.

Variable w : World.


(** The loop over the git commands: the children started are those of the
    first commands, in order; all but the last exited with status 0; the
    loop ends normally when every command did, and otherwise with what
    [subprocess.run] raises for the last child. *)
Lemma push_loop_run cmds :
  ∀ st, ∃ results evs,
    let out := for_each cmds (λ cmd,
                 logger_info ("Running: " +:+ String.concat " " cmd);;
                 subprocess_run w cmd true None None) st in
    trace out.2 = trace st ++ evs
    ∧ spawned evs = zip_with inherited_spawn cmds results
    ∧ match out.1 with
      | Ret _ => List.length results = List.length cmds
                 ∧ Forall (λ r, succeeded r = true) results
      | Raise e => ∃ pre r cmd, results = pre ++ [r]
                     ∧ Forall (λ r, succeeded r = true) pre
                     ∧ cmds !! List.length pre = Some cmd
                     ∧ raised_by cmd r = Some e
      end.
Proof.
  induction cmds as [|cmd rest IH]; intros st.
  - exists [], []. cbn. rewrite app_nil_r. by repeat split.
  - cbv zeta.
    match goal with |- context [for_each ?c ?b ?s] =>
      remember (for_each c b s) as out eqn:Hrun
    end.
    rewrite for_each_cons in Hrun.
    unfold logger_info at 1 in Hrun. rewrite bind_emit in Hrun.
    unfold subprocess_run at 1 in Hrun. cbn [os trace] in Hrun.
    destruct (child w _ cmd (os st)) as [r m'].
    destruct r as [code|cls msg]; cbn [andb] in Hrun.
    + destruct (code =? 0) eqn:Hcode; cbn [negb] in Hrun.
      * match type of Hrun with context [for_each rest ?b ?s] =>
          destruct (IH s) as (results & evs & Htr & Hsp & Hout); cbv zeta in Htr, Hsp, Hout
        end.
        rewrite <- Hrun in Htr, Hout. cbn [trace] in Htr.
        exists (Exited code :: results), (Log INFO ("Running: " +:+ String.concat " " cmd)
                                          :: inherited_spawn cmd (Exited code) :: evs).
        rewrite Htr, <- !app_assoc. split; [done|].
        split; [cbn [spawned List.filter is_spawn inherited_spawn zip_with]; fold (spawned evs);
                 by rewrite Hsp|].
        assert (Hok : succeeded (Exited code) = true).
        { unfold succeeded, raised_by. by rewrite Hcode. }
        destruct out.1 as [[]|e].
        -- destruct Hout as [Hlen Hall]. split; [cbn; by rewrite Hlen|]. by constructor.
        -- destruct Hout as (pre & r & c & -> & Hpre & Hc & Hr).
           exists (Exited code :: pre), r, c. repeat split; try done. by constructor.
      * subst out. exists [Exited code], [Log INFO ("Running: " +:+ String.concat " " cmd);
                               inherited_spawn cmd (Exited code)].
        cbn [fst snd trace]. rewrite <- app_assoc. split; [reflexivity|].
        split; [by destruct rest|].
        exists [], (Exited code), cmd. repeat split; try done.
        unfold raised_by. by rewrite Hcode.
    + subst out. exists [NotStarted cls msg], [Log INFO ("Running: " +:+ String.concat " " cmd);
                                    inherited_spawn cmd (NotStarted cls msg)].
      cbn [fst snd trace]. rewrite <- app_assoc. split; [reflexivity|].
        split; [by destruct rest|].
      by exists [], (NotStarted cls msg), cmd.
Qed.

(** The whole function, in the same terms. *)
Lemma push_to_github_run st :
  ∃ results evs,
    trace (push_to_github w st).2 = trace st ++ evs
    ∧ spawned evs
      = zip_with inherited_spawn (push_commands (fmt_datetime w (clock (os st)))) results
    ∧ (((push_to_github w st).1 = Ret true
        ∧ List.length results = 4%nat
        ∧ Forall (λ r, succeeded r = true) results)
       ∨ ∃ pre r cmd e,
           results = pre ++ [r]
           ∧ Forall (λ r, succeeded r = true) pre
           ∧ push_commands (fmt_datetime w (clock (os st))) !! List.length pre = Some cmd
           ∧ raised_by cmd r = Some e
           ∧ (push_to_github w st).1
             = match e with
               | CalledProcessError _ _ _ _ => Ret false
               | PyException _ _ => Raise e
               end).
Proof.
  remember (push_to_github w st) as out eqn:Hrun.
  unfold push_to_github, enter in Hrun. rewrite bind_emit in Hrun.
  unfold try_except in Hrun. rewrite bind_get_machine in Hrun. cbv zeta in Hrun. cbn [os] in Hrun.
  fold (push_commands (fmt_datetime w (clock (os st)))) in Hrun.
  unfold bind at 1 in Hrun.
  match type of Hrun with context [for_each ?c ?b ?s] =>
    destruct (push_loop_run c s) as (results & evs & Htr & Hsp & Hout);
    cbv zeta in Htr, Hsp, Hout;
    destruct (for_each c b s) as [[[]|e] st'] eqn:Hloop
  end; cbn [fst snd trace] in *.
  - destruct Hout as [Hlen Hall]. unfold logger_info, ret in Hrun. rewrite bind_emit in Hrun.
    subst out. cbn [fst snd trace].
    exists results, (Enter "push_to_github" :: evs
                     ++ [Log INFO "Successfully pushed changes to GitHub"]).
    split; [rewrite Htr, <- !app_assoc; reflexivity|].
    split; [|by left].
    cbn [spawned List.filter is_spawn]. fold (spawned (evs ++ [Log INFO "Successfully pushed changes to GitHub"])).
    rewrite spawned_app, Hsp. cbn. by rewrite app_nil_r.
  - destruct Hout as (pre & r & cmd & -> & Hpre & Hcmd & Hr).
    destruct e as [rc c out' err|cls msg]; cbn [except_CalledProcessError] in Hrun.
    + unfold logger_error, ret in Hrun. rewrite bind_emit in Hrun. subst out. cbn [fst snd trace].
      eexists (pre ++ [r]), (Enter "push_to_github" :: evs ++ [_]).
      split; [rewrite Htr, <- !app_assoc; reflexivity|].
      split.
      * cbn [spawned List.filter is_spawn].
        match goal with |- List.filter is_spawn ?l = _ => fold (spawned l) end.
        rewrite spawned_app, Hsp. cbn. by rewrite app_nil_r.
      * right. by exists pre, r, cmd, (CalledProcessError rc c out' err).
    + subst out. cbn [fst snd trace].
      exists (pre ++ [r]), (Enter "push_to_github" :: evs).
      split; [rewrite Htr, <- !app_assoc; reflexivity|].
      split; [by cbn [spawned List.filter is_spawn]; fold (spawned evs)|].
      right. by exists pre, r, cmd, (PyException cls msg).
Qed.



(** X7: Only [subprocess.CalledProcessError] is caught. When
    [push_to_github] returns [True] every child it started exited with
    status 0; when it returns [False] the last child it started exited with
    a non-zero status; and when the last child could not be started ([git]
    is not installed, say) it raises: the exception of [subprocess.run]
    reaches the caller. *)
Theorem push_to_github_outcome st :
  ∃ evs,
    trace (push_to_github w st).2 = trace st ++ evs
    ∧ match (push_to_github w st).1 with
      | Ret true =>
          ∀ e, e ∈ spawned evs → ∃ cmd, e = inherited_spawn cmd (Exited 0)
      | Ret false =>
          ∃ cmd code,
            code ≠ 0
            ∧ last (spawned evs) = Some (inherited_spawn cmd (Exited code))
      | Raise e =>
          ∃ cmd cls msg,
            e = PyException cls msg
            ∧ last (spawned evs) = Some (inherited_spawn cmd (NotStarted cls msg))
      end.
Proof.
  destruct (push_to_github_run st) as (results & evs & Htr & Hsp & Hcases).
  exists evs. split; [done|].
  destruct Hcases as [(Hret & Hlen & Hall)|(pre & r & cmd & e & -> & Hpre & Hcmd & Hr & Hret)];
    rewrite Hret.
  - intros e. rewrite Hsp.
    intros Hin. apply elem_of_lookup_zip_with in Hin as (i & cmd & r & -> & _ & Hr).
    exists cmd. rewrite Forall_lookup in Hall. specialize (Hall _ _ Hr).
    destruct r as [code|cls msg]; [|done].
    unfold succeeded, raised_by in Hall. destruct (code =? 0) eqn:Hc; [|done].
    apply Z.eqb_eq in Hc. by subst.
  - assert (Hlastsp : last (spawned evs) = Some (inherited_spawn cmd r)).
    { rewrite Hsp. pose proof (lookup_lt_Some _ _ _ Hcmd) as Hpl.
      apply take_drop_middle in Hcmd. rewrite <- Hcmd.
      rewrite zip_with_app by (rewrite length_take; lia).
      cbn [zip_with].
      replace (zip_with inherited_spawn (drop _ _) []) with (@nil event)
        by (by destruct (drop _ _)).
      apply last_snoc. }
    rewrite Hlastsp. destruct r as [code|cls msg].
    + unfold raised_by in Hr. destruct (code =? 0) eqn:Hc; [done|].
      injection Hr as <-. exists cmd, code. split; [by apply Z.eqb_neq|done].
    + injection Hr as <-. by exists cmd, cls, msg.
Qed.

End PushToGithub.

(** ** [send_email_report] *)

Lemma bind_raise {A B} (e : exn) (k : A → M B) st : bind (raise e) k st = (Raise e, st).
Proof. reflexivity. Qed.

Lemma bind_returns {A B} (m : M A) (k : A → M B) st a st' :
  m st = (Ret a, st') → bind m k st = k a st'.
Proof. unfold bind. by intros ->. Qed.

Lemma stat_st_mtime_at p st t :
  mtime_at p (root (os st)) = Some t → stat_st_mtime p st = (Ret t, st).
Proof.
  unfold mtime_at, stat_st_mtime. rewrite bind_get_machine.
  destruct (fs_lookup p (root (os st))) as [[i d t'|t' ch]|]; by intros [= ->].
Qed.

(** [max(files, key=...)]: all of [files] being there, the result is one of
    them or the best so far, and none of them is more recent. *)
Lemma max_by_mtime_newest files :
  ∀ best t st,
    mtime_at best (root (os st)) = Some t →
    (∀ g, g ∈ files → is_Some (mtime_at g (root (os st)))) →
    ∃ f tf, max_by_mtime best t files st = (Ret f, st)
      ∧ f ∈ best :: files
      ∧ mtime_at f (root (os st)) = Some tf
      ∧ t ≤ tf
      ∧ ∀ g, g ∈ files → ∃ tg, mtime_at g (root (os st)) = Some tg ∧ tg ≤ tf.
Proof.
  induction files as [|g rest IH]; intros best t st Hbest Hall.
  - exists best, t. cbn. repeat split; [apply list_elem_of_here|done|lia|].
    by intros g ?%elem_of_nil.
  - cbn [max_by_mtime].
    destruct (Hall g) as [tg Hg]; [apply list_elem_of_here|].
    unfold bind at 1. rewrite (stat_st_mtime_at _ _ _ Hg).
    assert (Hrest : ∀ g', g' ∈ rest → is_Some (mtime_at g' (root (os st)))).
    { intros g' Hin. apply Hall. by apply list_elem_of_further. }
    destruct (t <? tg) eqn:Hlt.
    + apply Z.ltb_lt in Hlt.
      destruct (IH g tg st Hg Hrest) as (f & tf & Hrun & Hin & Hf & Hle & Hmax).
      exists f, tf. split; [done|]. split; [by apply list_elem_of_further|].
      split; [done|]. split; [lia|].
      intros g' [->|Hin']%elem_of_cons; [by exists tg|by apply Hmax].
    + apply Z.ltb_ge in Hlt.
      destruct (IH best t st Hbest Hrest) as (f & tf & Hrun & Hin & Hf & Hle & Hmax).
      exists f, tf. split; [done|]. split.
      { apply elem_of_cons in Hin as [->|Hin]; [apply list_elem_of_here|].
        by do 2 apply list_elem_of_further. }
      split; [done|]. split; [done|].
      intros g' [->|Hin']%elem_of_cons; [exists tg; split; [done|lia]|by apply Hmax].
Qed.

Ltac report_step H :=
  repeat first [ rewrite bind_emit in H | rewrite bind_bind in H | rewrite bind_ret in H
               | rewrite bind_raise in H | rewrite bind_path_exists in H
               | rewrite bind_get_machine in H ];
  cbv beta zeta in H; cbn [os trace] in H.

Ltac report_failed :=
  subst; unfold raise, ret; cbv beta iota; rewrite ?bind_emit; cbv beta; cbn [os trace];
  eexists false, _;
  split; [rewrite <- ?app_assoc; cbn [app]; reflexivity|];
  split; [repeat constructor|left; split; [reflexivity|repeat constructor]].

Section SendEmailReport.

Variable w : World.

Lemma glob_mtime pat dir r f : f ∈ glob pat dir r → is_Some (mtime_at f r).
Proof.
  unfold glob. intros (x & -> & Hx)%list_elem_of_fmap.
  apply elem_of_glob_names in Hx as (_ & _ & [n Hn]).
  unfold mtime_at. rewrite Hn. by destruct n.
Qed.

Lemma dated_summaries_mtime m f : f ∈ dated_summaries w m → is_Some (mtime_at f (root m)).
Proof.
  unfold dated_summaries. intros Hin. apply list_elem_of_In, List.filter_In in Hin as [Hin _].
  apply list_elem_of_In in Hin. by eapply glob_mtime.
Qed.

Lemma send_email_report_run st :
  ∃ b evs,
    send_email_report w st = (Ret b, State (os st) (trace st ++ evs))
    ∧ Forall (λ e, is_spawn e = false) evs
    ∧ ((b = false ∧ Forall (λ e, is_send_email e = false) evs)
       ∨ ∃ f i d t df pre post,
           summary_source w (os st) f
           ∧ fs_lookup f (root (os st)) = Some (File i d t)
           ∧ read_csv w d = inr df
           ∧ evs = pre ++ SendEmail df false :: post
           ∧ Forall (λ e, is_send_email e = false) pre
           ∧ Forall (λ e, is_send_email e = false) post
           ∧ b = match send_email w df false with inr _ => true | inl _ => false end).
Proof.
  remember (send_email_report w st) as out eqn:Hrun.
  unfold send_email_report, enter, try_except, except_Exception, logger_info, logger_error,
    logger_warning, py_import, SentimentEmailSender, sender_send_email in Hrun.
  rewrite bind_emit in Hrun. cbv zeta in Hrun.
  fold (latest_summary w) in Hrun.
  report_step Hrun.
  destruct (import_module w "automated_sentiment_daily_analysis.utils.email.report_sender")
    as [e1|]; report_step Hrun; [report_failed|].
  destruct (import_module w "pandas") as [e2|]; report_step Hrun; [report_failed|].
  (* the sender, once a summary has been read *)
  assert (Hsend : ∀ f i d t df,
    summary_source w (os st) f →
    fs_lookup f (root (os st)) = Some (File i d t) →
    read_csv w d = inr df →
    out =
      (let (r, st') :=
         bind (match new_sender w with
               | Some e => raise e
               | None => ret tt
               end) (λ _,
           bind (bind (emit (SendEmail df false)) (λ _,
                   match send_email w df false with
                   | inl e => raise e
                   | inr success => ret success
                   end)) (λ _,
             bind (emit (Log INFO "✅ Email report sent successfully")) (λ _, ret true)))
           (State (os st)
              ((((trace st ++ [Enter "send_email_report"])
                 ++ [Log INFO "Sending email report..."])
                ++ [Import "automated_sentiment_daily_analysis.utils.email.report_sender"])
               ++ [Import "pandas"])) in
       match r with
       | Ret a => (Ret a, st')
       | Raise e =>
           bind (emit (Log ERROR ("Error sending email report: " +:+ exn_str e)))
             (λ _, ret false) st'
       end) →
    ∃ b evs,
      out = (Ret b, State (os st) (trace st ++ evs))
      ∧ Forall (λ e, is_spawn e = false) evs
      ∧ ((b = false ∧ Forall (λ e, is_send_email e = false) evs)
         ∨ ∃ f i d t df pre post,
             summary_source w (os st) f
             ∧ fs_lookup f (root (os st)) = Some (File i d t)
             ∧ read_csv w d = inr df
             ∧ evs = pre ++ SendEmail df false :: post
             ∧ Forall (λ e, is_send_email e = false) pre
             ∧ Forall (λ e, is_send_email e = false) post
             ∧ b = match send_email w df false with inr _ => true | inl _ => false end)).
  { clear Hrun. intros f i d t df Hsrc Hf Hdf Hrun.
    destruct (new_sender w) as [e3|]; report_step Hrun; [report_failed|].
    destruct (send_email w df false) as [e4|success] eqn:Hsent; report_step Hrun.
    - subst out. unfold raise, ret. cbv beta iota. rewrite ?bind_emit. cbv beta. cbn [os trace].
      eexists false, _. split; [rewrite <- ?app_assoc; cbn [app]; reflexivity|].
      split; [repeat constructor|]. right.
      exists f, i, d, t, df, [Enter "send_email_report"; Log INFO "Sending email report...";
        Import "automated_sentiment_daily_analysis.utils.email.report_sender"; Import "pandas"].
      eexists. rewrite Hsent. repeat split; try done; repeat constructor.
    - subst out. unfold raise, ret. cbv beta iota. rewrite ?bind_emit. cbv beta. cbn [os trace].
      eexists true, _. split; [rewrite <- ?app_assoc; cbn [app]; reflexivity|].
      split; [repeat constructor|]. right.
      exists f, i, d, t, df, [Enter "send_email_report"; Log INFO "Sending email report...";
        Import "automated_sentiment_daily_analysis.utils.email.report_sender"; Import "pandas"].
      eexists. rewrite Hsent. repeat split; try done; repeat constructor. }
  destruct (exists_in (os st) (latest_summary w)) eqn:Hlatest.
  - (* the latest summary is there *)
    unfold pd_read_csv in Hrun. report_step Hrun.
    pose proof Hlatest as Hex. unfold exists_in in Hex.
    destruct (fs_lookup (latest_summary w) (root (os st))) as [[i d t|t ch]|] eqn:Hf;
      [|report_step Hrun; report_failed|done].
    destruct (read_csv w d) as [e|df] eqn:Hdf; report_step Hrun; [report_failed|].
    apply (Hsend (latest_summary w) i d t df); [by left|done|done|done].
  - (* the dated summaries *)
    report_step Hrun. fold (dated_summaries w (os st)) in Hrun.
    destruct (dated_summaries w (os st)) as [|f rest] eqn:Hdated;
      report_step Hrun; [report_failed|].
    assert (Hall : ∀ g, g ∈ f :: rest → is_Some (mtime_at g (root (os st)))).
    { intros g Hg. apply dated_summaries_mtime. by rewrite Hdated. }
    destruct (Hall f) as [tf Htf]; [apply list_elem_of_here|].
    match type of Hrun with context [bind (stat_st_mtime f) ?k ?s] =>
      rewrite (bind_returns (stat_st_mtime f) k s tf s (stat_st_mtime_at f s tf Htf)) in Hrun
    end.
    report_step Hrun.
    match type of Hrun with context [bind (max_by_mtime f tf rest) ?k ?s] =>
      destruct (max_by_mtime_newest rest f tf s Htf) as (g & tg & Hmax & Hin & Hg & Hle & Hnewest)
    end.
    { intros g' Hin. apply Hall. by apply list_elem_of_further. }
    rewrite (bind_returns _ _ _ _ _ Hmax) in Hrun. cbn [os] in Hg, Hnewest.
    unfold pd_read_csv in Hrun. report_step Hrun.
    pose proof Hg as Hg'. unfold mtime_at in Hg'.
    destruct (fs_lookup g (root (os st))) as [[i d t|t ch]|] eqn:Hf;
      [|report_step Hrun; report_failed|done].
    injection Hg' as ->.
    destruct (read_csv w d) as [e|df] eqn:Hdf; report_step Hrun; [report_failed|].
    apply (Hsend g i d tg df); [|done|done|done].
    right. split; [done|]. rewrite Hdated. split; [done|].
    exists tg. split; [unfold mtime_at; by rewrite Hf|].
    intros g' [->|Hin']%elem_of_cons; [exists tf; split; [done|lia]|by apply Hnewest].
Qed.

Lemma not_send_email evs df test_mode :
  Forall (λ e, is_send_email e = false) evs → SendEmail df test_mode ∉ evs.
Proof. rewrite Forall_forall. intros Hall Hin. by specialize (Hall _ Hin). Qed.

Lemma filter_send_email_nil evs :
  Forall (λ e, is_send_email e = false) evs → List.filter is_send_email evs = [].
Proof. induction 1 as [|e evs He _ IH]; [done|]. cbn. by rewrite He. Qed.

(** X8: [send_email_report] never raises: whatever the imports, the files
    and the sender do, it returns a boolean. It leaves the machine as it
    was, starts no process, and sends at most one e-mail, never in test
    mode. *)
Theorem send_email_report_never_raises st :
  ∃ b evs,
    send_email_report w st = (Ret b, State (os st) (trace st ++ evs))
    ∧ Forall (λ e, is_spawn e = false) evs
    ∧ (List.length (List.filter is_send_email evs) ≤ 1)%nat
    ∧ ∀ df test_mode, SendEmail df test_mode ∈ evs → test_mode = false.
Proof.
  destruct (send_email_report_run st) as (b & evs & Hrun & Hspawn & Hcases).
  exists b, evs. split; [done|]. split; [done|].
  destruct Hcases as [[_ Hnone]|(f & i & d & t & df & pre & post & _ & _ & _ & -> & Hpre & Hpost & _)].
  - rewrite filter_send_email_nil by done. split; [cbn; lia|].
    intros df tm Hin. by apply not_send_email in Hin.
  - rewrite List.filter_app. cbn [List.filter is_send_email].
    rewrite !filter_send_email_nil by done. split; [cbn; lia|].
    intros df' tm [Hin|[Hin|Hin]%elem_of_cons]%elem_of_app.
    + by apply not_send_email in Hin.
    + by injection Hin.
    + by apply not_send_email in Hin.
Qed.

(** X9: What is e-mailed is the summary that was asked for: the frame sent
    is [pandas.read_csv] of [results/sentiment_summary_latest.csv] when that
    exists, and otherwise of a dated summary
    ([sentiment_summary_<date>.csv]) with the most recent modification time
    of them all. *)
Theorem send_email_report_sends_newest_summary st :
  ∃ evs,
    trace (send_email_report w st).2 = trace st ++ evs
    ∧ ∀ df test_mode,
        SendEmail df test_mode ∈ evs →
        ∃ f i d t,
          summary_source w (os st) f
          ∧ fs_lookup f (root (os st)) = Some (File i d t)
          ∧ read_csv w d = inr df.
Proof.
  destruct (send_email_report_run st) as (b & evs & Hrun & Hspawn & Hcases).
  exists evs. rewrite Hrun. cbn [snd trace]. split; [done|]. intros df test_mode Hin.
  destruct Hcases as [[_ Hnone]|(f & i & d & t & df' & pre & post & Hsrc & Hf & Hdf & -> & Hpre & Hpost & _)].
  - by apply not_send_email in Hin.
  - apply elem_of_app in Hin as [Hin|[Hin|Hin]%elem_of_cons].
    + by apply not_send_email in Hin.
    + injection Hin as -> _. by exists f, i, d, t.
    + by apply not_send_email in Hin.
Qed.

(** X10: With no summary at all, neither the latest nor a dated one, nothing
    is sent and the result is [False]. *)
Theorem send_email_report_without_summary st :
  exists_in (os st) (latest_summary w) = false →
  dated_summaries w (os st) = [] →
  ∃ evs,
    send_email_report w st = (Ret false, State (os st) (trace st ++ evs))
    ∧ Forall (λ e, is_send_email e = false) evs.
Proof.
  intros Hlatest Hdated.
  destruct (send_email_report_run st) as (b & evs & Hrun & Hspawn & Hcases).
  destruct Hcases as [[-> Hnone]|(f & i & d & t & df & pre & post & Hsrc & _)].
  - by exists evs.
  - destruct Hsrc as [[Hex _]|(_ & Hin & _)]; [congruence|].
    rewrite Hdated in Hin. by apply elem_of_nil in Hin.
Qed.

(** X11: The result of [send_email] is not looked at: [send_email_report]
    returns [True] exactly when it called [send_email] and the call
    returned, also when the call returned [False]. *)
Theorem send_email_report_ignores_send_result st :
  ∃ evs,
    trace (send_email_report w st).2 = trace st ++ evs
    ∧ ((send_email_report w st).1 = Ret true
       ↔ ∃ df success, SendEmail df false ∈ evs ∧ send_email w df false = inr success).
Proof.
  destruct (send_email_report_run st) as (b & evs & Hrun & Hspawn & Hcases).
  exists evs. rewrite Hrun. cbn [fst snd trace]. split; [done|].
  destruct Hcases as [[-> Hnone]|(f & i & d & t & df & pre & post & _ & _ & _ & -> & Hpre & Hpost & ->)].
  - split; [done|]. intros (df & success & Hin & _). by apply not_send_email in Hin.
  - split.
    + intros Hret. destruct (send_email w df false) as [e|success] eqn:Hsent; [done|].
      exists df, success. split; [|done].
      apply elem_of_app. right. apply list_elem_of_here.
    + intros (df' & success & Hin & Hsent).
      apply elem_of_app in Hin as [Hin|[Hin|Hin]%elem_of_cons].
      * by apply not_send_email in Hin.
      * injection Hin as ->. by rewrite Hsent.
      * by apply not_send_email in Hin.
Qed.

End SendEmailReport.

(** ** [cleanup_old_logs], file by file *)

Lemma for_each_app {A} (l1 l2 : list A) body st :
  for_each (l1 ++ l2) body st =
  match for_each l1 body st with
  | (Ret _, st1) => for_each l2 body st1
  | (Raise e, st1) => (Raise e, st1)
  end.
Proof.
  revert st. induction l1 as [|x l1 IH]; intros st; [done|].
  cbn [app]. rewrite !for_each_cons. destruct (body x st) as [[[]|e] st1]; [apply IH|done].
Qed.

Section CleanupRuns.

Variable w : World.

#[local] Abbreviation logs := (logs_dir w).

(** One pass through the loop body. *)
Lemma cleanup_log_file_run cutoff x st :
  cleanup_log_file cutoff (logs ++ [x]) st =
  match fs_lookup (logs ++ [x]) (root (os st)) with
  | Some (File _ _ t) =>
      if t <? cutoff
      then (Ret tt, State (set_root (fs_alter (λ _, None) (logs ++ [x]) (root (os st))) (os st))
                          (trace st ++ [deleted_log x]))
      else (Ret tt, st)
  | Some (Dir t _) =>
      if t <? cutoff
      then (Raise (PyException "IsADirectoryError" (path_str (logs ++ [x]))), st)
      else (Ret tt, st)
  | None => (Raise (PyException "FileNotFoundError" (path_str (logs ++ [x]))), st)
  end.
Proof.
  unfold cleanup_log_file, stat_st_mtime, unlink, logger_info, emit, put_machine,
    get_machine, bind, ret, raise, deleted_log, basename.
  rewrite List.last_last.
  destruct (fs_lookup (logs ++ [x]) (root (os st))) as [[i d t|t ch]|] eqn:Hlook;
    cbv beta iota zeta; [| |done].
  - destruct (t <? cutoff); [|done]. by rewrite Hlook.
  - destruct (t <? cutoff); [|done]. by rewrite Hlook.
Qed.

(** The loop over the log files: it logs one record for each file it
    deletes; the deleted files were old ones and are gone; every other entry
    of the log directory, and every other file, is as it was. *)
Lemma cleanup_loop_run cutoff names :
  NoDup names →
  ∀ st, ∃ deleted,
    let out := for_each ((λ x, logs ++ [x]) <$> names) (cleanup_log_file cutoff) st in
    trace out.2 = trace st ++ (deleted_log <$> deleted)
    ∧ (∀ x, x ∈ deleted →
         x ∈ names
         ∧ (∃ i d t, fs_lookup (logs ++ [x]) (root (os st)) = Some (File i d t) ∧ t < cutoff)
         ∧ fs_lookup (logs ++ [x]) (root (os out.2)) = None)
    ∧ (∀ y q, y ∉ deleted →
         fs_lookup (logs ++ y :: q) (root (os out.2)) = fs_lookup (logs ++ y :: q) (root (os st)))
    ∧ (∀ p i d t, fs_lookup p (root (os st)) = Some (File i d t) →
         (∀ x, x ∈ deleted → p ≠ logs ++ [x]) →
         fs_lookup p (root (os out.2)) = Some (File i d t)).
Proof.
  induction 1 as [|x names Hx Hnodup IH]; intros st.
  - exists []. cbn [fmap list_fmap fst snd]. rewrite app_nil_r.
        split; [done|]. split; [by intros y ?%elem_of_nil|]. by split.
  - cbv zeta. cbn [fmap list_fmap]. rewrite for_each_cons, cleanup_log_file_run.
    destruct (fs_lookup (logs ++ [x]) (root (os st))) as [[i d t|t ch]|] eqn:Hlook.
    + destruct (t <? cutoff) eqn:Hold.
      * (* an old file: deleted *)
        match goal with |- context [for_each _ _ ?s] =>
          destruct (IH s) as (deleted & Htr & Hdel & Hframe & Hfiles); set (st1 := s) in *
        end.
        cbv zeta in Htr, Hdel, Hframe, Hfiles.
        assert (Hstep : ∀ y q, y ≠ x →
                  fs_lookup (logs ++ y :: q) (root (os st1))
                  = fs_lookup (logs ++ y :: q) (root (os st))).
        { intros y q Hy. subst st1. cbn [os root set_root].
          by apply fs_lookup_alter_sibling. }
        assert (Hxdel : x ∉ deleted).
        { intros Hin. apply Hdel in Hin as [Hin _]. done. }
        exists (x :: deleted). rewrite Htr. subst st1. cbn [trace fmap list_fmap].
        rewrite <- app_assoc. split; [done|]. split; [|split].
        -- intros y [->|Hy]%elem_of_cons.
           ++ split; [apply list_elem_of_here|]. split.
              ** exists i, d, t. split; [done|]. by apply Z.ltb_lt.
              ** rewrite (Hframe x [] Hxdel). cbn [os root set_root].
                 apply fs_lookup_deleted. unfold logs_dir. by destruct (script_dir w).
           ++ destruct (Hdel y Hy) as (Hin & (i' & d' & t' & Hy' & Hold') & Hgone).
              split; [by apply list_elem_of_further|]. split; [|done].
              exists i', d', t'. split; [|done]. rewrite <- Hstep; [done|].
              intros ->. done.
        -- intros y q Hy. apply not_elem_of_cons in Hy as [Hyx Hy].
           rewrite (Hframe y q Hy). by apply Hstep.
        -- intros p i' d' t' Hp Hne. apply Hfiles.
           ++ cbn [os root set_root]. apply fs_lookup_alter_other_file; [|done|].
              ** unfold is_file. by rewrite Hlook.
              ** apply Hne. apply list_elem_of_here.
           ++ intros y Hy. apply Hne. by apply list_elem_of_further.
      * (* a recent file: kept *)
        destruct (IH st) as (deleted & Htr & Hdel & Hframe & Hfiles).
        cbv zeta in Htr, Hdel, Hframe, Hfiles.
        exists deleted. split; [done|]. split; [|done].
        intros y Hy. destruct (Hdel y Hy) as (Hin & Hwas & Hgone).
        split; [by apply list_elem_of_further|done].
    + destruct (t <? cutoff) eqn:Hold.
      * exists []. cbn [fmap list_fmap fst snd]. rewrite app_nil_r.
        split; [done|]. split; [by intros y ?%elem_of_nil|]. by split.
      * destruct (IH st) as (deleted & Htr & Hdel & Hframe & Hfiles).
        cbv zeta in Htr, Hdel, Hframe, Hfiles.
        exists deleted. split; [done|]. split; [|done].
        intros y Hy. destruct (Hdel y Hy) as (Hin & Hwas & Hgone).
        split; [by apply list_elem_of_further|done].
    + exists []. cbn [fmap list_fmap fst snd]. rewrite app_nil_r.
        split; [done|]. split; [by intros y ?%elem_of_nil|]. by split.
Qed.

(** The function, as its loop. *)
Lemma cleanup_old_logs_eq st :
  cleanup_old_logs w st =
  let st0 := State (os st) (trace st ++ [Enter "cleanup_old_logs"]) in
  if exists_in (os st) logs
  then match for_each ((λ x, logs ++ [x]) <$> glob_names "*.log" logs (root (os st)))
               (cleanup_log_file (clock (os st) - 30 * 24 * 60 * 60)) st0 with
       | (Ret _, st1) => (Ret tt, st1)
       | (Raise e, st1) =>
           (Ret tt, State (os st1)
                      (trace st1 ++ [Log WARNING ("⚠️ Log cleanup warning: " +:+ exn_str e)]))
       end
  else (Ret tt, st0).
Proof.
  unfold cleanup_old_logs, enter. rewrite bind_emit. unfold try_except. cbv zeta.
  rewrite bind_path_exists. cbn [os]. fold logs.
  destruct (exists_in (os st) logs); cbn [negb]; [|reflexivity].
  rewrite bind_time_time, bind_get_machine. cbn [os]. unfold glob.
  destruct (for_each _ _ _) as [[[]|e] st1]; [reflexivity|].
  reflexivity.
Qed.

(** X2: Without a log directory (there is nothing at [logs], or a file)
    housekeeping does nothing: the machine is as it was and nothing is
    logged. *)
Theorem cleanup_old_logs_without_log_dir st :
  is_dir logs (root (os st)) = false →
  cleanup_old_logs w st = (Ret tt, State (os st) (trace st ++ [Enter "cleanup_old_logs"])).
Proof.
  intros Hdir. rewrite cleanup_old_logs_eq. cbv zeta.
  unfold exists_in, glob_names. unfold is_dir in Hdir.
  by destruct (fs_lookup logs (root (os st))) as [[i d t|t ch]|].
Qed.

(** X1: The loop runs inside one [try]: at an old entry named [*.log] that
    is a directory [unlink] raises, and the loop is over. Housekeeping still
    returns, its last record is a warning, and the directory and every entry
    listed after it are as they were: old log files among them are not
    deleted. *)
Theorem cleanup_old_logs_stops_at_old_directory st pre x post t ch :
  glob_names "*.log" logs (root (os st)) = pre ++ x :: post →
  fs_lookup (logs ++ [x]) (root (os st)) = Some (Dir t ch) →
  t < clock (os st) - 30 * 24 * 60 * 60 →
  ∃ st' msg,
    cleanup_old_logs w st = (Ret tt, st')
    ∧ last (trace st') = Some (Log WARNING msg)
    ∧ ∀ y q, y ∈ x :: post →
        fs_lookup (logs ++ y :: q) (root (os st')) = fs_lookup (logs ++ y :: q) (root (os st)).
Proof.
  intros Hglob Hx Hold.
  pose proof (NoDup_glob_names "*.log" logs (root (os st))) as Hnodup.
  rewrite Hglob in Hnodup. apply NoDup_app in Hnodup as (Hpre & Hdisj & Hrest).
  assert (Hexists : exists_in (os st) logs = true).
  { assert (Hin : x ∈ glob_names "*.log" logs (root (os st))).
    { rewrite Hglob. apply elem_of_app. right. apply list_elem_of_here. }
    apply elem_of_glob_names in Hin as (_ & Hdir & _).
    unfold is_dir in Hdir. unfold exists_in.
    by destruct (fs_lookup logs (root (os st))). }
  rewrite cleanup_old_logs_eq. cbv zeta. rewrite Hexists, Hglob, fmap_app, for_each_app.
  match goal with |- context [for_each (_ <$> pre) ?b ?s] =>
    destruct (cleanup_loop_run (clock (os st) - 30 * 24 * 60 * 60) pre Hpre s)
      as (deleted & Htr & Hdel & Hframe & _);
    cbv zeta in Htr, Hdel, Hframe;
    destruct (for_each ((λ x, logs ++ [x]) <$> pre) b s) as [[[]|e] st1]
  end; cbn [fst snd os trace] in *.
  all: assert (Hafter : ∀ y q, y ∈ x :: post →
         fs_lookup (logs ++ y :: q) (root (os st1)) = fs_lookup (logs ++ y :: q) (root (os st)));
    [intros y q Hy; apply Hframe; intros Hin; apply Hdel in Hin as [Hin _];
     by apply (Hdisj y)|].
  - cbn [fmap list_fmap]. rewrite for_each_cons, cleanup_log_file_run.
    rewrite (Hafter x []) by apply list_elem_of_here. rewrite Hx.
    replace (t <? clock (os st) - 30 * 24 * 60 * 60) with true
      by (symmetry; by apply Z.ltb_lt).
    eexists _, _. split; [reflexivity|]. cbn [os trace]. split; [apply last_snoc|done].
  - eexists _, _. split; [reflexivity|]. cbn [os trace]. split; [apply last_snoc|done].
Qed.

Lemma deleted_log_inj x y : deleted_log x = deleted_log y → x = y.
Proof. unfold deleted_log. intros H. by simplify_eq/=. Qed.

(** X3: Every deletion is logged, and every record of a deletion is true: a
    file that is not there any more after housekeeping was an entry of the
    log directory, and a record ["Deleted old log: x"] was logged for it;
    and for every such record, [x] was a file of the log directory older
    than thirty days, and it is gone. *)
Theorem cleanup_old_logs_logs_each_deletion st :
  let st' := (cleanup_old_logs w st).2 in
  ∃ evs,
    trace st' = trace st ++ evs
    ∧ (∀ p i d t,
         fs_lookup p (root (os st)) = Some (File i d t) →
         fs_lookup p (root (os st')) ≠ Some (File i d t) →
         ∃ x, p = logs ++ [x] ∧ deleted_log x ∈ evs)
    ∧ (∀ x, deleted_log x ∈ evs →
         (∃ i d t, fs_lookup (logs ++ [x]) (root (os st)) = Some (File i d t)
                   ∧ t < clock (os st) - 30 * 24 * 60 * 60)
         ∧ fs_lookup (logs ++ [x]) (root (os st')) = None).
Proof.
  cbv zeta. rewrite cleanup_old_logs_eq. cbv zeta.
  destruct (exists_in (os st) logs).
  2:{ exists [Enter "cleanup_old_logs"]. cbn [snd os trace]. split; [done|]. split.
      - intros p i d t Hp Hne. done.
      - intros x [Hin|Hin%elem_of_nil]%elem_of_cons; done. }
  match goal with |- context [for_each (?f <$> ?names) ?b ?s] =>
    destruct (cleanup_loop_run (clock (os st) - 30 * 24 * 60 * 60) names
                (NoDup_glob_names _ _ _) s) as (deleted & Htr & Hdel & _ & Hfiles);
    cbv zeta in Htr, Hdel, Hfiles;
    destruct (for_each (f <$> names) b s) as [[[]|e] st1]
  end; cbn [fst snd os trace] in *.
  all: assert (Hlogged : ∀ p i d t,
         fs_lookup p (root (os st)) = Some (File i d t) →
         fs_lookup p (root (os st1)) ≠ Some (File i d t) →
         ∃ x, p = logs ++ [x] ∧ x ∈ deleted);
    [intros p i d t Hp Hne;
     destruct (decide (p ∈ (λ x, logs ++ [x]) <$> deleted)) as [Hin|Hnin];
     [apply list_elem_of_fmap in Hin as (x & -> & Hin); by exists x|];
     exfalso; apply Hne; apply Hfiles; [done|];
     intros x Hin ->; apply Hnin; apply list_elem_of_fmap; by exists x|].
  - exists (Enter "cleanup_old_logs" :: (deleted_log <$> deleted)).
    rewrite Htr, <- app_assoc. split; [done|]. split.
    + intros p i d t Hp Hne. destruct (Hlogged p i d t Hp Hne) as (x & -> & Hin).
      exists x. split; [done|]. apply list_elem_of_further. apply list_elem_of_fmap. by exists x.
    + intros x [Hin|Hin]%elem_of_cons; [done|].
      apply list_elem_of_fmap in Hin as (y & Heq%deleted_log_inj & Hin). subst y.
      by destruct (Hdel x Hin) as (_ & Hwas & Hgone).
  - exists (Enter "cleanup_old_logs" :: (deleted_log <$> deleted)
            ++ [Log WARNING ("⚠️ Log cleanup warning: " +:+ exn_str e)]).
    rewrite Htr, <- !app_assoc. split; [done|]. split.
    + intros p i d t Hp Hne. destruct (Hlogged p i d t Hp Hne) as (x & -> & Hin).
      exists x. split; [done|]. apply list_elem_of_further, elem_of_app. left.
      apply list_elem_of_fmap. by exists x.
    + intros x [Hin|[Hin|Hin]%elem_of_app]%elem_of_cons; [done| |].
      * apply list_elem_of_fmap in Hin as (y & Heq%deleted_log_inj & Hin). subst y.
        by destruct (Hdel x Hin) as (_ & Hwas & Hgone).
      * by apply list_elem_of_singleton in Hin.
Qed.

End CleanupRuns.

(** ** [copy_to_docs]: result and contents *)

Section PublisherRuns.

Variable w : World.

#[local] Abbreviation docs := (docs_dir w).
#[local] Abbreviation results := (results_dir w).

(** The loop over the article pages ends normally exactly when every page
    is a file, and has then counted them all. *)
Lemma copy_articles_result st0 names :
  ∀ st entries k,
    publishing w st0 st entries →
    NoDup names →
    (∀ x, x ∈ names → entries !! x = None) →
    match (copy_articles docs ((λ x, results ++ [x]) <$> names) k st).1 with
    | Ret n => forallb (λ x, is_file (results ++ [x]) (root (os st0))) names = true
               ∧ n = k + Z.of_nat (List.length names)
    | Raise _ => forallb (λ x, is_file (results ++ [x]) (root (os st0))) names = false
    end.
Proof.
  induction names as [|x rest IH]; intros st entries k Hpub Hnodup Hfree.
  - cbn. split; [done|lia].
  - apply NoDup_cons in Hnodup as [Hx Hnodup].
    cbn [fmap list_fmap copy_articles forallb].
    unfold basename. rewrite last_last. unfold bind at 1.
    pose proof (copy2_publishing w st0 st entries x x Hpub) as Hcopy.
    unfold is_file at 1 3.
    destruct (fs_lookup (results ++ [x]) (root (os st0))) as [[i d t|t ch]|].
    + destruct Hcopy as (st1 & j & -> & Hpub1); [apply Hfree; left|].
      specialize (IH st1 (<[x := File j d t]> entries) (k + 1) Hpub1 Hnodup).
      cbn [andb].
      destruct (copy_articles _ _ _ st1).1 as [n|e].
      * destruct IH as [Hall ->].
        { intros y Hy. rewrite lookup_insert_ne; [apply Hfree; by right|]. intros ->. done. }
        split; [done|]. cbn [List.length]. lia.
      * apply IH. intros y Hy. rewrite lookup_insert_ne; [apply Hfree; by right|].
        intros ->. done.
    + destruct Hcopy as (e & ->); [apply Hfree; left|]. done.
    + destruct Hcopy as (e & ->); [apply Hfree; left|]. done.
Qed.

Lemma copy_articles_and_finish_result st0 st entries :
  publishing w st0 st entries →
  (∀ x, fnmatch "articles_*_latest.html" x = true → entries !! x = None) →
  ∃ r st' entries',
    (m ← get_machine;
     article_count ← copy_articles docs (glob "articles_*_latest.html" results (root m)) 0;
     logger_info ("✅ Copied " +:+ pretty article_count
                  +:+ " individual stock article pages (LATEST ONLY)");;
     logger_info "📊 Sentiment dashboard will be available at: https://theemeraldnetwork.github.io/Kalimera/";;
     ret true) st = (r, st')
    ∧ publishing w st0 st' entries'
    ∧ data_of entries'
      = copy_data (λ x, fs_lookup (results ++ [x]) (root (os st0)))
          (article_pages w (os st0)) (data_of entries)
    ∧ match r with
      | Ret b =>
          b = true
          ∧ forallb (λ x, is_file (results ++ [x]) (root (os st0))) (article_pages w (os st0))
            = true
      | Raise _ =>
          forallb (λ x, is_file (results ++ [x]) (root (os st0))) (article_pages w (os st0))
          = false
      end.
Proof.
  intros Hpub Hfree. unfold bind at 1, get_machine, glob, article_pages.
  rewrite (glob_names_ext _ _ (root (os st)) (root (os st0))).
  2:{ pose proof (pub_results _ _ _ _ Hpub []) as H. by rewrite app_nil_r in H. }
  assert (Hnames : ∀ x, x ∈ glob_names "articles_*_latest.html" results (root (os st0)) →
                        entries !! x = None).
  { intros x Hx. apply Hfree. by eapply glob_names_match. }
  destruct (copy_articles_publishing w st0
              (glob_names "articles_*_latest.html" results (root (os st0))) st entries 0 Hpub
              (NoDup_glob_names _ _ _) Hnames)
    as (r & st1 & entries' & Heq & Hpub1 & Hdata).
  pose proof (copy_articles_result st0 _ st entries 0 Hpub (NoDup_glob_names _ _ _) Hnames)
    as Hres.
  rewrite Heq in Hres. cbn [fst] in Hres.
  unfold bind at 1. rewrite Heq. destruct r as [n|e].
  - unfold logger_info. rewrite !bind_emit. unfold ret.
    eexists _, _, entries'. split; [reflexivity|]. split; [by do 2 apply publishing_emit|].
    split; [done|]. by destruct Hres.
  - by exists (Raise e), st1, entries'.
Qed.

(** The publisher, when the project directory is there and the publish path
    is not a file: its result, and what it leaves. *)
Lemma copy_to_docs_outcome st :
  is_dir (script_dir w) (root (os st)) = true →
  is_file docs (root (os st)) = false →
  ∃ st' entries,
    copy_to_docs w st
    = (Ret (negb (is_dir (results ++ ["sentiment_report_latest.html"]) (root (os st)))
            && forallb (λ x, is_file (results ++ [x]) (root (os st))) (article_pages w (os st))),
       st')
    ∧ publishing w st st' entries
    ∧ data_of entries = published w (os st).
Proof.
  intros Hdir Hfile. unfold copy_to_docs, enter. rewrite bind_emit.
  set (st_a := State (os st) (trace st ++ [Enter "copy_to_docs"])).
  destruct (clean_docs_dir_run w st_a Hdir Hfile) as (st1 & Hclean & Hpub1).
  unfold try_except, except_Exception. cbv zeta. fold docs results.
  unfold bind at 1. rewrite Hclean.
  destruct (copy_report_run w st_a st1 Hpub1) as (r & st2 & entries & Hrep & Hpub2 & Hcase).
  unfold bind at 1. rewrite Hrep.
  unfold published, published_from, is_dir at 1.
  change (root (os st)) with (root (os st_a)).
  change (article_pages w (os st)) with (article_pages w (os st_a)).
  fold (article_pages w (os st_a)).
  destruct (fs_lookup (results ++ ["sentiment_report_latest.html"]) (root (os st_a)))
    as [[i0 d t|t ch]|]; cbn [negb andb].
  - destruct Hcase as (-> & i & j & t' & ->).
    destruct (copy_articles_and_finish_result st_a st2 _ Hpub2)
      as (r & st3 & entries' & Heq & Hpub3 & Hdata & Hres).
    { intros x Hx. rewrite !lookup_insert_ne; [apply lookup_empty| |]; by intros <-. }
    rewrite Heq. rewrite !data_of_insert_file in Hdata.
    unfold data_of in Hdata at 2. rewrite omap_empty in Hdata.
    destruct r as [b|e].
    + destruct Hres as [-> ->].
      exists st3, entries'. split; [done|]. split; [by eapply publishing_start|done].
    + rewrite Hres. unfold logger_error. rewrite bind_emit. unfold ret.
      eexists _, entries'. split; [reflexivity|]. split; [|done].
      eapply publishing_start. by apply publishing_emit.
  - destruct Hcase as ((e & ->) & ->).
    unfold logger_error. rewrite bind_emit. unfold ret.
    eexists _, ∅. split; [reflexivity|]. split.
    + eapply publishing_start. by apply publishing_emit.
    + apply omap_empty.
  - destruct Hcase as (-> & ->).
    destruct (copy_articles_and_finish_result st_a st2 _ Hpub2)
      as (r & st3 & entries' & Heq & Hpub3 & Hdata & Hres).
    { intros x Hx. apply lookup_empty. }
    rewrite Heq. unfold data_of in Hdata at 2. rewrite omap_empty in Hdata.
    destruct r as [b|e].
    + destruct Hres as [-> ->].
      exists st3, entries'. split; [done|]. split; [by eapply publishing_start|done].
    + rewrite Hres. unfold logger_error. rewrite bind_emit. unfold ret.
      eexists _, entries'. split; [reflexivity|]. split; [|done].
      eapply publishing_start. by apply publishing_emit.
Qed.

Lemma copy_to_docs_returns st :
  ∃ st', copy_to_docs w st = (Ret (publishable w (os st)), st').
Proof.
  unfold publishable.
  destruct (is_dir (script_dir w) (root (os st))) eqn:Hdir.
  - destruct (is_file docs (root (os st))) eqn:Hfile.
    + destruct (copy_to_docs_noop w st) as (evs & ->); [by right|]. by eexists.
    + destruct (copy_to_docs_outcome st Hdir Hfile) as (st' & entries & -> & _).
      by eexists.
  - destruct (copy_to_docs_noop w st) as (evs & ->); [by left|]. by eexists.
Qed.

(** X12: [copy_to_docs] never raises, and its result says whether it went
    through: it returns [True] exactly when the project directory is a
    directory, the publish path is not a regular file, the report
    [sentiment_report_latest.html] is not a directory and every entry of the
    results directory named [articles_*_latest.html] is a file. *)
Theorem copy_to_docs_result st :
  ∃ st', copy_to_docs w st = (Ret (publishable w (os st)), st').
Proof. apply copy_to_docs_returns. Qed.

(** X13: When the project directory is missing, or the publish path is a
    regular file, [copy_to_docs] returns [False] and changes nothing on the
    machine. *)
Theorem copy_to_docs_blocked st :
  is_dir (script_dir w) (root (os st)) = false ∨ is_file docs (root (os st)) = true →
  ∃ st', copy_to_docs w st = (Ret false, st') ∧ os st' = os st.
Proof.
  intros Hcase. destruct (copy_to_docs_noop w st Hcase) as (evs & ->). by eexists.
Qed.

Lemma copy_data_files src names acc x :
  forallb (λ y, match src y with Some (File _ _ _) => true | _ => false end) names = true →
  copy_data src names acc !! x
  = if decide (x ∈ names) then src x ≫= file_data else acc !! x.
Proof.
  revert acc. induction names as [|y rest IH]; intros acc Hall; [done|].
  cbn [forallb copy_data] in *. apply andb_true_iff in Hall as [Hy Hall].
  destruct (src y) as [[i d t|t ch]|] eqn:Hsrc; [|done|done].
  rewrite (IH _ Hall). destruct (decide (x ∈ rest)) as [Hin|Hnin].
  - rewrite decide_True; [done|by right].
  - destruct (decide (x = y)) as [->|Hne].
    + rewrite decide_True by left. by rewrite lookup_insert_eq, Hsrc.
    + rewrite decide_False by (by intros [?|?]%elem_of_cons).
      by rewrite lookup_insert_ne.
Qed.

Lemma publishable_true m :
  publishable w m = true →
  is_dir (script_dir w) (root m) = true
  ∧ is_file docs (root m) = false
  ∧ is_dir (results ++ ["sentiment_report_latest.html"]) (root m) = false
  ∧ forallb (λ x, is_file (results ++ [x]) (root m)) (article_pages w m) = true.
Proof.
  unfold publishable. rewrite !andb_true_iff, !negb_true_iff. tauto.
Qed.

(** What a run that returned [True] left in the publish directory. *)
Lemma copy_to_docs_published st st' :
  copy_to_docs w st = (Ret true, st') →
  publishable w (os st) = true
  ∧ ∃ t entries,
      fs_lookup docs (root (os st')) = Some (Dir t entries)
      ∧ files_since (next_ino (os st)) entries
      ∧ data_of entries = published w (os st).
Proof.
  intros Hrun. destruct (copy_to_docs_returns st) as (st1 & Hres).
  rewrite Hrun in Hres. injection Hres as Hok <-. symmetry in Hok. split; [done|].
  apply publishable_true in Hok as (Hdir & Hfile & _).
  destruct (copy_to_docs_outcome st Hdir Hfile) as (st2 & entries & Hrun2 & Hpub & Hdata).
  rewrite Hrun in Hrun2. injection Hrun2 as _ <-.
  destruct (pub_docs _ _ _ _ Hpub) as [t Hdocs].
  exists t, entries. split; [done|]. split; [exact (pub_files _ _ _ _ Hpub)|done].
Qed.

Lemma data_at_entry t entries n0 x r :
  fs_lookup docs r = Some (Dir t entries) →
  files_since n0 entries →
  fs_lookup (docs ++ [x]) r = entries !! x
  ∧ data_at (docs ++ [x]) r = data_of entries !! x.
Proof.
  intros Hdocs Hfiles. unfold data_at, data_of.
  rewrite fs_lookup_app, Hdocs, lookup_omap. cbn [mbind option_bind fs_lookup].
  by destruct (entries !! x).
Qed.

(** X14: After a run that returned [True] the publish directory holds the
    latest data and nothing else: a copy of every article page
    [articles_*_latest.html] of the results directory under its own name,
    the report [sentiment_report_latest.html] under that name and as
    [index.html], each with the contents of its source; and no entry that is
    not one of these. Without a report there is no [index.html]. *)
Theorem copy_to_docs_publishes_latest st st' :
  copy_to_docs w st = (Ret true, st') →
  (∀ x, x ∈ article_pages w (os st) →
        is_file (results ++ [x]) (root (os st)) = true
        ∧ data_at (docs ++ [x]) (root (os st')) = data_at (results ++ [x]) (root (os st)))
  ∧ (∀ x, x ∈ ["index.html"; "sentiment_report_latest.html"] →
          data_at (docs ++ [x]) (root (os st'))
          = data_at (results ++ ["sentiment_report_latest.html"]) (root (os st)))
  ∧ (∀ x, is_Some (fs_lookup (docs ++ [x]) (root (os st'))) →
          is_file (docs ++ [x]) (root (os st')) = true
          ∧ (x ∈ article_pages w (os st)
             ∨ (x ∈ ["index.html"; "sentiment_report_latest.html"]
                ∧ is_file (results ++ ["sentiment_report_latest.html"]) (root (os st)) = true))).
Proof.
  intros Hrun.
  destruct (copy_to_docs_published st st' Hrun) as (Hok & t & entries & Hdocs & Hfiles & Hdata).
  apply publishable_true in Hok as (_ & _ & Hreport & Hpages).
  assert (Hsrc : forallb (λ y, match fs_lookup (results ++ [y]) (root (os st)) with
                               | Some (File _ _ _) => true
                               | _ => false
                               end) (article_pages w (os st)) = true) by exact Hpages.
  assert (Hnames : ∀ x, x ∈ ["index.html"; "sentiment_report_latest.html"] →
                        x ∉ article_pages w (os st)).
  { intros x Hx Hin. apply glob_names_match in Hin.
    apply elem_of_cons in Hx as [->|Hx]; [by vm_compute in Hin|].
    apply list_elem_of_singleton in Hx as ->. by vm_compute in Hin. }
  assert (Hat : ∀ x, data_at (docs ++ [x]) (root (os st')) = published w (os st) !! x).
  { intros x. rewrite <- Hdata. by eapply data_at_entry. }
  unfold published, published_from in Hat. fold (article_pages w (os st)) in Hat.
  unfold is_dir in Hreport. split; [|split].
  - intros x Hx. split.
    { rewrite forallb_forall in Hpages. apply Hpages. by apply list_elem_of_In. }
    rewrite Hat. unfold data_at.
    destruct (fs_lookup (results ++ ["sentiment_report_latest.html"]) (root (os st)))
      as [[i d t0|t0 ch]|]; [|done|];
      rewrite (copy_data_files _ _ _ _ Hsrc); by rewrite decide_True.
  - intros x Hx. rewrite Hat. unfold data_at.
    destruct (fs_lookup (results ++ ["sentiment_report_latest.html"]) (root (os st)))
      as [[i d t0|t0 ch]|]; [|done|];
      rewrite (copy_data_files _ _ _ _ Hsrc), decide_False by (by apply Hnames).
    + apply elem_of_cons in Hx as [->|Hx]; [done|].
      by apply list_elem_of_singleton in Hx as ->.
    + apply lookup_empty.
  - intros x [n Hn].
    destruct (data_at_entry t entries _ x _ Hdocs Hfiles) as [Hentry Hdat].
    rewrite Hentry in Hn. destruct (Hfiles x n Hn) as (i & d & t0 & -> & _).
    split; [unfold is_file; by rewrite Hentry, Hn|].
    assert (Hpub : published w (os st) !! x = Some d).
    { rewrite <- Hat, Hdat. unfold data_of. by rewrite lookup_omap, Hn. }
    unfold published, published_from in Hpub. fold (article_pages w (os st)) in Hpub.
    unfold is_file.
    destruct (fs_lookup (results ++ ["sentiment_report_latest.html"]) (root (os st)))
      as [[i' d' t'|t' ch]|]; [|done|].
    + apply copy_data_lookup in Hpub as [Hacc|Hin]; [right|by left].
      split; [|done].
      destruct (decide (x = "sentiment_report_latest.html")) as [->|Hne1];
        [by right; left|].
      rewrite lookup_insert_ne in Hacc by done.
      destruct (decide (x = "index.html")) as [->|Hne2]; [by left|].
      rewrite lookup_insert_ne in Hacc by done. by rewrite lookup_empty in Hacc.
    + apply copy_data_lookup in Hpub as [Hacc|Hin]; [|by left].
      by rewrite lookup_empty in Hacc.
Qed.

(** X15: The publish directory is emptied before anything is looked for:
    with no report and no article page in the results directory (an empty or
    a missing one, say), [copy_to_docs] returns [True] and leaves an empty
    publish directory, whatever was published before. *)
Theorem copy_to_docs_without_results st :
  is_dir (script_dir w) (root (os st)) = true →
  is_file docs (root (os st)) = false →
  fs_lookup (results ++ ["sentiment_report_latest.html"]) (root (os st)) = None →
  article_pages w (os st) = [] →
  ∃ st' t,
    copy_to_docs w st = (Ret true, st')
    ∧ fs_lookup docs (root (os st')) = Some (Dir t ∅).
Proof.
  intros Hdir Hfile Hreport Hpages.
  destruct (copy_to_docs_outcome st Hdir Hfile) as (st' & entries & Hrun & Hpub & Hdata).
  unfold is_dir at 1 in Hrun. rewrite Hreport, Hpages in Hrun. cbn in Hrun.
  unfold published, published_from in Hdata. fold (article_pages w (os st)) in Hdata.
  rewrite Hreport, Hpages in Hdata. cbn [copy_data] in Hdata.
  destruct (pub_docs _ _ _ _ Hpub) as [t Hdocs]. pose proof (pub_files _ _ _ _ Hpub) as Hfiles.
  assert (entries = ∅) as ->.
  { apply map_eq. intros x. rewrite lookup_empty.
    destruct (entries !! x) as [n|] eqn:Hn; [|done].
    destruct (Hfiles x n Hn) as (i & d & t0 & -> & _).
    assert (Hd : data_of entries !! x = Some d) by (unfold data_of; by rewrite lookup_omap, Hn).
    by rewrite Hdata, lookup_empty in Hd. }
  by exists st', t.
Qed.

End PublisherRuns.

(** ** [main]: the report step and housekeeping in a run *)

Ltac email_done :=
  subst; unfold raise, ret; cbv beta iota; rewrite ?bind_emit; cbv beta; cbn [os trace];
  rewrite ?bind_emit; cbv beta; cbn [os trace];
  unfold emit; cbn [os trace];
  eexists; split; [rewrite <- ?app_assoc; cbn [app]; reflexivity|];
  repeat first [apply Forall_nil_2 | apply Forall_cons_2]; cbn; auto.

Ltac run_main :=
  repeat (first [ rewrite bind_emit | rewrite bind_time_time | rewrite bind_path_exists
                | rewrite bind_ret | rewrite bind_bind
                | rewrite bind_run_command by lia ];
          cbv beta zeta; cbn [os trace]).

Section MainRunsOn.

Variable w : World.

(** The report step: it never raises, it leaves the machine as it was, and
    whatever happens in it, it starts by importing the e-mail sender. *)
Lemma email_report_step_trace st :
  ∃ evs,
    email_report_step w st
    = (Ret tt, State (os st) (trace st ++ Log INFO "📧 Sending email report..."
                                         :: Import "utils.email.report_sender" :: evs))
    ∧ Forall report_event evs.
Proof.
  remember (email_report_step w st) as out eqn:Hrun.
  unfold email_report_step, try_except, except_Exception, logger_info, logger_error,
    py_import, SentimentEmailSender, sender_send_email, pd_read_csv in Hrun.
  rewrite bind_emit in Hrun. cbv zeta in Hrun. report_step Hrun.
  destruct (import_module w "utils.email.report_sender") as [e1|]; report_step Hrun;
    [email_done|].
  destruct (import_module w "pandas") as [e2|]; report_step Hrun; [email_done|].
  destruct (exists_in (os st) (script_dir w ++ ["results"; "sentiment_summary_latest.csv"]));
    report_step Hrun; [|email_done].
  destruct (fs_lookup (script_dir w ++ ["results"; "sentiment_summary_latest.csv"])
              (root (os st))) as [[i d t|t ch]|]; report_step Hrun; [|email_done|email_done].
  destruct (read_csv w d) as [e|df]; report_step Hrun; [email_done|].
  destruct (new_sender w) as [e|]; report_step Hrun; [email_done|].
  destruct (send_email w df false) as [e|[|]]; report_step Hrun; email_done.
Qed.


Ltac child_step w r m H Hm :=
  match goal with
  | |- context [next_child w ?cmd ?s] =>
      let Hc := fresh "Hc" in
      destruct (next_child w cmd s) as [r m] eqn:Hc; cbn [fst snd];
      assert (Hm : children_keep_machine w → m = os s)
        by (let Hkeep := fresh in
            intros Hkeep; unfold next_child in Hc;
            specialize (Hkeep (List.length (spawned (trace s))) cmd (os s));
            rewrite Hc in Hkeep; exact Hkeep);
      cbn [os] in Hm;
      destruct (succeeded r) eqn:H; cbn [negb]; run_main
  end.

(** A run of [main], as far as the machine and the last steps go: it
    returns [False] from one of the guards, or it goes through the report
    step, which starts by importing the e-mail sender and leaves the machine
    alone, then through housekeeping, and returns [True] after the closing
    records. *)
Lemma main_outcome st :
  (∃ m evs,
     main w st = (Ret false, State m (trace st ++ evs))
     ∧ (children_keep_machine w → m = os st))
  ∨ (∃ s5 report st7 duration,
       (∃ evs, trace s5 = trace st ++ evs)
       ∧ email_report_step w s5
         = (Ret tt, State (os s5) (trace s5 ++ Log INFO "📧 Sending email report..."
                                              :: Import "utils.email.report_sender" :: report))
       ∧ cleanup_old_logs w
           (State (os s5)
              ((trace s5 ++ Log INFO "📧 Sending email report..."
                         :: Import "utils.email.report_sender" :: report)
               ++ [Log INFO "🧹 Cleaning up old log files..."]))
         = (Ret tt, st7)
       ∧ main w st = (Ret true, State (os st7) (trace st7 ++ epilogue duration))
       ∧ (children_keep_machine w → os s5 = os st)).
Proof.
  unfold main, setup_logging, enter, logger_info, logger_error, logger_warning.
  run_main.
  destruct (exists_in (os st) (os_getcwd w ++ ["sent_collect_data.py"])) eqn:Hsent;
    cbn [negb]; run_main.
  2:{ left. unfold ret. eexists _, _. split; [rewrite <- ?app_assoc; reflexivity|done]. }
  destruct (exists_in (os st) (os_getcwd w ++ ["viz_dashboard_generator.py"])) eqn:Hdash;
    cbn [negb]; run_main.
  2:{ left. unfold ret. eexists _, _. split; [rewrite <- ?app_assoc; reflexivity|done]. }
  child_step w r1 m1 Hr1 Hm1.
  2:{ left. unfold ret. eexists _, _. split; [rewrite <- ?app_assoc; reflexivity|done]. }
  child_step w r2 m2 Hr2 Hm2.
  2:{ left. unfold ret. eexists _, _. split; [rewrite <- ?app_assoc; reflexivity|].
      intros Hkeep. by rewrite Hm2, Hm1. }
  child_step w r3 m3 Hr3 Hm3.
  2:{ left. unfold ret. eexists _, _. split; [rewrite <- ?app_assoc; reflexivity|].
      intros Hkeep. by rewrite Hm3, Hm2, Hm1. }
  child_step w r4 m4 Hr4 Hm4; child_step w r5 m5 Hr5 Hm5.
  all: right;
    match goal with |- context [bind (email_report_step w) ?k ?s] =>
      destruct (email_report_step_trace s) as (report & Hstep & Hreport);
      rewrite (bind_returns _ k s _ _ Hstep); exists s, report
    end; run_main;
    match goal with |- context [bind (cleanup_old_logs w) ?k ?s] =>
      destruct (cleanup_old_logs w s) as [[[]|e] st7] eqn:Hclean;
      [|pose proof (no_raise_cleanup_old_logs w s) as [a Ha]; rewrite Hclean in Ha; done];
      rewrite (bind_returns _ k s _ _ Hclean)
    end; run_main; unfold ret;
    exists st7; eexists;
    (split; [eexists; cbn [trace]; rewrite <- ?app_assoc; reflexivity|]);
    (split; [exact Hstep|]);
    (split; [first [reflexivity | exact Hclean]|]);
    (split; [unfold epilogue; rewrite <- ?app_assoc; cbn [app]; reflexivity|]);
    intros Hkeep; cbn [os]; by rewrite Hm5, Hm4, Hm3, Hm2, Hm1.
Qed.

Lemma spawned_none evs : Forall (λ e, is_spawn e = false) evs → spawned evs = [].
Proof. induction 1 as [|e evs He _ IH]; [done|]. cbn. by rewrite He. Qed.

Lemma spawned_run_events command description max_retries r :
  spawned (run_events w command description max_retries r) = [runner_spawn w command r].
Proof.
  unfold run_events. rewrite spawned_app, (spawned_none (failure_log _ _)).
  - done.
  - apply failure_log_no_spawn.
Qed.

Lemma spawned_report report : Forall report_event report → spawned report = [].
Proof.
  intros Hall. apply spawned_none. eapply Forall_impl; [exact Hall|].
  apply report_event_no_spawn.
Qed.

Lemma spawned_cleanup cleanup : Forall cleanup_event cleanup → spawned cleanup = [].
Proof.
  intros Hall. apply spawned_none. eapply Forall_impl; [exact Hall|].
  apply cleanup_event_no_spawn.
Qed.

Lemma spawned_main_run st b m evs :
  main_run w st b m evs →
  ∃ timestamp results,
    spawned evs
    = zip_with (runner_spawn w)
        [collect_cmd w st; generate_cmd w st; add_cmd; commit_cmd timestamp; push_cmd] results
    ∧ (List.length results ≤ 5)%nat
    ∧ (b = true ↔ List.length results = 5%nat).
Proof.
  destruct 1; unfold collect_events, generate_events, add_events, commit_events, push_events.
  all: rewrite ?spawned_app, ?spawned_run_events, ?spawned_report, ?spawned_cleanup by done.
  all: repeat match goal with
              | |- context [spawned (if ?c then _ else _)] => destruct c
              end.
  all: cbn [spawned List.filter is_spawn prelude epilogue app].
  - exists "", []. cbn. split; [done|]. split; [lia|]. split; [done|lia].
  - exists "", []. cbn. split; [done|]. split; [lia|]. split; [done|lia].
  - exists "", [r1]. cbn. split; [done|]. split; [lia|]. split; [done|lia].
  - exists "", [r1; r2]. cbn. split; [done|]. split; [lia|]. split; [done|lia].
  - exists "", [r1; r2; r3]. cbn. split; [done|]. split; [lia|]. split; [done|lia].
  - exists timestamp, [r1; r2; r3; r4; r5].
    rewrite spawned_report, spawned_cleanup by done. cbn. split; [done|]. split; [lia|]. done.
  - exists timestamp, [r1; r2; r3; r4; r5].
    rewrite spawned_report, spawned_cleanup by done. cbn. split; [done|]. split; [lia|]. done.
  - exists timestamp, [r1; r2; r3; r4; r5].
    rewrite spawned_report, spawned_cleanup by done. cbn. split; [done|]. split; [lia|]. done.
  - exists timestamp, [r1; r2; r3; r4; r5].
    rewrite spawned_report, spawned_cleanup by done. cbn. split; [done|]. split; [lia|]. done.
Qed.

(** X16: The child processes of a run of [main] are started in a fixed
    order: Collect, Generate, [git add index.html], [git commit], [git
    push]. A run stops short of the later ones when a guard fails, and it
    returns [True] exactly when it started all five. *)
Theorem main_children_in_order st :
  ∃ evs timestamp,
    trace (main w st).2 = trace st ++ evs
    ∧ spawn_cmd <$> spawned evs
      `prefix_of` [collect_cmd w st; generate_cmd w st; add_cmd; commit_cmd timestamp; push_cmd]
    ∧ ((main w st).1 = Ret true ↔ List.length (spawned evs) = 5%nat).
Proof.
  destruct (main_runs w st) as (b & m & evs & Hrun & Hmain).
  destruct (spawned_main_run st b m evs Hmain) as (timestamp & results & Hsp & Hlen & Hb).
  exists evs, timestamp. rewrite Hrun. cbn [fst snd trace]. split; [done|].
  rewrite Hsp. split.
  - destruct results as [|r1 [|r2 [|r3 [|r4 [|r5 [|r6 rest]]]]]]; cbn in *; try lia;
      by eexists.
  - rewrite length_zip_with. cbn [List.length]. split.
    + intros [= ->]. destruct Hb as [Hb _]. rewrite Hb by done. lia.
    + intros Hlen'. f_equal. apply Hb. lia.
Qed.

(** The report step, when the summary is there and the collaborators work
    up to the call of [send_email]: the e-mail is sent, not in test mode. *)
Lemma email_report_step_sends st i d t df :
  import_module w "utils.email.report_sender" = None →
  import_module w "pandas" = None →
  fs_lookup (script_dir w ++ ["results"; "sentiment_summary_latest.csv"]) (root (os st))
  = Some (File i d t) →
  read_csv w d = inr df →
  new_sender w = None →
  ∃ rest,
    email_report_step w st
    = (Ret tt, State (os st) (trace st ++ Log INFO "📧 Sending email report..."
                                         :: Import "utils.email.report_sender"
                                         :: Import "pandas"
                                         :: Log INFO ("📊 Loaded sentiment data for "
                                                      +:+ pretty (List.length df) +:+ " stocks")
                                         :: SendEmail df false :: rest)).
Proof.
  intros Himp1 Himp2 Hfile Hdf Hsender.
  remember (email_report_step w st) as out eqn:Hrun.
  unfold email_report_step, try_except, except_Exception, logger_info, logger_error,
    py_import, SentimentEmailSender, sender_send_email, pd_read_csv in Hrun.
  rewrite bind_emit in Hrun. cbv zeta in Hrun. report_step Hrun.
  rewrite Himp1 in Hrun. report_step Hrun. rewrite Himp2 in Hrun. report_step Hrun.
  unfold exists_in in Hrun. rewrite Hfile in Hrun. report_step Hrun.
  rewrite ?Hfile in Hrun. report_step Hrun.
  rewrite Hdf in Hrun. report_step Hrun. rewrite Hsender in Hrun. report_step Hrun.
  destruct (send_email w df false) as [e|[|]]; report_step Hrun;
    subst; unfold raise, ret; cbv beta iota; rewrite ?bind_emit; cbv beta; cbn [os trace];
    rewrite ?bind_emit; cbv beta; cbn [os trace]; unfold emit; cbn [os trace];
    eexists; rewrite <- ?app_assoc; cbn [app]; reflexivity.
Qed.

(** X17: The closing records of [main] say that the e-mail report is
    disabled. Yet every run that returns [True] has gone through the report
    step: it imported the e-mail sender before it logged that. *)
Theorem main_reports_though_disabled st :
  (main w st).1 = Ret true →
  ∃ before after,
    trace (main w st).2
    = trace st ++ before ++ Import "utils.email.report_sender" :: after
    ∧ Log INFO "📧 Email Report: Disabled as requested" ∈ after.
Proof.
  intros Htrue.
  destruct (main_outcome st) as [(m & evs & Hrun & _)|
    (s5 & report & st7 & duration & [evs5 Hevs5] & _ & Hclean & Hrun & _)];
    [by rewrite Hrun in Htrue|].
  destruct (cleanup_old_logs_run w
              (State (os s5)
                 ((trace s5 ++ Log INFO "📧 Sending email report..."
                            :: Import "utils.email.report_sender" :: report)
                  ++ [Log INFO "🧹 Cleaning up old log files..."])))
    as (m7 & cleanup & Hclean' & _).
  rewrite Hclean in Hclean'. injection Hclean' as ->. rewrite Hrun. cbn [snd trace].
  exists (evs5 ++ [Log INFO "📧 Sending email report..."]),
    (report ++ [Log INFO "🧹 Cleaning up old log files..."]
     ++ Enter "cleanup_old_logs" :: cleanup ++ epilogue duration).
  split.
  - rewrite Hevs5, <- !app_assoc. cbn [app]. rewrite <- ?app_assoc. reflexivity.
  - apply elem_of_app; right. apply elem_of_app; right. apply list_elem_of_further.
    apply elem_of_app; right. unfold epilogue.
    do 5 apply list_elem_of_further. apply list_elem_of_here.
Qed.

(** X18: And the report is not disabled: when no child changes the machine,
    the summary [results/sentiment_summary_latest.csv] is a file that
    [pandas.read_csv] reads, and the sender can be imported and created, a
    run that returns [True] has called [send_email] on the summary with
    [test_mode=False]. *)
Theorem main_sends_real_email st i d t df :
  children_keep_machine w →
  (main w st).1 = Ret true →
  import_module w "utils.email.report_sender" = None →
  import_module w "pandas" = None →
  fs_lookup (script_dir w ++ ["results"; "sentiment_summary_latest.csv"]) (root (os st))
  = Some (File i d t) →
  read_csv w d = inr df →
  new_sender w = None →
  SendEmail df false ∈ trace (main w st).2
  ∧ Log INFO "📧 Email Report: Disabled as requested" ∈ trace (main w st).2.
Proof.
  intros Hkeep Htrue Himp1 Himp2 Hfile Hdf Hsender.
  destruct (main_outcome st) as [(m & evs & Hrun & _)|
    (s5 & report & st7 & duration & [evs5 Hevs5] & Hstep & Hclean & Hrun & Hos)];
    [by rewrite Hrun in Htrue|].
  specialize (Hos Hkeep).
  destruct (email_report_step_sends s5 i d t df Himp1 Himp2) as (rest & Hsent); try done.
  { by rewrite Hos. }
  rewrite Hstep in Hsent. injection Hsent as Hreport%app_inv_head.
  injection Hreport as ->.
  destruct (cleanup_old_logs_run w
              (State (os s5)
                 ((trace s5 ++ Log INFO "📧 Sending email report..."
                            :: Import "utils.email.report_sender"
                            :: Import "pandas"
                            :: Log INFO ("📊 Loaded sentiment data for "
                                         +:+ pretty (List.length df) +:+ " stocks")
                            :: SendEmail df false :: rest)
                  ++ [Log INFO "🧹 Cleaning up old log files..."])))
    as (m7 & cleanup & Hclean' & _).
  rewrite Hclean in Hclean'. injection Hclean' as ->. rewrite Hrun. cbn [snd trace]. split.
  - rewrite !elem_of_app. left. left. left. right.
    do 4 apply list_elem_of_further. apply list_elem_of_here.
  - rewrite !elem_of_app. right. unfold epilogue.
    do 5 apply list_elem_of_further. apply list_elem_of_here.
Qed.


End MainRunsOn.

(** ** The tests on paths and files *)

Lemma prefix_append s t : String.prefix s (s +:+ t) = true.
Proof.
  induction s as [|c s IH]; [destruct t; reflexivity|].
  change (String c s +:+ t) with (String c (s +:+ t)). cbn [prefix].
  by destruct (ascii_dec c c).
Qed.

Lemma prefix_append_same a s t : String.prefix (a +:+ s) (a +:+ t) = String.prefix s t.
Proof.
  induction a as [|c a IH]; [done|].
  change (String c a +:+ s) with (String c (a +:+ s)).
  change (String c a +:+ t) with (String c (a +:+ t)). cbn [prefix].
  by destruct (ascii_dec c c).
Qed.

Lemma prefix_concat_snoc sep d x :
  String.prefix (String.concat sep d) (String.concat sep (d ++ [x])) = true.
Proof.
  induction d as [|a [|b d] IH]; cbn [app String.concat] in *.
  - destruct x; reflexivity.
  - apply prefix_append.
  - by rewrite prefix_append_same, prefix_append_same.
Qed.

Lemma prefix_path_str d x : String.prefix (path_str d) (path_str (d ++ [x])) = true.
Proof. unfold path_str. rewrite prefix_append_same. apply prefix_concat_snoc. Qed.

(** X20: [test_directory_scope_compliance] checks one thing: the name of the
    directory of the test module. Its two [startswith] assertions hold for
    every directory, so the test passes exactly when that name is
    [automated_sentiment_daily_analysis]; and it touches nothing. *)
Theorem test_directory_scope_compliance_checks_name_only current_dir st :
  test_directory_scope_compliance current_dir st
  = (if String.eqb (basename current_dir) "automated_sentiment_daily_analysis"
     then Ret tt
     else Raise (PyException "AssertionError" ""),
     st).
Proof.
  unfold test_directory_scope_compliance, py_assert. cbv zeta.
  rewrite !prefix_path_str.
  by destruct (String.eqb (basename current_dir) "automated_sentiment_daily_analysis").
Qed.

Section SummaryTest.

Variables (current_dir : path) (csv : string).

#[local] Abbreviation results_path := (current_dir ++ ["results"]).
#[local] Abbreviation test_file := ((current_dir ++ ["results"]) ++ ["sentiment_summary_latest.csv"]).

(** Writing the summary, checking it and removing it, in a results
    directory that is there. *)
Lemma write_check_unlink m tr t ch :
  fs_lookup results_path (root m) = Some (Dir t ch) →
  match ch !! "sentiment_summary_latest.csv" with
  | Some (Dir _ _) =>
      ∃ e, (write_text test_file csv;;
            test_exists ← path_exists test_file;
            py_assert test_exists;;
            py_assert (bool_decide (parent test_file = results_path));;
            unlink test_file) (State m tr) = (Raise e, State m tr)
  | _ =>
      ∃ m', (write_text test_file csv;;
             test_exists ← path_exists test_file;
             py_assert test_exists;;
             py_assert (bool_decide (parent test_file = results_path));;
             unlink test_file) (State m tr) = (Ret tt, State m' tr)
            ∧ fs_lookup test_file (root m') = None
  end.
Proof.
  intros Hres.
  assert (Hfile : fs_lookup test_file (root m) = ch !! "sentiment_summary_latest.csv").
  { rewrite fs_lookup_app, Hres. cbn. by destruct (ch !! _). }
  assert (Hparent : parent test_file = results_path) by apply removelast_last.
  assert (Hne : test_file ≠ []) by (by destruct results_path).
  assert (Hafter : ∀ (m1 : machine) i d t1,
    fs_lookup test_file (root m1) = Some (File i d t1) →
    ∃ m', (test_exists ← path_exists test_file;
           py_assert test_exists;;
           py_assert (bool_decide (parent test_file = results_path));;
           unlink test_file) (State m1 tr) = (Ret tt, State m' tr)
          ∧ fs_lookup test_file (root m') = None).
  { intros m1 i d t1 Hf. rewrite bind_path_exists. unfold exists_in. cbn [os]. rewrite Hf.
    unfold py_assert. rewrite bind_ret, bool_decide_true, bind_ret by done.
    unfold unlink. rewrite bind_get_machine. cbn [os]. rewrite Hf.
    eexists. split; [reflexivity|]. cbn [root set_root]. by apply fs_lookup_deleted. }
  unfold write_text. rewrite !bind_bind, !bind_get_machine. cbn [os].
  rewrite Hfile, Hparent, Hres. rewrite Hparent in Hafter.
  destruct (ch !! "sentiment_summary_latest.csv") as [[i d t0|t0 ch0]|] eqn:Hentry.
  - unfold put_machine at 1. unfold bind at 1. cbn [os trace].
    eapply Hafter. cbn [root set_root]. erewrite fs_lookup_alter_same; [|exact Hres]. done.
  - rewrite bind_raise. by eexists.
  - unfold put_machine at 1. unfold bind at 1. cbn [os trace].
    eapply Hafter. cbn [root]. erewrite fs_lookup_alter_same; [|exact Hres]. done.
Qed.

(** The test, in full: it passes exactly when it can run, and having passed
    it has removed the summary. *)
Lemma test_dashboard_generator_run st :
  if summary_test_can_run current_dir (os st)
  then ∃ m', test_dashboard_generator_apple_only current_dir csv st
             = (Ret tt, State m' (trace st))
             ∧ fs_lookup test_file (root m') = None
  else ∃ e, test_dashboard_generator_apple_only current_dir csv st = (Raise e, st).
Proof.
  unfold test_dashboard_generator_apple_only, summary_test_can_run. cbv zeta.
  unfold mkdir_exist_ok. rewrite bind_bind, bind_get_machine.
  unfold is_dir, exists_in. rewrite (fs_lookup_app results_path).
  assert (Hparent : parent results_path = current_dir) by apply removelast_last.
  rewrite Hparent. destruct st as [m tr]. cbn [os trace].
  destruct (fs_lookup results_path (root m)) as [[i d t|t ch]|] eqn:Hres;
    cbn [orb andb negb mbind option_bind].
  - rewrite andb_false_r. cbn [andb]. rewrite bind_raise. by eexists.
  - rewrite bind_ret. pose proof (write_check_unlink m tr t ch Hres) as Hrun.
    cbn [fs_lookup]. destruct (ch !! "sentiment_summary_latest.csv") as [[?|? ?]|];
      cbn [mbind option_bind negb]; done.
  - destruct (fs_lookup current_dir (root m)) as [[i d t|t ch]|] eqn:Hcd;
      cbn [orb andb negb]; [rewrite bind_raise; by eexists| |rewrite bind_raise; by eexists].
    unfold put_machine at 1. unfold bind at 1. cbn [os trace].
    match goal with |- context [State ?m1 tr] =>
      pose proof (write_check_unlink m1 tr (clock m) ∅) as Hrun
    end.
    rewrite lookup_empty in Hrun. apply Hrun. cbn [root set_root].
    erewrite fs_lookup_alter_same; [|exact Hcd]. done.
Qed.

(** X21: [test_dashboard_generator_apple_only] writes its data to
    [results/sentiment_summary_latest.csv], the summary the report is made
    from, and removes that file at the end: after a run that passed there is
    no latest summary, whatever was in it before. *)
Theorem test_dashboard_generator_deletes_summary st st' :
  test_dashboard_generator_apple_only current_dir csv st = (Ret tt, st') →
  fs_lookup test_file (root (os st')) = None.
Proof.
  intros Hrun. pose proof (test_dashboard_generator_run st) as Hcases.
  destruct (summary_test_can_run current_dir (os st)).
  - destruct Hcases as (m' & Heq & Hgone). rewrite Hrun in Heq. by injection Heq as ->.
  - destruct Hcases as (e & Heq). by rewrite Hrun in Heq.
Qed.

(** X22: The test passes exactly when the results directory is there, or can
    be made in the directory of the test module, and the summary path is not
    a directory; it fails without touching anything otherwise. *)
Theorem test_dashboard_generator_passes_iff st :
  ((test_dashboard_generator_apple_only current_dir csv st).1 = Ret tt
   ↔ summary_test_can_run current_dir (os st) = true)
  ∧ (summary_test_can_run current_dir (os st) = false →
     (test_dashboard_generator_apple_only current_dir csv st).2 = st).
Proof.
  pose proof (test_dashboard_generator_run st) as Hcases.
  destruct (summary_test_can_run current_dir (os st)).
  - destruct Hcases as (m' & -> & _). by split.
  - destruct Hcases as (e & ->). by split.
Qed.

End SummaryTest.

(** ** The further properties on the demo project *)

Lemma run_command_without_attempts_witness :
  0 ≤ 0
  ∧ run_command_with_logging (demo_world all_succeed) ["git"; "push"] "git push" 0 demo_state
    = (Ret false, State (os demo_state) (trace demo_state ++ [Enter "run_command_with_logging"])).
Proof.
  split; [lia|].
  apply (run_command_without_attempts (demo_world all_succeed) ["git"; "push"] "git push" 0
           demo_state).
  lia.
Defined.

Lemma run_command_ignores_max_retries_witness :
  0 < 3
  ∧ let once := run_command_with_logging (demo_world fails_once) ["git"; "push"] "git push" 1
                  demo_state in
    let many := run_command_with_logging (demo_world fails_once) ["git"; "push"] "git push" 3
                  demo_state in
    many.1 = once.1
    ∧ os many.2 = os once.2
    ∧ spawned (trace many.2) = spawned (trace once.2)
    ∧ List.length (spawned (trace many.2)) = S (List.length (spawned (trace demo_state)))
    ∧ List.filter is_sleep (trace many.2) = List.filter is_sleep (trace demo_state).
Proof.
  split; [lia|].
  apply (run_command_ignores_max_retries (demo_world fails_once) ["git"; "push"] "git push" 3
           demo_state).
  lia.
Defined.

Lemma send_email_report_without_summary_witness :
  exists_in (os bare_state) (latest_summary (demo_world all_succeed)) = false
  ∧ dated_summaries (demo_world all_succeed) (os bare_state) = []
  ∧ ∃ evs,
      send_email_report (demo_world all_succeed) bare_state
      = (Ret false, State (os bare_state) (trace bare_state ++ evs))
      ∧ Forall (λ e, is_send_email e = false) evs.
Proof.
  split; [vm_compute; reflexivity|]. split; [vm_compute; reflexivity|].
  apply (send_email_report_without_summary (demo_world all_succeed) bare_state);
    vm_compute; reflexivity.
Defined.

Lemma cleanup_old_logs_without_log_dir_witness :
  is_dir (logs_dir (demo_world all_succeed)) (root (os bare_state)) = false
  ∧ cleanup_old_logs (demo_world all_succeed) bare_state
    = (Ret tt, State (os bare_state) (trace bare_state ++ [Enter "cleanup_old_logs"])).
Proof.
  split; [vm_compute; reflexivity|].
  apply (cleanup_old_logs_without_log_dir (demo_world all_succeed) bare_state).
  vm_compute. reflexivity.
Defined.

Lemma cleanup_old_logs_stops_at_old_directory_witness :
  glob_names "*.log" (logs_dir (demo_world all_succeed)) (root (os demo_state_old_dir))
  = [] ++ "old.log" :: ["stale.log"]
  ∧ fs_lookup (logs_dir (demo_world all_succeed) ++ ["old.log"]) (root (os demo_state_old_dir))
    = Some (Dir 0 ∅)
  ∧ fs_lookup (logs_dir (demo_world all_succeed) ++ ["stale.log"])
      (root (os demo_state_old_dir))
    = Some (File 31 "b" 0)
  ∧ ∃ st' msg,
      cleanup_old_logs (demo_world all_succeed) demo_state_old_dir = (Ret tt, st')
      ∧ last (trace st') = Some (Log WARNING msg)
      ∧ fs_lookup (logs_dir (demo_world all_succeed) ++ ["stale.log"]) (root (os st'))
        = Some (File 31 "b" 0).
Proof.
  assert (Hglob : glob_names "*.log" (logs_dir (demo_world all_succeed))
                    (root (os demo_state_old_dir)) = [] ++ "old.log" :: ["stale.log"]).
  { vm_compute. reflexivity. }
  assert (Hdir : fs_lookup (logs_dir (demo_world all_succeed) ++ ["old.log"])
                   (root (os demo_state_old_dir)) = Some (Dir 0 ∅)).
  { vm_compute. reflexivity. }
  assert (Hstale : fs_lookup (logs_dir (demo_world all_succeed) ++ ["stale.log"])
                     (root (os demo_state_old_dir)) = Some (File 31 "b" 0)).
  { vm_compute. reflexivity. }
  split; [exact Hglob|]. split; [exact Hdir|]. split; [exact Hstale|].
  destruct (cleanup_old_logs_stops_at_old_directory (demo_world all_succeed)
              demo_state_old_dir [] "old.log" ["stale.log"] 0 ∅ Hglob Hdir)
    as (st' & msg & Hrun & Hlast & Hframe).
  { cbn. lia. }
  exists st', msg. split; [exact Hrun|]. split; [exact Hlast|].
  rewrite (Hframe "stale.log" []); [exact Hstale|].
  apply list_elem_of_further. apply list_elem_of_here.
Defined.

Lemma copy_to_docs_blocked_witness :
  (is_dir (script_dir (demo_world all_succeed)) (root (os bare_state)) = false
   ∨ is_file (docs_dir (demo_world all_succeed)) (root (os bare_state)) = true)
  ∧ ∃ st', copy_to_docs (demo_world all_succeed) bare_state = (Ret false, st')
           ∧ os st' = os bare_state.
Proof.
  assert (Hcase : is_dir (script_dir (demo_world all_succeed)) (root (os bare_state)) = false
                  ∨ is_file (docs_dir (demo_world all_succeed)) (root (os bare_state)) = true).
  { left. vm_compute. reflexivity. }
  split; [exact Hcase|].
  exact (copy_to_docs_blocked (demo_world all_succeed) bare_state Hcase).
Defined.

Lemma copy_to_docs_publishes_latest_witness :
  copy_to_docs (demo_world all_succeed) demo_state
  = (Ret true, (copy_to_docs (demo_world all_succeed) demo_state).2)
  ∧ data_at (docs_dir (demo_world all_succeed) ++ ["index.html"])
      (root (os (copy_to_docs (demo_world all_succeed) demo_state).2))
    = Some "<html>report</html>"
  ∧ data_at (docs_dir (demo_world all_succeed) ++ ["articles_AAPL_latest.html"])
      (root (os (copy_to_docs (demo_world all_succeed) demo_state).2))
    = Some "<html>AAPL</html>"
  ∧ ¬ is_Some (fs_lookup (docs_dir (demo_world all_succeed) ++ ["articles_AAPL_20240101.html"])
                 (root (os (copy_to_docs (demo_world all_succeed) demo_state).2))).
Proof.
  assert (Hrun : copy_to_docs (demo_world all_succeed) demo_state
                 = (Ret true, (copy_to_docs (demo_world all_succeed) demo_state).2)).
  { apply injective_projections; [vm_compute; reflexivity|reflexivity]. }
  split; [exact Hrun|].
  destruct (copy_to_docs_publishes_latest (demo_world all_succeed) demo_state _ Hrun)
    as (Hpages & Hreport & Honly).
  split; [|split].
  - rewrite (Hreport "index.html"); [vm_compute; reflexivity|apply list_elem_of_here].
  - destruct (Hpages "articles_AAPL_latest.html") as [_ Hdata].
    + vm_compute. apply list_elem_of_here.
    + rewrite Hdata. vm_compute. reflexivity.
  - intros Hsome. destruct (Honly _ Hsome) as [_ [Hin|[Hin _]]].
    + apply glob_names_match in Hin. vm_compute in Hin. discriminate.
    + apply elem_of_cons in Hin as [Heq|Hin]; [discriminate|].
      apply list_elem_of_singleton in Hin. discriminate.
Defined.

Lemma copy_to_docs_without_results_witness :
  fs_lookup (docs_dir (demo_world all_succeed) ++ ["sentinel.txt"])
    (root (os demo_state_no_results)) = Some (File 21 "sentinel" 1)
  ∧ ∃ st' t,
      copy_to_docs (demo_world all_succeed) demo_state_no_results = (Ret true, st')
      ∧ fs_lookup (docs_dir (demo_world all_succeed)) (root (os st')) = Some (Dir t ∅).
Proof.
  split; [vm_compute; reflexivity|].
  apply (copy_to_docs_without_results (demo_world all_succeed) demo_state_no_results);
    vm_compute; reflexivity.
Defined.

Lemma main_reports_though_disabled_witness :
  (main (demo_world all_succeed) demo_state).1 = Ret true
  ∧ ∃ before after,
      trace (main (demo_world all_succeed) demo_state).2
      = trace demo_state ++ before ++ Import "utils.email.report_sender" :: after
      ∧ Log INFO "📧 Email Report: Disabled as requested" ∈ after.
Proof.
  assert (Htrue : (main (demo_world all_succeed) demo_state).1 = Ret true).
  { vm_compute. reflexivity. }
  split; [exact Htrue|].
  exact (main_reports_though_disabled (demo_world all_succeed) demo_state Htrue).
Defined.

Lemma main_sends_real_email_witness :
  children_keep_machine (demo_world all_succeed)
  ∧ (main (demo_world all_succeed) demo_state).1 = Ret true
  ∧ SendEmail [["ticker,average_sentiment AAPL,0.15"]] false
    ∈ trace (main (demo_world all_succeed) demo_state).2
  ∧ Log INFO "📧 Email Report: Disabled as requested"
    ∈ trace (main (demo_world all_succeed) demo_state).2.
Proof.
  assert (Hkeep : children_keep_machine (demo_world all_succeed)).
  { intros n cmd m. reflexivity. }
  assert (Htrue : (main (demo_world all_succeed) demo_state).1 = Ret true).
  { vm_compute. reflexivity. }
  split; [exact Hkeep|]. split; [exact Htrue|].
  apply (main_sends_real_email (demo_world all_succeed) demo_state 13%nat
           "ticker,average_sentiment AAPL,0.15" 102 [["ticker,average_sentiment AAPL,0.15"]]
           Hkeep Htrue); reflexivity.
Defined.


Lemma test_dashboard_generator_deletes_summary_witness :
  fs_lookup ((demo_dir ++ ["results"]) ++ ["sentiment_summary_latest.csv"])
    (root (os demo_state))
  = Some (File 13 "ticker,average_sentiment AAPL,0.15" 102)
  ∧ test_dashboard_generator_apple_only demo_dir "ticker,company" demo_state
    = (Ret tt, (test_dashboard_generator_apple_only demo_dir "ticker,company" demo_state).2)
  ∧ fs_lookup ((demo_dir ++ ["results"]) ++ ["sentiment_summary_latest.csv"])
      (root (os (test_dashboard_generator_apple_only demo_dir "ticker,company" demo_state).2))
    = None.
Proof.
  assert (Hrun : test_dashboard_generator_apple_only demo_dir "ticker,company" demo_state
                 = (Ret tt,
                    (test_dashboard_generator_apple_only demo_dir "ticker,company"
                       demo_state).2)).
  { apply injective_projections; [vm_compute; reflexivity|reflexivity]. }
  split; [vm_compute; reflexivity|]. split; [exact Hrun|].
  exact (test_dashboard_generator_deletes_summary demo_dir "ticker,company" demo_state _ Hrun).
Defined.
